(** * Precompiled XQA kernel registry and dispatcher

    A shallow embedding of
    [cpp/tensorrt_llm/kernels/decoderMaskedMultiheadAttention/decoderXQAImplPrecompiled.cpp]:
    the kernel list ([XQAKernelList]) with its loader [loadXQAKernels], the
    lookup [supportConfig], the heuristic [mayHavePerfGain], the dispatcher
    [run], and the per-device loader table of [XQAKernelLoader::Get].

    Machine integers are [Z] with the conversions written out, single
    precision numbers are [spec_float] at precision 24, the two
    [std::unordered_map]s are [gmap]s, and every call into the CUDA driver
    is an entry of an explicit log, answered by a driver given as a
    parameter. *)

From Stdlib Require Import ZArith String List Bool Lia.
From Stdlib Require Import SpecFloat.
From stdpp Require Import base option list gmap strings.

Local Open Scope Z_scope.

(* ================================================================== *)
(** * Part I: the program                                             *)
(* ================================================================== *)

(** ** Machine integers *)

(** [static_cast<unsigned int>(z)], and the value an [unsigned int]
    variable takes when it is initialised from an [int] expression. *)
Definition to_uint (z : Z) : Z := z mod 2 ^ 32.

(** The [int] a two's complement machine keeps of [z]:
    [static_cast<int>(u)] on an unsigned [u], and the result of [int]
    arithmetic that leaves the range. *)
Definition to_int (z : Z) : Z := (z + 2 ^ 31) mod 2 ^ 32 - 2 ^ 31.

Definition INT_MIN : Z := - 2 ^ 31.
Definition INT_MAX : Z := 2 ^ 31 - 1.

Definition int_range (z : Z) : Prop := INT_MIN <= z <= INT_MAX.
Definition uint_range (z : Z) : Prop := 0 <= z < 2 ^ 32.

(** [a * b] on [int]. *)
Definition int_mul (a b : Z) : Z := to_int (a * b).

(** [a / b] on [int]: C++ division truncates towards zero. *)
Definition int_div (a b : Z) : Z := to_int (Z.quot a b).

(** [a % b] on [int]. *)
Definition int_rem (a b : Z) : Z := Z.rem a b.

(** ** Single precision *)

Module F32.
Definition prec : Z := 24.
Definition emax : Z := 128.

(** [static_cast<float>(z)] for an integer [z]: round to nearest, ties
    to even. *)
Definition of_Z (z : Z) : spec_float := binary_normalize prec emax z 0 false.

Definition mul (x y : spec_float) : spec_float := SFmul prec emax x y.

(** [x >= y]; false as soon as one side is a NaN. *)
Definition geb (x y : spec_float) : bool :=
  match SFcompare x y with
  | Some Gt | Some Eq => true
  | _ => false
  end.

(** The literal [1.0f]. *)
Definition one : spec_float := Eval cbv in of_Z 1.
End F32.

(** ** Pointers *)

(** Addresses; [nullptr] is address 0. *)
Definition ptr : Type := N.
Definition nullptr : ptr := 0%N.
Definition is_null (p : ptr) : bool := (p =? 0)%N.

(** ** Request parameters and catalog entries *)

(** Modelled from the spec: the enumeration [Data_type] ([XQADataType] is
    another name of it) is declared in a header outside this translation
    unit. It is the numeric type of the activations and of the KV cache;
    the enumerators are the ones this file names and the other two a
    kernel list or a KV cache can have. *)
Inductive Data_type : Type :=
  | DATA_TYPE_FP16
  | DATA_TYPE_BF16
  | DATA_TYPE_INT8
  | DATA_TYPE_E4M3.

Abbreviation XQADataType := Data_type (only parsing).

(** Modelled from the spec: [tc::QuantMode] is declared outside this
    translation unit; [run] asks it whether the KV cache is 8-bit integer
    or 8-bit float. *)
Record QuantMode : Type := {
  hasInt8KvCache : bool;
  hasFp8KvCache : bool
}.

Inductive KvCacheDataType : Type := KV_BASE | KV_INT8 | KV_FP8.

(** Modelled from the spec: [XQAParams], the request parameters, is
    declared in a header outside this translation unit. These are the
    members this file reads for the lookup key, the heuristic and the
    launch, with the C++ type each is used at. *)
Record XQAParams : Type := {
  head_size : Z;                 (* int *)
  num_q_heads : Z;               (* int *)
  num_kv_heads : Z;              (* int *)
  beam_width : Z;                (* int *)
  batch_size : Z;                (* unsigned int *)
  timestep : Z;                  (* int *)
  generation_input_length : Z;   (* int *)
  tokens_per_block : Z;          (* int *)
  total_num_input_tokens : Z;    (* int *)
  kv_cache_data_type : Data_type;
  kv_cache_quant_mode : QuantMode;
  paged_kv_cache : bool;
  multi_block_mode : bool;
  multi_query_tokens : bool;
  output : ptr;
  fp8_out_scale : ptr;
  spec_decoding_packed_mask : ptr
}.

(** Modelled from the spec: [XQAKernelRuntimeHashKey], the configuration
    key, is declared in a header outside this translation unit. It is a
    pure value of eight members, equal when all members are equal. The
    order is the order of the aggregate initialisers in this file. *)
Record XQAKernelRuntimeHashKey : Type := {
  key_kv_data_type : Data_type;
  key_head_size : Z;
  key_beam_size : Z;
  key_num_q_heads_per_kv : Z;
  key_m_tilesize : Z;
  key_tokens_per_page : Z;
  key_paged_kv_cache : bool;
  key_multi_query_tokens : bool
}.

(** Modelled from the spec: [XQAKernelMetaInfo], the kernel descriptor,
    is declared with the compiled-in table [sXqaKernelMetaInfo] in a
    header outside this translation unit. These are the members this file
    reads. They live in a module of their own because the kernel list has
    members of the same names. *)
Module Meta.
Record t : Type := {
  mDataType : Data_type;
  mKVDataType : Data_type;
  mHeadDim : Z;
  mBeamWidth : Z;
  mNumQHeadsOverKV : Z;
  mMTileSize : Z;
  mTokensPerPage : Z;
  mPagedKVCache : bool;
  mMultiQueryTokens : bool;
  mSM : Z;
  mCubin : ptr;
  mFuncName : string
}.
End Meta.

Abbreviation XQAKernelMetaInfo := Meta.t (only parsing).

#[global] Instance Data_type_eq_dec : EqDecision Data_type.
Proof. solve_decision. Defined.

Definition Data_type_code (d : Data_type) : nat :=
  match d with
  | DATA_TYPE_FP16 => 0
  | DATA_TYPE_BF16 => 1
  | DATA_TYPE_INT8 => 2
  | DATA_TYPE_E4M3 => 3
  end%nat.

Definition Data_type_of_code (n : nat) : Data_type :=
  match n with
  | O => DATA_TYPE_FP16
  | S O => DATA_TYPE_BF16
  | S (S O) => DATA_TYPE_INT8
  | _ => DATA_TYPE_E4M3
  end.

#[global] Instance Data_type_countable : Countable Data_type.
Proof.
  apply (inj_countable' Data_type_code Data_type_of_code).
  intros []; reflexivity.
Defined.

#[global] Instance XQAKernelRuntimeHashKey_eq_dec :
  EqDecision XQAKernelRuntimeHashKey.
Proof. solve_decision. Defined.

Definition key_to_tuple (k : XQAKernelRuntimeHashKey) :
  Data_type * Z * Z * Z * Z * Z * bool * bool :=
  (key_kv_data_type k, key_head_size k, key_beam_size k,
   key_num_q_heads_per_kv k, key_m_tilesize k, key_tokens_per_page k,
   key_paged_kv_cache k, key_multi_query_tokens k).

Definition key_of_tuple (t : Data_type * Z * Z * Z * Z * Z * bool * bool) :
  XQAKernelRuntimeHashKey :=
  let '(a, b, c, d, e, f, g, h) := t in
  Build_XQAKernelRuntimeHashKey a b c d e f g h.

#[global] Instance XQAKernelRuntimeHashKey_countable :
  Countable XQAKernelRuntimeHashKey.
Proof.
  apply (inj_countable' key_to_tuple key_of_tuple).
  intros []; reflexivity.
Defined.

(** ** The CUDA driver and the log of calls *)

Inductive CUresult : Type :=
  | CUDA_SUCCESS
  | CUDA_ERROR (code : Z).

Definition CUmodule : Type := N.
Definition CUfunction : Type := N.

(** Modelled from the spec: [XQAKernelType] is declared in a header
    outside this translation unit. It is the specialization tag a cubin
    exports in its global [kernelType]; this file names two values. *)
Inductive XQAKernelType : Type :=
  | kAMPERE_WARP_SPECIALIZED
  | kHOPPER_WARP_SPECIALIZED.

#[global] Instance XQAKernelType_eq_dec : EqDecision XQAKernelType.
Proof. solve_decision. Defined.

(** What reading a global of a loaded module gives: its value, the
    driver's [CUDA_ERROR_NOT_FOUND], or another driver error. *)
Inductive GlobalReply (T : Type) : Type :=
  | GlobalFound (v : T)
  | GlobalNotFound
  | GlobalError (code : Z).
Arguments GlobalFound {T} v.
Arguments GlobalNotFound {T}.
Arguments GlobalError {T} code.

Definition reply_found {T} (r : GlobalReply T) : bool :=
  match r with GlobalFound _ => true | _ => false end.

(** The KV cache buffer, the beam search block and the tensor map are
    passed through unread. *)
Definition KVCacheBuffer : Type := N.
Definition BeamSearchParams : Type := N.
Definition CUtensorMap : Type := N.

(** One slot of a [void* kernelParams[]] array. A slot holds the address
    of a variable of [run]; the constructor names the variable and
    carries the value the kernel reads through the address. *)
Inductive KernelArg : Type :=
  | Arg_qSeqLen (v : Z)
  | Arg_num_k_heads (v : Z)
  | Arg_log2HeadGrpSize (v : Z)
  | Arg_output (p : ptr)
  | Arg_xqa_q_input_ptr (p : ptr)
  | Arg_maskPtr (p : ptr)
  | Arg_kvCacheParams (c : KVCacheBuffer)
  | Arg_beamSearchParams (b : BeamSearchParams)
  | Arg_batch_size (v : Z)
  | Arg_kvCacheQuantOrig (f : spec_float)
  | Arg_kv_scale_quant_orig (p : ptr)
  | Arg_tensorMap (t : CUtensorMap)
  | Arg_semaphores (p : ptr)
  | Arg_scratch (p : ptr).

Inductive Slot : Type :=
  | Slot_uninit
  | Slot_null
  | Slot_arg (a : KernelArg).

Record LaunchConfig : Type := {
  lc_func : CUfunction;
  lc_grid : Z * Z * Z;
  lc_block : Z * Z * Z;
  lc_sharedMemBytes : Z;
  lc_kernelParams : list Slot
}.

(** Everything the code does outside its own object, in order. *)
Inductive Event : Type :=
  | EvModuleLoadData (cubin : ptr) (r : CUresult) (hmod : CUmodule)
  | EvModuleGetFunction (hmod : CUmodule) (name : string) (r : CUresult)
      (f : CUfunction)
  | EvGetGlobalVar (hmod : CUmodule) (name : string) (found : bool)
  | EvFuncSetAttribute (f : CUfunction) (bytes : Z) (r : CUresult)
  | EvFunctionsFind (key : XQAKernelRuntimeHashKey)
  | EvBuildDecoderInfo (batchSize maxQSeqLength : Z)
  | EvQKVPreprocessing (q_output : ptr) (cache_type : KvCacheDataType)
  | EvSyncCheck (ok : bool)
  | EvMemsetAsync (p : ptr) (bytes : Z) (ok : bool)
  | EvLaunchKernel (c : LaunchConfig) (r : CUresult)
  | EvConversion (dst src : ptr) (n : Z).

(** The driver answers each call from the calls made so far. *)
Record Driver : Type := {
  cuModuleLoadData : list Event -> ptr -> CUresult * CUmodule;
  cuModuleGetFunction :
    list Event -> CUmodule -> string -> CUresult * CUfunction;
  readGlobal_uint32 : list Event -> CUmodule -> string -> GlobalReply Z;
  readGlobal_kernelType :
    list Event -> CUmodule -> string -> GlobalReply XQAKernelType;
  cuFuncSetAttribute : list Event -> CUfunction -> Z -> CUresult;
  cuLaunchKernel : list Event -> LaunchConfig -> CUresult;
  cudaMemsetAsync : list Event -> ptr -> Z -> bool;
  cudaSync : list Event -> bool
}.

(** ** The kernel list *)

Record XQAKernelFuncInfo : Type := {
  mMetaInfoIndex : nat;
  mSharedMemBytes : Z;
  mDeviceFunction : CUfunction;
  mKernelType : XQAKernelType
}.

Record XQAKernelList : Type := {
  mDataType : Data_type;
  mKernelMeta : list Meta.t;
  mSM : Z;
  mModules : gmap ptr CUmodule;
  mForceXQA : bool;
  mFunctions : gmap XQAKernelRuntimeHashKey XQAKernelFuncInfo
}.

Definition mKernelMetaCount (this : XQAKernelList) : nat :=
  length (mKernelMeta this).

(** The constructor: the table and the override come from outside, both
    maps start empty. *)
Definition XQAKernelList_new (table : list Meta.t) (forceXQAKernels : bool)
    (type : Data_type) (sm : Z) : XQAKernelList :=
  {| mDataType := type; mKernelMeta := table; mSM := sm; mModules := ∅;
     mForceXQA := forceXQAKernels; mFunctions := ∅ |}.

(** ** Outcomes and the monad of the methods *)

(** A call returns, throws ([TLLM_CHECK], [cuErrCheck], an empty
    [std::optional]), or does something C++ leaves undefined. *)
Inductive outcome (A : Type) : Type :=
  | Done (a : A)
  | Fatal (msg : string)
  | Undefined (what : string).
Arguments Done {A} a.
Arguments Fatal {A} msg.
Arguments Undefined {A} what.

Record St : Type := {
  self : XQAKernelList;
  log : list Event
}.

(** A throw keeps what was done before it. *)
Definition M (A : Type) : Type := St -> St * outcome A.

Definition ret {A} (a : A) : M A := fun st => (st, Done a).

Definition bind {A B} (m : M A) (f : A -> M B) : M B :=
  fun st =>
    match m st with
    | (st', Done a) => f a st'
    | (st', Fatal msg) => (st', Fatal msg)
    | (st', Undefined what) => (st', Undefined what)
    end.

Declare Scope xqa_scope.
Delimit Scope xqa_scope with xqa.
Notation "'do' x <- m ; k" := (bind m (fun x => k))
  (at level 10, x name, m at level 100, k at level 200,
   format "'[v' 'do'  x  <-  m ; '/' k ']'") : xqa_scope.
Notation "'run_' m ; k" := (bind m (fun _ => k))
  (at level 10, m at level 100, k at level 200,
   format "'[v' 'run_'  m ; '/' k ']'") : xqa_scope.
Local Open Scope xqa_scope.

Definition fatal {A} (msg : string) : M A := fun st => (st, Fatal msg).
Definition undefined {A} (what : string) : M A :=
  fun st => (st, Undefined what).

Definition this_ : M XQAKernelList := fun st => (st, Done (self st)).

Definition set_this (f : XQAKernelList -> XQAKernelList) : M unit :=
  fun st => ({| self := f (self st); log := log st |}, Done tt).

Definition emit (e : Event) : M unit :=
  fun st => ({| self := self st; log := log st ++ [e] |}, Done tt).

(** Ask the driver, which sees the log. *)
Definition ask {A} (q : list Event -> A) : M A :=
  fun st => (st, Done (q (log st))).

(** [TLLM_CHECK_WITH_INFO(cond, msg)] and [TLLM_CHECK(cond)]. *)
Definition TLLM_CHECK_WITH_INFO (cond : bool) (msg : string) : M unit :=
  if cond then ret tt else fatal msg.

Definition TLLM_CHECK (cond : bool) : M unit :=
  TLLM_CHECK_WITH_INFO cond "Assertion failed".

(** [cuErrCheck(stat, driver)]. *)
Definition cuErrCheck (r : CUresult) : M unit :=
  match r with
  | CUDA_SUCCESS => ret tt
  | CUDA_ERROR _ => fatal "CUDA driver error"
  end.

(** [std::unordered_map::insert]: an existing key keeps its value. *)
Definition map_insert_new `{Countable K} {V} (k : K) (v : V)
    (m : gmap K V) : gmap K V :=
  match m !! k with
  | Some _ => m
  | None => <[k := v]> m
  end.

(** [std::optional::value()]. *)
Definition value {A} (o : option A) : M A :=
  match o with
  | Some a => ret a
  | None => fatal "bad optional access"
  end.

(** [sync_check_cuda_error()]. *)
Definition sync_check_cuda_error (drv : Driver) : M unit :=
  do ok <- ask (cudaSync drv);
  run_ emit (EvSyncCheck ok);
  if ok then ret tt else fatal "CUDA runtime error".

(** Modelled from the spec: [getGlobalVar<T>(driver, hmod, name, required)]
    is defined in a header outside this translation unit. It reads an
    embedded symbol of a loaded module; a symbol that is missing gives an
    empty optional unless it was declared required, and a required symbol
    that is missing, like any other driver error, is fatal. *)
Definition getGlobalVar {T} (read : list Event -> CUmodule -> string ->
    GlobalReply T) (hmod : CUmodule) (name : string) (required : bool) :
    M (option T) :=
  do r <- ask (fun l => read l hmod name);
  run_ emit (EvGetGlobalVar hmod name (reply_found r));
  match r with
  | GlobalFound v => ret (Some v)
  | GlobalNotFound =>
      if required then fatal "Failed to retrieve global variable from cubin."
      else ret None
  | GlobalError _ => fatal "Failed to retrieve global variable from cubin."
  end.

(** ** [XQAKernelList::loadXQAKernels] *)

(** The key under which a catalog entry is stored. *)
Definition meta_hash_key (kernelMeta : Meta.t) : XQAKernelRuntimeHashKey :=
  {| key_kv_data_type := Meta.mKVDataType kernelMeta;
     key_head_size := Meta.mHeadDim kernelMeta;
     key_beam_size := Meta.mBeamWidth kernelMeta;
     key_num_q_heads_per_kv := Meta.mNumQHeadsOverKV kernelMeta;
     key_m_tilesize := Meta.mMTileSize kernelMeta;
     key_tokens_per_page := Meta.mTokensPerPage kernelMeta;
     key_paged_kv_cache := Meta.mPagedKVCache kernelMeta;
     key_multi_query_tokens := Meta.mMultiQueryTokens kernelMeta |}.

(** The first [continue] of the loop body. *)
Definition meta_mismatch (this : XQAKernelList) (kernelMeta : Meta.t) : bool :=
  negb (Meta.mSM kernelMeta =? mSM this)
  || negb (bool_decide (Meta.mDataType kernelMeta = mDataType this)).

Definition set_mModules (f : gmap ptr CUmodule -> gmap ptr CUmodule)
    (this : XQAKernelList) : XQAKernelList :=
  {| mDataType := mDataType this; mKernelMeta := mKernelMeta this;
     mSM := mSM this; mModules := f (mModules this);
     mForceXQA := mForceXQA this; mFunctions := mFunctions this |}.

Definition set_mFunctions
    (f : gmap XQAKernelRuntimeHashKey XQAKernelFuncInfo ->
         gmap XQAKernelRuntimeHashKey XQAKernelFuncInfo)
    (this : XQAKernelList) : XQAKernelList :=
  {| mDataType := mDataType this; mKernelMeta := mKernelMeta this;
     mSM := mSM this; mModules := mModules this;
     mForceXQA := mForceXQA this; mFunctions := f (mFunctions this) |}.

(** The threshold of the shared memory attribute, [46 * 1024]. *)
Definition kSmemThreshold : Z := 46 * 1024.

(** The module of a cubin: the one already in [mModules], else a fresh
    load that is then recorded. *)
Definition moduleOf (drv : Driver) (cubin : ptr) : M CUmodule :=
  do this <- this_;
  match mModules this !! cubin with
  | Some hmod => ret hmod
  | None =>
      do rh <- ask (fun l => cuModuleLoadData drv l cubin);
      run_ emit (EvModuleLoadData cubin (fst rh) (snd rh));
      run_ cuErrCheck (fst rh);
      run_ set_this (set_mModules (map_insert_new cubin (snd rh)));
      ret (snd rh)
  end.

(** The body of the [for] loop, for index [i]. *)
Definition loadKernel (drv : Driver) (i : nat) (kernelMeta : Meta.t) : M unit :=
  do this <- this_;
  if meta_mismatch this kernelMeta then ret tt
  else if is_null (Meta.mCubin kernelMeta) then ret tt
  else
    do hmod <- moduleOf drv (Meta.mCubin kernelMeta);
    do rf <- ask (fun l =>
      cuModuleGetFunction drv l hmod (Meta.mFuncName kernelMeta));
    run_ emit (EvModuleGetFunction hmod (Meta.mFuncName kernelMeta)
                 (fst rf) (snd rf));
    run_ cuErrCheck (fst rf);
    do smem <- getGlobalVar (readGlobal_uint32 drv) hmod "smemSize" true;
    do sharedMemBytes <- value smem;
    do kt <- getGlobalVar (readGlobal_kernelType drv) hmod "kernelType" false;
    let funcInfo :=
      {| mMetaInfoIndex := i;
         mSharedMemBytes := sharedMemBytes;
         mDeviceFunction := snd rf;
         mKernelType := default kAMPERE_WARP_SPECIALIZED kt |} in
    run_ (if kSmemThreshold <=? mSharedMemBytes funcInfo then
            do r <- ask (fun l => cuFuncSetAttribute drv l
                           (mDeviceFunction funcInfo)
                           (mSharedMemBytes funcInfo));
            run_ emit (EvFuncSetAttribute (mDeviceFunction funcInfo)
                         (mSharedMemBytes funcInfo) r);
            cuErrCheck r
          else ret tt);
    set_this (set_mFunctions
                (map_insert_new (meta_hash_key kernelMeta) funcInfo)).

(** The [for] loop from index [i] over the entries still to visit. *)
Fixpoint loadLoop (drv : Driver) (i : nat) (metas : list Meta.t) : M unit :=
  match metas with
  | [] => ret tt
  | kernelMeta :: rest =>
      run_ loadKernel drv i kernelMeta;
      loadLoop drv (S i) rest
  end.

Definition loadXQAKernels (drv : Driver) : M unit :=
  do this <- this_;
  if bool_decide (mFunctions this = ∅)
  then loadLoop drv 0 (mKernelMeta this)
  else ret tt.

(** ** [XQAKernelList::supportConfig] *)

(** [TLLM_CHECK_WITH_INFO(num_q_heads % num_kv_heads == 0, ...)]. The
    remainder itself is undefined for a zero divisor and for
    [INT_MIN % -1]. *)
Definition check_heads (num_q_heads num_kv_heads : Z) : M unit :=
  if num_kv_heads =? 0 then undefined "integer remainder by zero"
  else if (num_q_heads =? INT_MIN) && (num_kv_heads =? -1)
  then undefined "integer overflow in remainder"
  else TLLM_CHECK_WITH_INFO (int_rem num_q_heads num_kv_heads =? 0)
         "numQHeads should be multiple of numKVHeads.".

(** [unsigned int num_q_heads_over_kv = num_q_heads / num_kv_heads]. *)
Definition num_q_heads_over_kv_of (xqaParams : XQAParams) : Z :=
  to_uint (int_div (num_q_heads xqaParams) (num_kv_heads xqaParams)).

(** [xqaParams.paged_kv_cache ?
     static_cast<unsigned int>(xqaParams.tokens_per_block) : 0]. *)
Definition tokens_per_page_of (xqaParams : XQAParams) : Z :=
  if paged_kv_cache xqaParams then to_uint (tokens_per_block xqaParams) else 0.

(** The [hash_key] local of [supportConfig]. *)
Definition supportConfig_hash_key (xqaParams : XQAParams) :
    XQAKernelRuntimeHashKey :=
  let head_size := to_uint (head_size xqaParams) in
  let num_q_heads_over_kv := num_q_heads_over_kv_of xqaParams in
  let beam_width := to_uint (beam_width xqaParams) in
  let kernel_num_q_heads_over_kv :=
    if multi_query_tokens xqaParams then 0 else num_q_heads_over_kv in
  let m_tilesize :=
    if multi_query_tokens xqaParams then 16 else num_q_heads_over_kv in
  {| key_kv_data_type := kv_cache_data_type xqaParams;
     key_head_size := head_size;
     key_beam_size := beam_width;
     key_num_q_heads_per_kv := kernel_num_q_heads_over_kv;
     key_m_tilesize := m_tilesize;
     key_tokens_per_page := tokens_per_page_of xqaParams;
     key_paged_kv_cache := paged_kv_cache xqaParams;
     key_multi_query_tokens := multi_query_tokens xqaParams |}.

(** [mFunctions.find(hash_key)], noted in the log. *)
Definition mFunctions_find (hash_key : XQAKernelRuntimeHashKey) :
    M (option XQAKernelFuncInfo) :=
  run_ emit (EvFunctionsFind hash_key);
  do this <- this_;
  ret (mFunctions this !! hash_key).

Definition supportConfig (xqaParams : XQAParams) : M bool :=
  run_ check_heads (num_q_heads xqaParams) (num_kv_heads xqaParams);
  do findIter <- mFunctions_find (supportConfig_hash_key xqaParams);
  ret (bool_decide (is_Some findIter)).

(** ** [XQAKernelList::mayHavePerfGain] *)

(** The two tuning constants of [decoderXQAConstants.h], a header outside
    this translation unit; they are parameters here. *)
Record XQAConstants : Type := {
  kMinHistoryTokensPerBlock : Z;          (* int *)
  kEnableMinBlockFactor : spec_float      (* float *)
}.

(** [multi_block_count] at the end of the [if]. *)
Definition multi_block_count_of (K : XQAConstants) (xqaParams : XQAParams) : Z :=
  if multi_block_mode xqaParams
  then int_div (timestep xqaParams) (kMinHistoryTokensPerBlock K)
  else 1.

(** [block_count]. *)
Definition block_count_of (K : XQAConstants) (xqaParams : XQAParams) : Z :=
  let num_kv_heads := num_kv_heads xqaParams in
  let batch_size := to_int (batch_size xqaParams) in
  int_mul (int_mul num_kv_heads batch_size) (multi_block_count_of K xqaParams).

Definition mayHavePerfGain (K : XQAConstants) (this : XQAKernelList)
    (xqaParams : XQAParams) (multiprocessor_count : Z) : bool :=
  if mForceXQA this || multi_query_tokens xqaParams then true
  else
    F32.geb
      (F32.mul (F32.of_Z (block_count_of K xqaParams))
         (kEnableMinBlockFactor K))
      (F32.of_Z multiprocessor_count).

(** ** [XQAKernelList::run] *)

(** Modelled from the spec: [XQALaunchParam<KVCacheBuffer>] is declared in
    a header outside this translation unit; these are the members [run]
    reads. *)
Module LaunchParam.
Record t : Type := {
  num_k_heads : Z;
  output : ptr;
  kvCacheParams : KVCacheBuffer;
  beamSearchParams : option BeamSearchParams;
  batch_size : Z;
  kv_scale_quant_orig : ptr;
  cu_seq_lens : ptr;
  rotary_inv_freq_buf : ptr;
  semaphores : ptr;
  scratch : ptr
}.

Definition set_output (p : ptr) (l : t) : t :=
  {| num_k_heads := num_k_heads l; output := p;
     kvCacheParams := kvCacheParams l;
     beamSearchParams := beamSearchParams l;
     batch_size := batch_size l;
     kv_scale_quant_orig := kv_scale_quant_orig l;
     cu_seq_lens := cu_seq_lens l;
     rotary_inv_freq_buf := rotary_inv_freq_buf l;
     semaphores := semaphores l; scratch := scratch l |}.
End LaunchParam.

(** The helpers [run] calls and the architecture constant it compares
    with, all defined outside this translation unit; they are parameters
    here. *)
Record Helpers : Type := {
  buildXQALaunchParams : XQAParams -> KVCacheBuffer -> LaunchParam.t * ptr;
  computeMultiBlockCount : XQAParams -> Z -> Z -> Z;
  makeTensorMapForKVCache : XQAParams -> KVCacheBuffer -> CUtensorMap;
  kSM_90 : Z
}.

Definition kMAX_NB_KERNEL_PARAMS : nat := 11.

(** [unsigned int qSeqLen]. *)
Definition qSeqLen_of (xqaParams : XQAParams) : Z :=
  to_uint (generation_input_length xqaParams).

(** [unsigned int mTileSize = qSeqLen <= 16 ? 16 : 32]. *)
Definition mTileSize_of (xqaParams : XQAParams) : Z :=
  if qSeqLen_of xqaParams <=? 16 then 16 else 32.

(** The [hash_key] local of [run]. *)
Definition run_hash_key (xqaParams : XQAParams) : XQAKernelRuntimeHashKey :=
  let head_size := to_uint (head_size xqaParams) in
  let num_q_heads_over_kv := num_q_heads_over_kv_of xqaParams in
  let beam_width := to_uint (beam_width xqaParams) in
  let mTileSize := mTileSize_of xqaParams in
  let kernel_num_q_heads_over_kv :=
    if multi_query_tokens xqaParams then 0 else num_q_heads_over_kv in
  let kernel_m_tilesize :=
    if multi_query_tokens xqaParams then mTileSize else num_q_heads_over_kv in
  {| key_kv_data_type := kv_cache_data_type xqaParams;
     key_head_size := head_size;
     key_beam_size := beam_width;
     key_num_q_heads_per_kv := kernel_num_q_heads_over_kv;
     key_m_tilesize := kernel_m_tilesize;
     key_tokens_per_page := tokens_per_page_of xqaParams;
     key_paged_kv_cache := paged_kv_cache xqaParams;
     key_multi_query_tokens := multi_query_tokens xqaParams |}.

Definition cache_type_of (xqaParams : XQAParams) : KvCacheDataType :=
  if hasInt8KvCache (kv_cache_quant_mode xqaParams) then KV_INT8
  else if hasFp8KvCache (kv_cache_quant_mode xqaParams) then KV_FP8
  else KV_BASE.

(** [unsigned int log2HeadGrpSize = log2(num_q_heads_over_kv)]: the
    logarithm is taken in double precision and truncated; converting the
    logarithm of zero is undefined. *)
Definition log2HeadGrpSize_of (num_q_heads_over_kv : Z) : M Z :=
  if num_q_heads_over_kv =? 0
  then undefined "conversion of -inf to unsigned int"
  else ret (Z.log2 num_q_heads_over_kv).

(** Modelled from the spec: [divUp] is defined in a header outside this
    translation unit; it is the quotient rounded up, which sizes the grid
    in token blocks per group. *)
Definition divUp (a n : Z) : Z := (a + n - 1) / n.

(** The state of the argument array of the single-token branch:
    [idxNextParam] and [kernelParams]. *)
Definition ParamArray : Type := nat * list Slot.

Definition kernelParams_init : ParamArray :=
  (0%nat, replicate kMAX_NB_KERNEL_PARAMS Slot_uninit).

(** The lambda [appendParam]. *)
Definition appendParam (maxNbKernelParams : nat) (p : KernelArg)
    (ks : ParamArray) : M ParamArray :=
  let '(idxNextParam, kernelParams) := ks in
  run_ TLLM_CHECK (idxNextParam <? maxNbKernelParams)%nat;
  ret (S idxNextParam, <[idxNextParam := Slot_arg p]> kernelParams).

(** [kernelParams[idxNextParam] = nullptr]. *)
Definition terminateParams (ks : ParamArray) : M (list Slot) :=
  let '(idxNextParam, kernelParams) := ks in
  if (idxNextParam <? kMAX_NB_KERNEL_PARAMS)%nat
  then ret (<[idxNextParam := Slot_null]> kernelParams)
  else undefined "kernelParams index out of bounds".

(** The argument array of the single-token branch, from the first
    [appendParam] to the guard. *)
Definition singleTokenParams (xqaParams : XQAParams)
    (launchParams : LaunchParam.t) (xqa_q_input_ptr : ptr)
    (isGmmaKernel : bool) (tensorMap : CUtensorMap) : M (list Slot) :=
  let maxNbKernelParams := if isGmmaKernel then 11%nat else 10%nat in
  let ks := kernelParams_init in
  do ks <- appendParam maxNbKernelParams
             (Arg_num_k_heads (LaunchParam.num_k_heads launchParams)) ks;
  do ks <- appendParam maxNbKernelParams
             (Arg_output (LaunchParam.output launchParams)) ks;
  do ks <- appendParam maxNbKernelParams
             (Arg_xqa_q_input_ptr xqa_q_input_ptr) ks;
  do ks <- appendParam maxNbKernelParams
             (Arg_kvCacheParams (LaunchParam.kvCacheParams launchParams)) ks;
  do ks <- (if beam_width xqaParams >? 1 then
              do b <- value (LaunchParam.beamSearchParams launchParams);
              appendParam maxNbKernelParams (Arg_beamSearchParams b) ks
            else ret ks);
  do ks <- appendParam maxNbKernelParams
             (Arg_batch_size (LaunchParam.batch_size launchParams)) ks;
  do ks <- appendParam maxNbKernelParams
             (Arg_kv_scale_quant_orig
                (LaunchParam.kv_scale_quant_orig launchParams)) ks;
  do ks <- (if isGmmaKernel then
              appendParam maxNbKernelParams (Arg_tensorMap tensorMap) ks
            else ret ks);
  do ks <- appendParam maxNbKernelParams
             (Arg_semaphores (LaunchParam.semaphores launchParams)) ks;
  do ks <- appendParam maxNbKernelParams
             (Arg_scratch (LaunchParam.scratch launchParams)) ks;
  terminateParams ks.

(** The argument array of the multi-token branch. *)
Definition multiTokenParams (qSeqLen log2HeadGrpSize : Z)
    (launchParams : LaunchParam.t) (xqa_q_input_ptr maskPtr : ptr) :
    list Slot :=
  let kvCacheQuantOrig := F32.one in
  [ Slot_arg (Arg_qSeqLen qSeqLen);
    Slot_arg (Arg_num_k_heads (LaunchParam.num_k_heads launchParams));
    Slot_arg (Arg_log2HeadGrpSize log2HeadGrpSize);
    Slot_arg (Arg_output (LaunchParam.output launchParams));
    Slot_arg (Arg_xqa_q_input_ptr xqa_q_input_ptr);
    Slot_arg (Arg_maskPtr maskPtr);
    Slot_arg (Arg_kvCacheParams (LaunchParam.kvCacheParams launchParams));
    Slot_arg (Arg_batch_size (LaunchParam.batch_size launchParams));
    Slot_arg (Arg_kvCacheQuantOrig kvCacheQuantOrig);
    Slot_arg (Arg_scratch (LaunchParam.scratch launchParams)) ].

(** [cuErrCheck(mDriver->cuLaunchKernel(...), mDriver)]. *)
Definition launch (drv : Driver) (c : LaunchConfig) : M unit :=
  do r <- ask (fun l => cuLaunchKernel drv l c);
  run_ emit (EvLaunchKernel c r);
  cuErrCheck r.

(** The branch [if (xqaParams.multi_query_tokens)] of [run]. *)
Definition launchMultiToken (drv : Driver) (ext : Helpers)
    (xqaParams : XQAParams) (launchParams : LaunchParam.t)
    (xqa_q_input_ptr : ptr) (info : XQAKernelFuncInfo)
    (multiprocessor_count : Z) : M unit :=
  let num_q_heads_over_kv := num_q_heads_over_kv_of xqaParams in
  let qSeqLen := qSeqLen_of xqaParams in
  let mTileSize := mTileSize_of xqaParams in
  do log2HeadGrpSize <- log2HeadGrpSize_of num_q_heads_over_kv;
  let nbTokenBlocksPerGrp :=
    to_uint (divUp (to_uint (Z.shiftl qSeqLen log2HeadGrpSize)) mTileSize) in
  let maskPtr := spec_decoding_packed_mask xqaParams in
  let kernelParams :=
    multiTokenParams qSeqLen log2HeadGrpSize launchParams
      xqa_q_input_ptr maskPtr in
  do multi_block <-
    (if multi_block_mode xqaParams then
       let n := computeMultiBlockCount ext xqaParams
                  (batch_size xqaParams) multiprocessor_count in
       let bytes := 4 * to_uint (batch_size xqaParams)
                    * num_kv_heads xqaParams in
       do ok <- ask (fun l => cudaMemsetAsync drv l
                       (LaunchParam.scratch launchParams) bytes);
       run_ emit (EvMemsetAsync (LaunchParam.scratch launchParams) bytes ok);
       run_ (if ok then ret tt else fatal "CUDA runtime error");
       run_ sync_check_cuda_error drv;
       ret n
     else ret 1);
  launch drv
    {| lc_func := mDeviceFunction info;
       lc_grid := (to_uint multi_block,
                   to_uint (num_kv_heads xqaParams * nbTokenBlocksPerGrp),
                   to_uint (batch_size xqaParams));
       lc_block := (128, 1, 2);
       lc_sharedMemBytes := mSharedMemBytes info;
       lc_kernelParams := kernelParams |}.

(** [isGmmaKernel]: the specialization tag asks for a tensor map. *)
Definition isGmmaKernel_of (info : XQAKernelFuncInfo) : bool :=
  bool_decide (mKernelType info = kHOPPER_WARP_SPECIALIZED).

(** The [else] branch of [run]. *)
Definition launchSingleToken (drv : Driver) (ext : Helpers)
    (xqaParams : XQAParams) (kv_cache_buffer : KVCacheBuffer)
    (launchParams : LaunchParam.t) (xqa_q_input_ptr : ptr)
    (info : XQAKernelFuncInfo) (multiprocessor_count : Z) : M unit :=
  do this <- this_;
  let isGmmaKernel := isGmmaKernel_of info in
  run_ TLLM_CHECK
    (eqb isGmmaKernel
       ((mSM this =? kSM_90 ext)
        && bool_decide (kv_cache_data_type xqaParams = DATA_TYPE_E4M3)
        && (beam_width xqaParams =? 1)));
  let tensorMap := makeTensorMapForKVCache ext xqaParams kv_cache_buffer in
  do kernelParams <-
    singleTokenParams xqaParams launchParams xqa_q_input_ptr
      isGmmaKernel tensorMap;
  let multi_block :=
    if multi_block_mode xqaParams
    then computeMultiBlockCount ext xqaParams (batch_size xqaParams)
           multiprocessor_count
    else 1 in
  launch drv
    {| lc_func := mDeviceFunction info;
       lc_grid := (to_uint multi_block,
                   to_uint (num_kv_heads xqaParams),
                   to_uint (batch_size xqaParams));
       lc_block := (128, 1, if isGmmaKernel then 3 else 2);
       lc_sharedMemBytes := mSharedMemBytes info;
       lc_kernelParams := kernelParams |}.

(** [launchParams] after [buildXQALaunchParams] and the redirection of
    the output to the scratch buffer when [fp8_out_scale] is set, and
    [ioScratch]. *)
Definition launchParams_of (ext : Helpers) (xqaParams : XQAParams)
    (kv_cache_buffer : KVCacheBuffer) : LaunchParam.t * ptr :=
  let '(launchParams, ioScratch) :=
    buildXQALaunchParams ext xqaParams kv_cache_buffer in
  let needOutputCvt := negb (is_null (fp8_out_scale xqaParams)) in
  (if needOutputCvt then LaunchParam.set_output ioScratch launchParams
   else launchParams, ioScratch).

Definition run (drv : Driver) (ext : Helpers) (xqaParams : XQAParams)
    (kv_cache_buffer : KVCacheBuffer) (multiprocessor_count : Z) : M unit :=
  run_ check_heads (num_q_heads xqaParams) (num_kv_heads xqaParams);
  let beam_width := to_uint (beam_width xqaParams) in
  let batch_beam_size :=
    to_uint (to_uint (batch_size xqaParams) * beam_width) in
  let cache_type := cache_type_of xqaParams in
  let launchParams :=
    fst (launchParams_of ext xqaParams kv_cache_buffer) in
  let ioScratch := snd (launchParams_of ext xqaParams kv_cache_buffer) in
  let needOutputCvt := negb (is_null (fp8_out_scale xqaParams)) in
  run_ emit (EvBuildDecoderInfo (to_int batch_beam_size)
               (generation_input_length xqaParams));
  run_ sync_check_cuda_error drv;
  let xqa_q_input_ptr := ioScratch in
  run_ emit (EvQKVPreprocessing xqa_q_input_ptr cache_type);
  run_ sync_check_cuda_error drv;
  do findIter <- mFunctions_find (run_hash_key xqaParams);
  match findIter with
  | None => fatal "XQAKernelFunc not found."
  | Some info =>
      run_ (if multi_query_tokens xqaParams
            then launchMultiToken drv ext xqaParams launchParams
                   xqa_q_input_ptr info multiprocessor_count
            else launchSingleToken drv ext xqaParams kv_cache_buffer
                   launchParams xqa_q_input_ptr info multiprocessor_count);
      run_ sync_check_cuda_error drv;
      if needOutputCvt then
        run_ emit (EvConversion (output xqaParams)
                     (LaunchParam.output launchParams)
                     (head_size xqaParams * num_q_heads xqaParams
                      * total_num_input_tokens xqaParams));
        sync_check_cuda_error drv
      else ret tt
  end.

(** ** [XQAKernelLoader::Get] *)

Module Loader.
(** [XQAKernelLoader]: its only member is the map [mKernels]. *)
Definition XQAKernelLoader : Type := gmap (Data_type * Z) XQAKernelList.

(** [static std::unique_ptr<XQAKernelLoader> s_factory[32] = {nullptr}]. *)
Definition s_factory_init : list (option XQAKernelLoader) :=
  replicate 32 None.

(** What [Get] does with the array, in order. *)
Inductive Step : Type :=
  | Step_read (index : Z)
  | Step_assert (holds : bool)
  | Step_write (index : Z).

(** An index the array has. *)
Definition in_bounds (s_factory : list (option XQAKernelLoader))
    (index : Z) : bool :=
  (0 <=? index) && (index <? Z.of_nat (length s_factory)).

(** The condition of [assert(device_id <= 32)]. *)
Definition guard (device_id : Z) : bool := device_id <=? 32.

Record Result : Type := {
  r_factory : list (option XQAKernelLoader);
  r_steps : list Step;
  r_outcome : outcome XQAKernelLoader
}.

(** [Get], with [device_id] the answer of [getDevice()]. The test
    [s_factory[device_id] == nullptr] comes first; an index the array
    does not have makes it undefined. *)
Definition Get (device_id : Z) (s_factory : list (option XQAKernelLoader)) :
    Result :=
  if negb (in_bounds s_factory device_id) then
    {| r_factory := s_factory;
       r_steps := [Step_read device_id];
       r_outcome := Undefined "s_factory index out of bounds" |}
  else
    match s_factory !! Z.to_nat device_id with
    | Some (Some loader) =>
        {| r_factory := s_factory;
           r_steps := [Step_read device_id; Step_read device_id];
           r_outcome := Done loader |}
    | _ =>
        if guard device_id then
          {| r_factory := <[Z.to_nat device_id := Some ∅]> s_factory;
             r_steps := [Step_read device_id; Step_assert true;
                         Step_write device_id; Step_read device_id];
             r_outcome := Done ∅ |}
        else
          {| r_factory := s_factory;
             r_steps := [Step_read device_id; Step_assert false];
             r_outcome := Fatal "Assertion `device_id <= 32' failed." |}
    end.
End Loader.

(** ** What the specification says, where it is compared with the code *)

(** The split factor as the specification words it:
    [max(1, historyLength / minHistoryTokensPerBlock)] when multi-block
    splitting is requested, else 1. *)
Definition spec_splitFactor (K : XQAConstants) (xqaParams : XQAParams) : Z :=
  if multi_block_mode xqaParams
  then Z.max 1 (Z.quot (timestep xqaParams) (kMinHistoryTokensPerBlock K))
  else 1.

(** The work blocks as the specification words them. *)
Definition spec_workBlocks (K : XQAConstants) (xqaParams : XQAParams) : Z :=
  num_kv_heads xqaParams * batch_size xqaParams * spec_splitFactor K xqaParams.

(** The heuristic as the specification words it. *)
Definition spec_mayOutperformGeneric (K : XQAConstants) (forceXQA : bool)
    (xqaParams : XQAParams) (parallelismWidth : Z) : bool :=
  if forceXQA || multi_query_tokens xqaParams then true
  else
    F32.geb
      (F32.mul (F32.of_Z (spec_workBlocks K xqaParams))
         (kEnableMinBlockFactor K))
      (F32.of_Z parallelismWidth).

(** The condition under which the specification has the shared memory
    attribute raised: the requirement exceeds the threshold. *)
Definition spec_raises_attribute (sharedMemBytes : Z) : bool :=
  kSmemThreshold <? sharedMemBytes.

(** The single-token argument list in the order the specification gives:
    KV head count, output pointer, rotary-processed query pointer,
    KV-cache parameter block, the beam-search parameter block iff
    [beamWidth > 1], batch size, KV dequantization scale, the tensor
    descriptor iff one is required, semaphore pointer, scratch pointer. *)
Definition spec_singleTokenArgs (beamWidth : Z) (needsTensorMap : bool)
    (launchParams : LaunchParam.t) (queryPtr : ptr) (tensorMap : CUtensorMap) :
    list KernelArg :=
  [ Arg_num_k_heads (LaunchParam.num_k_heads launchParams);
    Arg_output (LaunchParam.output launchParams);
    Arg_xqa_q_input_ptr queryPtr;
    Arg_kvCacheParams (LaunchParam.kvCacheParams launchParams) ]
  ++ (if beamWidth >? 1
      then match LaunchParam.beamSearchParams launchParams with
           | Some b => [Arg_beamSearchParams b]
           | None => []
           end
      else [])
  ++ [ Arg_batch_size (LaunchParam.batch_size launchParams);
       Arg_kv_scale_quant_orig (LaunchParam.kv_scale_quant_orig launchParams) ]
  ++ (if needsTensorMap then [Arg_tensorMap tensorMap] else [])
  ++ [ Arg_semaphores (LaunchParam.semaphores launchParams);
       Arg_scratch (LaunchParam.scratch launchParams) ].

(** The array the single-token branch ends with: the arguments, the null
    guard, and the slots never written. *)
Definition singleTokenArray (xqaParams : XQAParams)
    (launchParams : LaunchParam.t) (xqa_q_input_ptr : ptr)
    (isGmmaKernel : bool) (tensorMap : CUtensorMap) : list Slot :=
  let args :=
    spec_singleTokenArgs (beam_width xqaParams) isGmmaKernel launchParams
      xqa_q_input_ptr tensorMap in
  map Slot_arg args ++ [Slot_null]
  ++ replicate (kMAX_NB_KERNEL_PARAMS - S (length args)) Slot_uninit.

(** ** The events of one call *)

(** What a launch of [run] carries, depending on the decoding mode. *)
Definition launch_of_run (ext : Helpers) (this : XQAKernelList)
    (p : XQAParams) (kv : KVCacheBuffer) (c : LaunchConfig) : Prop :=
  exists info,
    mFunctions this !! run_hash_key p = Some info
    /\ lc_func c = mDeviceFunction info
    /\ lc_sharedMemBytes c = mSharedMemBytes info
    /\ let lp := fst (launchParams_of ext p kv) in
       let q := snd (launchParams_of ext p kv) in
       if multi_query_tokens p then
         exists l2,
           lc_kernelParams c =
           multiTokenParams (qSeqLen_of p) l2 lp q (spec_decoding_packed_mask p)
       else
         lc_kernelParams c =
         singleTokenArray p lp q (isGmmaKernel_of info)
           (makeTensorMapForKVCache ext p kv)
         /\ (isGmmaKernel_of info = true -> beam_width p = 1)
         /\ ((beam_width p >? 1) = true ->
             is_Some (LaunchParam.beamSearchParams lp)).


(** The part of the log that a call starting in [st] and ending in [st']
    has added. *)
Definition events_since (st st' : St) : list Event :=
  drop (length (log st)) (log st').

Definition is_load_of (cubin : ptr) (e : Event) : bool :=
  match e with
  | EvModuleLoadData c CUDA_SUCCESS _ => bool_decide (c = cubin)
  | _ => false
  end.

(** How often [cubin] was loaded as a module, according to a log. *)
Definition module_loads (cubin : ptr) (l : list Event) : nat :=
  length (List.filter (is_load_of cubin) l).

(** The calls of [cuFuncSetAttribute] in a log: entry point and size. *)
Definition attribute_calls (l : list Event) : list (CUfunction * Z) :=
  omap (fun e => match e with
                 | EvFuncSetAttribute f bytes _ => Some (f, bytes)
                 | _ => None
                 end) l.

(** The launches in a log. *)
Definition launches (l : list Event) : list LaunchConfig :=
  omap (fun e => match e with
                 | EvLaunchKernel c _ => Some c
                 | _ => None
                 end) l.

(** The keys looked up in [mFunctions], according to a log. *)
Definition lookups (l : list Event) : list XQAKernelRuntimeHashKey :=
  omap (fun e => match e with
                 | EvFunctionsFind k => Some k
                 | _ => None
                 end) l.

(** The state after [n] calls of [loadXQAKernels], whatever each call's
    outcome. *)
Fixpoint load_n (drv : Driver) (n : nat) (st : St) : St :=
  match n with
  | O => st
  | S n' => load_n drv n' (fst (loadXQAKernels drv st))
  end.

(** No blob was loaded twice, and a blob that [mModules] does not have
    was not loaded. *)
Definition loads_recorded (st : St) : Prop :=
  forall c,
    (module_loads c (log st) <= 1)%nat
    /\ (mModules (self st) !! c = None -> module_loads c (log st) = 0%nat).

(** An entry of [mFunctions] that was stored for an entry of the table
    which has a blob and is of this list's architecture and data type. *)
Definition entry_from_blob (this : XQAKernelList)
    (k : XQAKernelRuntimeHashKey) (fi : XQAKernelFuncInfo) : Prop :=
  exists m,
    mKernelMeta this !! mMetaInfoIndex fi = Some m
    /\ Meta.mCubin m <> nullptr
    /\ meta_mismatch this m = false
    /\ k = meta_hash_key m.

Definition entries_from_blobs (st : St) : Prop :=
  forall k fi,
    mFunctions (self st) !! k = Some fi -> entry_from_blob (self st) k fi.

(** A kernel list as the constructor leaves it, with an empty log. *)
Definition fresh (table : list Meta.t) (forceXQAKernels : bool)
    (type : Data_type) (sm : Z) : St :=
  {| self := XQAKernelList_new table forceXQAKernels type sm; log := [] |}.

(** The entries of an argument array up to and including the first null
    slot. *)
Fixpoint upto_null (slots : list Slot) : list Slot :=
  match slots with
  | [] => []
  | Slot_null :: _ => [Slot_null]
  | s :: rest => s :: upto_null rest
  end.

(** ** A small installation, for running the definitions *)

Module Sample.
(** The literal [4.0f]. *)
Definition four : spec_float := Eval cbv in F32.of_Z 4.

Definition K : XQAConstants :=
  {| kMinHistoryTokensPerBlock := 512; kEnableMinBlockFactor := four |}.

Definition entry (sm : Z) (ratio tile : Z) (mqt : bool) (cubin : ptr)
    (name : string) : Meta.t :=
  {| Meta.mDataType := DATA_TYPE_FP16; Meta.mKVDataType := DATA_TYPE_FP16;
     Meta.mHeadDim := 128; Meta.mBeamWidth := 1;
     Meta.mNumQHeadsOverKV := ratio; Meta.mMTileSize := tile;
     Meta.mTokensPerPage := 0; Meta.mPagedKVCache := false;
     Meta.mMultiQueryTokens := mqt; Meta.mSM := sm;
     Meta.mCubin := cubin; Meta.mFuncName := name |}.

(** Two kernels in one blob, one entry without a blob, one entry of
    another architecture, and a multi-token kernel of tile size 16. *)
Definition table : list Meta.t :=
  [ entry 80 8 8 false 100%N "kernel_r8";
    entry 80 16 16 false 100%N "kernel_r16";
    entry 80 4 4 false nullptr "kernel_jit";
    entry 90 8 8 false 300%N "kernel_sm90";
    entry 80 0 16 true 200%N "kernel_mqt16" ].

(** Every call succeeds. The module of blob 200 asks for exactly
    [46 * 1024] bytes of shared memory, the others for 1 KiB; no module
    exports a [kernelType]. *)
Definition driver : Driver :=
  {| cuModuleLoadData := fun _ cubin => (CUDA_SUCCESS, (cubin + 1000)%N);
     cuModuleGetFunction := fun _ hmod name =>
       (CUDA_SUCCESS, (hmod * 100 + N.of_nat (String.length name))%N);
     readGlobal_uint32 := fun _ hmod _ =>
       GlobalFound (if (hmod =? 1200)%N then 47104 else 1024);
     readGlobal_kernelType := fun _ _ _ => GlobalNotFound;
     cuFuncSetAttribute := fun _ _ _ => CUDA_SUCCESS;
     cuLaunchKernel := fun _ _ => CUDA_SUCCESS;
     cudaMemsetAsync := fun _ _ _ => true;
     cudaSync := fun _ => true |}.

Definition helpers : Helpers :=
  {| buildXQALaunchParams := fun p kv =>
       ({| LaunchParam.num_k_heads := to_uint (num_kv_heads p);
           LaunchParam.output := output p;
           LaunchParam.kvCacheParams := kv;
           LaunchParam.beamSearchParams :=
             if beam_width p >? 1 then Some 7%N else None;
           LaunchParam.batch_size := batch_size p;
           LaunchParam.kv_scale_quant_orig := 900%N;
           LaunchParam.cu_seq_lens := 901%N;
           LaunchParam.rotary_inv_freq_buf := 902%N;
           LaunchParam.semaphores := 903%N;
           LaunchParam.scratch := 904%N |}, 905%N);
     computeMultiBlockCount := fun _ _ _ => 1;
     makeTensorMapForKVCache := fun _ _ => 77%N;
     kSM_90 := 90 |}.

Definition request (q kv : Z) (mqt : bool) (len : Z) (mbm : bool)
    (history : Z) : XQAParams :=
  {| head_size := 128; num_q_heads := q; num_kv_heads := kv;
     beam_width := 1; batch_size := 4; timestep := history;
     generation_input_length := len; tokens_per_block := 64;
     total_num_input_tokens := 4 * len;
     kv_cache_data_type := DATA_TYPE_FP16;
     kv_cache_quant_mode :=
       {| hasInt8KvCache := false; hasFp8KvCache := false |};
     paged_kv_cache := false; multi_block_mode := mbm;
     multi_query_tokens := mqt; output := 500%N; fp8_out_scale := nullptr;
     spec_decoding_packed_mask := 600%N |}.

(** Single-token: 32 query heads over 4 KV heads. *)
Definition single : XQAParams := request 32 4 false 1 false 2048.

(** Multi-token with query lengths 8 and 17. *)
Definition multi8 : XQAParams := request 32 4 true 8 false 2048.
Definition multi17 : XQAParams := request 32 4 true 17 false 2048.

(** Multi-block mode with a history shorter than one block. *)
Definition short_history : XQAParams := request 32 8 false 1 true 100.

(** Query heads that the KV heads do not divide. *)
Definition ragged : XQAParams := request 30 4 false 1 false 2048.

Definition start : St := fresh table false DATA_TYPE_FP16 80.

(** The kernel list once loaded. *)
Definition loaded : St := fst (loadXQAKernels driver start).
End Sample.

(** ** Ranges in which the heuristic's [int] arithmetic is exact *)

(** The members the heuristic reads hold values of their C++ types, the
    history constant is positive, and neither product leaves [int]. *)
Definition heuristic_in_range (K : XQAConstants) (xqaParams : XQAParams) :
    Prop :=
  0 < kMinHistoryTokensPerBlock K <= INT_MAX
  /\ int_range (num_kv_heads xqaParams)
  /\ 0 <= batch_size xqaParams <= INT_MAX
  /\ int_range (timestep xqaParams)
  /\ int_range (num_kv_heads xqaParams * batch_size xqaParams)
  /\ int_range (num_kv_heads xqaParams * batch_size xqaParams
                * (if multi_block_mode xqaParams
                   then Z.quot (timestep xqaParams)
                          (kMinHistoryTokensPerBlock K)
                   else 1)).


(** ** [XQAKernelLoader::getXQAKernels] *)

(** What the constructor of a kernel list takes from outside: the
    compiled-in table [sXqaKernelMetaInfo] and the answer of
    [forceXQAKernels()]. *)
Record LoaderEnv : Type := {
  sXqaKernelMetaInfo : list Meta.t;
  forceXQAKernels : bool
}.

(** A loader and the log. The key of [mKernels] is the pair
    [XQAKernelLoadHashKey{type, sm}]. *)
Record LoaderSt : Type := {
  mKernels : Loader.XQAKernelLoader;
  llog : list Event
}.

(** [XQAKernelLoader::getXQAKernels], under its lock: a list that is
    cached is returned; otherwise a new list is constructed and loaded,
    and it is cached only when the load returns. *)
Definition XQAKernelLoader_getXQAKernels (drv : Driver) (env : LoaderEnv)
    (type : Data_type) (sm : Z) (ls : LoaderSt) :
    LoaderSt * outcome XQAKernelList :=
  let hash_key := (type, sm) in
  match mKernels ls !! hash_key with
  | None =>
      let newKernel :=
        XQAKernelList_new (sXqaKernelMetaInfo env) (forceXQAKernels env)
          type sm in
      match loadXQAKernels drv {| self := newKernel; log := llog ls |} with
      | (st, Done _) =>
          ({| mKernels := map_insert_new hash_key (self st) (mKernels ls);
              llog := log st |}, Done (self st))
      | (st, Fatal msg) =>
          ({| mKernels := mKernels ls; llog := log st |}, Fatal msg)
      | (st, Undefined what) =>
          ({| mKernels := mKernels ls; llog := log st |}, Undefined what)
      end
  | Some kernels => (ls, Done kernels)
  end.

(** ** The free function [getXQAKernels] and the public methods *)

(** The loaders of all devices, and the log. *)
Record Process : Type := {
  s_factory : list (option Loader.XQAKernelLoader);
  p_log : list Event
}.

(** The answers of [tensorrt_llm::common::getDevice()] and
    [getSMVersion()]. *)
Record Platform : Type := {
  getDevice : Z;
  getSMVersion : Z
}.

(** The two members of [mRunner] this file reads. *)
Module Runner.
Record t : Type := {
  mDataType : Data_type;
  mMultiProcessorCount : Z
}.
End Runner.

Definition Process_init : Process :=
  {| s_factory := Loader.s_factory_init; p_log := [] |}.

(** [XQAKernelLoader::Get().getXQAKernels(type, sm)]: [Get] hands out the
    loader of the current device by reference, so what the method does to
    it stays in [s_factory]. *)
Definition getXQAKernels (drv : Driver) (env : LoaderEnv) (plat : Platform)
    (type : Data_type) (sm : Z) (ps : Process) :
    Process * outcome XQAKernelList :=
  let r := Loader.Get (getDevice plat) (s_factory ps) in
  match Loader.r_outcome r with
  | Done loader =>
      let '(ls, o) :=
        XQAKernelLoader_getXQAKernels drv env type sm
          {| mKernels := loader; llog := p_log ps |} in
      ({| s_factory :=
            <[Z.to_nat (getDevice plat) := Some (mKernels ls)]>
              (Loader.r_factory r);
          p_log := llog ls |}, o)
  | Fatal msg =>
      ({| s_factory := Loader.r_factory r; p_log := p_log ps |}, Fatal msg)
  | Undefined what =>
      ({| s_factory := Loader.r_factory r; p_log := p_log ps |},
       Undefined what)
  end.

(** A [const] method of the kernel list, called through the pointer
    [getXQAKernels] returned. *)
Definition on_kernels {A : Type} (xqa_kernel : XQAKernelList) (m : M A)
    (ps : Process) : Process * outcome A :=
  let '(st, o) := m {| self := xqa_kernel; log := p_log ps |} in
  ({| s_factory := s_factory ps; p_log := log st |}, o).

(** [DecoderXQAImplPrecompiled::shouldUse]. The right operand of [&&] is
    evaluated only when the left one is true. *)
Definition shouldUse (drv : Driver) (env : LoaderEnv) (plat : Platform)
    (K : XQAConstants) (mRunner : Runner.t) (xqaParams : XQAParams)
    (ps : Process) : Process * outcome bool :=
  match getXQAKernels drv env plat (Runner.mDataType mRunner)
          (to_uint (getSMVersion plat)) ps with
  | (ps1, Done xqa_kernel) =>
      match on_kernels xqa_kernel (supportConfig xqaParams) ps1 with
      | (ps2, Done true) =>
          (ps2, Done (mayHavePerfGain K xqa_kernel xqaParams
                        (Runner.mMultiProcessorCount mRunner)))
      | (ps2, o) => (ps2, o)
      end
  | (ps1, Fatal msg) => (ps1, Fatal msg)
  | (ps1, Undefined what) => (ps1, Undefined what)
  end.

(** [DecoderXQAImplPrecompiled::runDispatchBuffer]. Its two branches call
    [run] with the same arguments and differ in the element type
    ([__half] or [__nv_bfloat16]) of the buffers the collaborators see,
    which the log does not record. *)
Definition runDispatchBuffer (drv : Driver) (ext : Helpers)
    (env : LoaderEnv) (plat : Platform) (mRunner : Runner.t)
    (xqa_params : XQAParams) (kv_cache_buffer : KVCacheBuffer)
    (ps : Process) : Process * outcome unit :=
  match getXQAKernels drv env plat (Runner.mDataType mRunner)
          (to_uint (getSMVersion plat)) ps with
  | (ps1, Done xqa_kernel) =>
      let multi_processor_count := Runner.mMultiProcessorCount mRunner in
      on_kernels xqa_kernel
        (run drv ext xqa_params kv_cache_buffer multi_processor_count) ps1
  | (ps1, Fatal msg) => (ps1, Fatal msg)
  | (ps1, Undefined what) => (ps1, Undefined what)
  end.

(** The part of the log that a call on the process has added. *)
Definition p_events_since (ps ps' : Process) : list Event :=
  drop (length (p_log ps)) (p_log ps').

(** The calls of the driver's loader interface in a log. *)
Definition is_loading (e : Event) : bool :=
  match e with
  | EvModuleLoadData _ _ _ | EvModuleGetFunction _ _ _ _
  | EvGetGlobalVar _ _ _ | EvFuncSetAttribute _ _ _ => true
  | _ => false
  end.

(** The work given to the device in a log: preprocessing, memset, launch
    and conversion. *)
Definition is_device_work (e : Event) : bool :=
  match e with
  | EvBuildDecoderInfo _ _ | EvQKVPreprocessing _ _ | EvMemsetAsync _ _ _
  | EvLaunchKernel _ _ | EvConversion _ _ _ => true
  | _ => false
  end.

(** ** More requests for the small installation *)

Module Sample2.
(** Multi-token, query length 8, multi-block mode on. *)
Definition multi8_blocks : XQAParams := Sample.request 32 4 true 8 true 2048.

(** Single-token with [fp8_out_scale] set. *)
Definition single_fp8 : XQAParams :=
  {| head_size := 128; num_q_heads := 32; num_kv_heads := 4;
     beam_width := 1; batch_size := 4; timestep := 2048;
     generation_input_length := 1; tokens_per_block := 64;
     total_num_input_tokens := 4;
     kv_cache_data_type := DATA_TYPE_FP16;
     kv_cache_quant_mode :=
       {| hasInt8KvCache := false; hasFp8KvCache := false |};
     paged_kv_cache := false; multi_block_mode := false;
     multi_query_tokens := false; output := 500%N; fp8_out_scale := 700%N;
     spec_decoding_packed_mask := 600%N |}.

Definition env : LoaderEnv :=
  {| sXqaKernelMetaInfo := Sample.table; forceXQAKernels := false |}.

Definition platform : Platform := {| getDevice := 3; getSMVersion := 80 |}.

Definition runner : Runner.t :=
  {| Runner.mDataType := DATA_TYPE_FP16; Runner.mMultiProcessorCount := 108 |}.

(** A table in which two entries have the same key. *)
Definition twins : list Meta.t :=
  [ Sample.entry 80 8 8 false 100%N "kernel_first";
    Sample.entry 80 8 8 false 100%N "kernel_second" ].

Definition twins_start : St := fresh twins false DATA_TYPE_FP16 80.
End Sample2.

(** The conversions in a log: destination, source and element count. *)
Definition conversions (l : list Event) : list (ptr * ptr * Z) :=
  omap (fun e => match e with
                 | EvConversion dst src n => Some (dst, src, n)
                 | _ => None
                 end) l.

(** ** What the handle map records about the driver *)

(** The entry [fi] under key [k] was made for the table entry of its
    index: the entry point was resolved by that entry's name in the module
    that [mModules] has for that entry's blob, and, if it needs at least
    the threshold of shared memory, its attribute was set. *)
Definition handle_resolved (st : St) (k : XQAKernelRuntimeHashKey)
    (fi : XQAKernelFuncInfo) : Prop :=
  exists m hmod,
    mKernelMeta (self st) !! mMetaInfoIndex fi = Some m
    /\ k = meta_hash_key m
    /\ mModules (self st) !! Meta.mCubin m = Some hmod
    /\ EvModuleGetFunction hmod (Meta.mFuncName m) CUDA_SUCCESS
         (mDeviceFunction fi) ∈ log st
    /\ (kSmemThreshold <= mSharedMemBytes fi ->
        EvFuncSetAttribute (mDeviceFunction fi) (mSharedMemBytes fi)
          CUDA_SUCCESS ∈ log st).

Definition handles_resolved (st : St) : Prop :=
  forall k fi, mFunctions (self st) !! k = Some fi -> handle_resolved st k fi.

(** A table entry this list loads: of its architecture and data type,
    and with a blob. *)
Definition loadable (this : XQAKernelList) (m : Meta.t) : Prop :=
  meta_mismatch this m = false /\ Meta.mCubin m <> nullptr.

(** A request on which the remainder of the head-count check is defined
    and zero. *)
Definition heads_ok (xqaParams : XQAParams) : Prop :=
  num_kv_heads xqaParams <> 0
  /\ (num_kv_heads xqaParams | num_q_heads xqaParams)
  /\ ~ (num_q_heads xqaParams = INT_MIN /\ num_kv_heads xqaParams = -1).

(** The loader after a sequence of [getXQAKernels] calls, whatever each
    call's outcome. *)
Fixpoint get_many (drv : Driver) (env : LoaderEnv)
    (requests : list (Data_type * Z)) (ls : LoaderSt) : LoaderSt :=
  match requests with
  | [] => ls
  | (type, sm) :: rest =>
      get_many drv env rest
        (fst (XQAKernelLoader_getXQAKernels drv env type sm ls))
  end.

(** A loader as [XQAKernelLoader()] leaves it, with an empty log. *)
Definition LoaderSt_init : LoaderSt := {| mKernels := ∅; llog := [] |}.

(** A cached list is the list of its key: of that data type and
    architecture, over the compiled-in table, and with handles of
    loadable entries only. *)
Definition cached_list_ok (env : LoaderEnv) (type : Data_type) (sm : Z)
    (kernels : XQAKernelList) : Prop :=
  mDataType kernels = type
  /\ mSM kernels = sm
  /\ mKernelMeta kernels = sXqaKernelMetaInfo env
  /\ mForceXQA kernels = forceXQAKernels env
  /\ forall k fi,
       mFunctions kernels !! k = Some fi -> entry_from_blob kernels k fi.

(* ================================================================== *)
(** * Part II: what the program does                                  *)
(* ================================================================== *)

(** ** Conversions *)

Lemma to_int_id (z : Z) : int_range z -> to_int z = z.
Proof.
  unfold int_range, INT_MIN, INT_MAX, to_int.
  change (2 ^ 31) with 2147483648. change (2 ^ 32) with 4294967296.
  intros H. rewrite Z.mod_small; lia.
Qed.

Lemma to_uint_id (z : Z) : uint_range z -> to_uint z = z.
Proof.
  unfold uint_range, to_uint. intros H. apply Z.mod_small. exact H.
Qed.

Lemma quot_in_int (a b : Z) : int_range a -> 0 < b -> int_range (Z.quot a b).
Proof.
  unfold int_range, INT_MIN, INT_MAX.
  change (2 ^ 31) with 2147483648.
  intros [Hlo Hhi] Hb.
  destruct (Z.le_gt_cases 0 a) as [Ha | Ha].
  - pose proof (Z.quot_pos a b Ha Hb).
    assert (Z.quot a b <= a) by (apply Z.quot_le_upper_bound; nia).
    lia.
  - assert (Hq : Z.quot a b = - Z.quot (- a) b)
      by (rewrite Z.quot_opp_l by lia; lia).
    assert (0 <= Z.quot (- a) b) by (apply Z.quot_pos; lia).
    assert (Z.quot (- a) b <= - a) by (apply Z.quot_le_upper_bound; nia).
    lia.
Qed.

(** Integers up to [2 ^ 24] convert exactly; above, the conversion rounds
    to nearest, ties to even. *)
Example F32_of_Z_rounds :
  F32.of_Z 16777217 = F32.of_Z 16777216
  /\ F32.of_Z 16777219 = F32.of_Z 16777220
  /\ F32.mul (F32.of_Z 16) Sample.four = F32.of_Z 64
  /\ F32.geb (F32.of_Z 64) (F32.of_Z 64) = true
  /\ F32.geb (F32.of_Z 63) (F32.of_Z 64) = false
  /\ F32.geb (F32.of_Z 0) (F32.of_Z (-1)) = true.
Proof. repeat split; vm_compute; reflexivity. Qed.

Example conversions_wrap :
  to_uint (-1) = 4294967295 /\ to_int 4294967295 = -1
  /\ int_div (-7) 2 = -3 /\ int_rem (-7) 2 = -1.
Proof. repeat split; vm_compute; reflexivity. Qed.

(** ** The heuristic *)

Lemma multi_block_count_exact (K : XQAConstants) (p : XQAParams) :
  0 < kMinHistoryTokensPerBlock K ->
  int_range (timestep p) ->
  multi_block_count_of K p =
    if multi_block_mode p
    then Z.quot (timestep p) (kMinHistoryTokensPerBlock K)
    else 1.
Proof.
  intros HK Ht. unfold multi_block_count_of, int_div.
  destruct (multi_block_mode p); [| reflexivity].
  apply to_int_id, quot_in_int; assumption.
Qed.

Lemma block_count_exact (K : XQAConstants) (p : XQAParams) :
  heuristic_in_range K p ->
  block_count_of K p =
    num_kv_heads p * batch_size p
    * (if multi_block_mode p
       then Z.quot (timestep p) (kMinHistoryTokensPerBlock K)
       else 1).
Proof.
  intros (HK & Hkv & Hb & Ht & Hp1 & Hp2).
  unfold block_count_of, int_mul.
  rewrite multi_block_count_exact by (lia || assumption).
  rewrite (to_int_id (batch_size p))
    by (unfold int_range, INT_MIN, INT_MAX in *; lia).
  rewrite (to_int_id (num_kv_heads p * batch_size p)) by assumption.
  apply to_int_id. assumption.
Qed.

Lemma geb_true_iff (x y : spec_float) :
  F32.geb x y = true <->
  SFcompare x y = Some Gt \/ SFcompare x y = Some Eq.
Proof.
  unfold F32.geb.
  destruct (SFcompare x y) as [[] |]; intuition congruence.
Qed.

(** C1, as the code has it: with the force override or multi-token
    speculation the heuristic answers true; otherwise it answers true
    exactly when, in single precision, [workBlocks * tuningFactor] compares
    greater than or equal to the parallelism width, equality included,
    where [workBlocks] is KV heads times batch size times the split factor
    and the split factor is the truncated quotient of the history length
    by the minimum history per block in multi-block mode (no lower bound
    of 1), else 1. *)
Theorem mayHavePerfGain_threshold (K : XQAConstants) (this : XQAKernelList)
    (p : XQAParams) (multiprocessor_count : Z) :
  heuristic_in_range K p ->
  (mForceXQA this = true \/ multi_query_tokens p = true ->
   mayHavePerfGain K this p multiprocessor_count = true)
  /\ (mForceXQA this = false -> multi_query_tokens p = false ->
      let splitFactor :=
        if multi_block_mode p
        then Z.quot (timestep p) (kMinHistoryTokensPerBlock K)
        else 1 in
      let workBlocks := num_kv_heads p * batch_size p * splitFactor in
      let scaled :=
        F32.mul (F32.of_Z workBlocks) (kEnableMinBlockFactor K) in
      let width := F32.of_Z multiprocessor_count in
      mayHavePerfGain K this p multiprocessor_count = true <->
      SFcompare scaled width = Some Gt \/ SFcompare scaled width = Some Eq).
Proof.
  intros Hr. split.
  - intros [H | H]; unfold mayHavePerfGain; rewrite H;
      [reflexivity | rewrite orb_true_r; reflexivity].
  - intros Hf Hm. cbv zeta. unfold mayHavePerfGain.
    rewrite Hf, Hm. cbn [orb].
    rewrite (block_count_exact K p Hr). apply geb_true_iff.
Qed.

Lemma mayHavePerfGain_threshold_witness :
  mayHavePerfGain Sample.K (self Sample.start) Sample.single 64 = true
  /\ mayHavePerfGain Sample.K (self Sample.start) Sample.multi17 100000 = true.
Proof.
  assert (Hs : heuristic_in_range Sample.K Sample.single)
    by (unfold heuristic_in_range, int_range, INT_MIN, INT_MAX; cbn; lia).
  assert (Hm : heuristic_in_range Sample.K Sample.multi17)
    by (unfold heuristic_in_range, int_range, INT_MIN, INT_MAX; cbn; lia).
  split.
  - apply (proj2 (mayHavePerfGain_threshold Sample.K (self Sample.start)
                    Sample.single 64 Hs) eq_refl eq_refl).
    right. vm_compute. reflexivity.
  - apply (proj1 (mayHavePerfGain_threshold Sample.K (self Sample.start)
                    Sample.multi17 100000 Hm)).
    right. reflexivity.
Defined.

(** C1, as the specification words it, fails: in multi-block mode with a
    history shorter than one block the code's split factor is 0, not 1. *)
Lemma mayHavePerfGain_clamp_counterexample :
  ~ (forall (K : XQAConstants) (this : XQAKernelList) (p : XQAParams)
            (width : Z),
        mayHavePerfGain K this p width =
        spec_mayOutperformGeneric K (mForceXQA this) p width).
Proof.
  intros H.
  specialize (H Sample.K (self Sample.start) Sample.short_history 100).
  vm_compute in H. discriminate H.
Qed.

(** ** The log of one call *)

Lemma St_eta (st : St) : st = {| self := self st; log := log st ++ [] |}.
Proof. destruct st; cbn. rewrite app_nil_r. reflexivity. Qed.

Lemma events_since_app (st : St) (this : XQAKernelList) (evs : list Event) :
  events_since st {| self := this; log := log st ++ evs |} = evs.
Proof. unfold events_since. cbn. apply drop_app_length. Qed.

Lemma events_since_refl (st : St) : events_since st st = [].
Proof. unfold events_since. apply drop_all. Qed.

Lemma lookups_app (l1 l2 : list Event) :
  lookups (l1 ++ l2) = lookups l1 ++ lookups l2.
Proof. apply omap_app. Qed.

Lemma launches_app (l1 l2 : list Event) :
  launches (l1 ++ l2) = launches l1 ++ launches l2.
Proof. apply omap_app. Qed.

(** Unfold the monad and split on every answer. *)
Ltac unfold_monad H :=
  unfold sync_check_cuda_error, mFunctions_find, launch, cuErrCheck,
    TLLM_CHECK, TLLM_CHECK_WITH_INFO, value, bind, emit, ask, ret, fatal,
    undefined, this_, set_this in H.

Ltac split_cases := repeat (case_match; simplify_eq/=).

(** Close a goal [exists evs, st' = {| self := _; log := log st ++ evs |} /\ _]
    once [st'] is explicit. *)
Ltac give_events :=
  first
    [ eexists; split; [apply St_eta |]
    | eexists; split; [rewrite <- ?app_assoc; reflexivity |] ].

(** *** The argument array of the single-token branch *)

Lemma singleTokenParams_eq (p : XQAParams) (lp : LaunchParam.t) (q : ptr)
    (g : bool) (tm : CUtensorMap) (st : St) :
  singleTokenParams p lp q g tm st =
    (st,
     if (beam_width p >? 1) && negb (bool_decide (is_Some (LaunchParam.beamSearchParams lp)))
     then Fatal "bad optional access"
     else Done (singleTokenArray p lp q g tm)).
Proof.
  unfold singleTokenParams, singleTokenArray, spec_singleTokenArgs.
  destruct g, (beam_width p >? 1), (LaunchParam.beamSearchParams lp);
    reflexivity.
Qed.

Lemma upto_null_args (args : list KernelArg) (rest : list Slot) :
  upto_null (map Slot_arg args ++ Slot_null :: rest)
  = map Slot_arg args ++ [Slot_null].
Proof. induction args as [| a args IH]; cbn; [reflexivity | now rewrite IH]. Qed.

(** *** The two launch branches *)

Lemma launchMultiToken_inv drv ext p lp q info mp st st' o :
  launchMultiToken drv ext p lp q info mp st = (st', o) ->
  exists evs,
    st' = {| self := self st; log := log st ++ evs |}
    /\ lookups evs = []
    /\ Forall (fun c =>
                 lc_func c = mDeviceFunction info
                 /\ lc_sharedMemBytes c = mSharedMemBytes info
                 /\ exists l2,
                      lc_kernelParams c =
                      multiTokenParams (qSeqLen_of p) l2 lp q
                        (spec_decoding_packed_mask p))
         (launches evs)
    /\ (o = Done tt -> length (launches evs) = 1%nat)
    /\ o <> Fatal "XQAKernelFunc not found.".
Proof.
  unfold launchMultiToken, log2HeadGrpSize_of. intros H. unfold_monad H.
  split_cases; give_events; cbn;
    (split; [reflexivity |]);
    (split; [| split; [congruence || reflexivity | discriminate]]);
    repeat constructor; eexists; reflexivity.
Qed.

Ltac use_singleTokenParams :=
  repeat match goal with
  | H : singleTokenParams _ _ _ _ _ _ = _ |- _ =>
      rewrite singleTokenParams_eq in H
  end.

Lemma launchSingleToken_inv drv ext p kv lp q info mp st st' o :
  launchSingleToken drv ext p kv lp q info mp st = (st', o) ->
  exists evs,
    st' = {| self := self st; log := log st ++ evs |}
    /\ lookups evs = []
    /\ Forall (fun c =>
                 lc_func c = mDeviceFunction info
                 /\ lc_sharedMemBytes c = mSharedMemBytes info
                 /\ lc_kernelParams c =
                    singleTokenArray p lp q (isGmmaKernel_of info)
                      (makeTensorMapForKVCache ext p kv)
                 /\ (isGmmaKernel_of info = true -> beam_width p = 1)
                 /\ ((beam_width p >? 1) = true ->
                     is_Some (LaunchParam.beamSearchParams lp)))
         (launches evs)
    /\ (o = Done tt -> length (launches evs) = 1%nat)
    /\ o <> Fatal "XQAKernelFunc not found.".
Proof.
  unfold launchSingleToken. intros H. unfold_monad H.
  repeat (case_match; use_singleTokenParams; simplify_eq/=).
  all: give_events; cbn;
    (split; [reflexivity |]);
    (split; [| split; [congruence || reflexivity | discriminate]]);
    repeat constructor.
  all: intros Hg; try discriminate Hg.
  all: try match goal with
       | H : _ && (beam_width _ =? 1) = true |- _ =>
           apply andb_prop in H as [_ H]; lia
       end.
  all: match goal with
       | H : (beam_width _ >? 1) && negb (bool_decide _) = false |- _ =>
           rewrite Hg in H; cbn in H;
           apply negb_false_iff, bool_decide_eq_true in H; exact H
       end.
Qed.

(** *** The whole of [run] *)

Lemma run_inv drv ext p kv mp st st' o :
  run drv ext p kv mp st = (st', o) ->
  exists evs,
    st' = {| self := self st; log := log st ++ evs |}
    /\ (lookups evs = [] \/ lookups evs = [run_hash_key p])
    /\ (lookups evs = [] -> launches evs = [])
    /\ Forall (launch_of_run ext (self st) p kv) (launches evs)
    /\ (o = Done tt -> length (launches evs) = 1%nat)
    /\ (o = Fatal "XQAKernelFunc not found." ->
        mFunctions (self st) !! run_hash_key p = None).
Proof.
  unfold run, check_heads. intros H. unfold_monad H.
  repeat (case_match; simplify_eq/=).
  all: repeat match goal with
       | H : launchMultiToken _ _ _ _ _ _ _ _ = (_, _) |- _ =>
           apply launchMultiToken_inv in H
             as (evs & -> & Hlk & Hla & Hd & Hnf)
       | H : launchSingleToken _ _ _ _ _ _ _ _ _ = (_, _) |- _ =>
           apply launchSingleToken_inv in H
             as (evs & -> & Hlk & Hla & Hd & Hnf)
       end.
  all: cbn [self log]; give_events.
  all: rewrite ?lookups_app, ?launches_app; cbn; rewrite ?Hlk, ?app_nil_r.
  all: repeat match goal with a : unit |- _ => destruct a end.
  all: repeat split; auto; try congruence; try discriminate.
  all: eapply Forall_impl; [eassumption |]; cbn; intros c Hc;
       eexists; split; [eassumption |].
  all: match goal with
       | H : multi_query_tokens _ = _ |- _ => rewrite H
       end; exact Hc.
Qed.

Lemma supportConfig_inv (p : XQAParams) (st st' : St) (o : outcome bool) :
  supportConfig p st = (st', o) ->
  exists evs,
    st' = {| self := self st; log := log st ++ evs |}
    /\ (lookups evs = [] \/ lookups evs = [supportConfig_hash_key p])
    /\ (o = Done true ->
        is_Some (mFunctions (self st) !! supportConfig_hash_key p))
    /\ (o = Done false ->
        mFunctions (self st) !! supportConfig_hash_key p = None).
Proof.
  unfold supportConfig, check_heads. intros H. unfold_monad H.
  split_cases; give_events; cbn; repeat split; auto; try discriminate.
  - intros [= Hb]. apply bool_decide_eq_true in Hb. exact Hb.
  - intros [= Hb]. apply bool_decide_eq_false in Hb.
    apply eq_None_not_Some. exact Hb.
Qed.

Lemma check_heads_fatal (q kv : Z) (st : St) :
  kv <> 0 -> Z.rem q kv <> 0 ->
  check_heads q kv st
  = (st, Fatal "numQHeads should be multiple of numKVHeads.").
Proof.
  intros Hkv Hrem. unfold check_heads, TLLM_CHECK_WITH_INFO, int_rem.
  destruct (Z.eqb_spec kv 0) as [| _]; [contradiction |].
  destruct ((q =? INT_MIN) && (kv =? -1)) eqn:Hboth.
  - apply andb_prop in Hboth as [Hq Hk].
    apply Z.eqb_eq in Hq, Hk. subst. exfalso. apply Hrem. reflexivity.
  - destruct (Z.eqb_spec (Z.rem q kv) 0); [contradiction | reflexivity].
Qed.

Lemma rem_nonzero_of_not_divide (q kv : Z) :
  kv <> 0 -> ~ (kv | q) -> Z.rem q kv <> 0.
Proof.
  intros Hkv Hnd Hrem. apply Hnd.
  exists (Z.quot q kv).
  pose proof (Z.quot_rem' q kv) as E. rewrite Hrem in E. lia.
Qed.

(** ** The lookup key *)

Lemma qSeqLen_of_nonneg (p : XQAParams) :
  0 <= generation_input_length p < 2 ^ 32 ->
  qSeqLen_of p = generation_input_length p.
Proof. intros H. apply to_uint_id. exact H. Qed.

Lemma num_q_heads_over_kv_exact (p : XQAParams) :
  0 <= num_q_heads p <= INT_MAX -> 0 < num_kv_heads p ->
  num_q_heads_over_kv_of p = num_q_heads p / num_kv_heads p.
Proof.
  intros Hq Hkv. unfold num_q_heads_over_kv_of, int_div.
  assert (Hr : int_range (Z.quot (num_q_heads p) (num_kv_heads p))).
  { apply quot_in_int; [| exact Hkv].
    unfold int_range, INT_MIN, INT_MAX in *. lia. }
  rewrite (to_int_id _ Hr).
  rewrite Z.quot_div_nonneg by lia.
  apply to_uint_id. unfold uint_range.
  rewrite Z.quot_div_nonneg in Hr by lia.
  assert (0 <= num_q_heads p / num_kv_heads p) by (apply Z.div_pos; lia).
  unfold int_range, INT_MAX in Hr. lia.
Qed.

(** C3: the key [run] looks up has, in multi-token mode, ratio field 0 and
    tile size 16 for a query length of at most 16 and 32 above; in
    single-token mode both fields hold the ratio
    [num_q_heads / num_kv_heads], whatever the query length. Every lookup
    [run] makes uses this key. *)
Theorem run_hash_key_fields (p : XQAParams) :
  (multi_query_tokens p = true ->
   key_num_q_heads_per_kv (run_hash_key p) = 0
   /\ key_m_tilesize (run_hash_key p)
      = (if qSeqLen_of p <=? 16 then 16 else 32))
  /\ (multi_query_tokens p = false ->
      key_num_q_heads_per_kv (run_hash_key p) = num_q_heads_over_kv_of p
      /\ key_m_tilesize (run_hash_key p) = num_q_heads_over_kv_of p)
  /\ (0 <= num_q_heads p <= INT_MAX -> 0 < num_kv_heads p ->
      num_q_heads_over_kv_of p = num_q_heads p / num_kv_heads p)
  /\ (0 <= generation_input_length p < 2 ^ 32 ->
      qSeqLen_of p = generation_input_length p)
  /\ (forall drv ext kv mp st st' o k,
        run drv ext p kv mp st = (st', o) ->
        k ∈ lookups (events_since st st') -> k = run_hash_key p).
Proof.
  split; [| split; [| split; [| split]]].
  - intros Hm. unfold run_hash_key, mTileSize_of. cbn. rewrite Hm. auto.
  - intros Hm. unfold run_hash_key. cbn. rewrite Hm. auto.
  - apply num_q_heads_over_kv_exact.
  - apply qSeqLen_of_nonneg.
  - intros drv ext kv mp st st' o k Hrun Hk.
    apply run_inv in Hrun as (evs & -> & [Hl | Hl] & _).
    + rewrite events_since_app, Hl in Hk. inversion Hk.
    + rewrite events_since_app, Hl in Hk.
      apply list_elem_of_singleton in Hk. exact Hk.
Qed.

Lemma run_hash_key_fields_witness :
  key_num_q_heads_per_kv (run_hash_key Sample.multi17) = 0
  /\ key_m_tilesize (run_hash_key Sample.multi17) = 32
  /\ key_m_tilesize (run_hash_key Sample.multi8) = 16
  /\ key_m_tilesize (run_hash_key Sample.single) = 32 / 4.
Proof.
  split; [| split; [| split]].
  - apply (proj1 (run_hash_key_fields Sample.multi17) eq_refl).
  - apply (proj1 (run_hash_key_fields Sample.multi17) eq_refl).
  - apply (proj1 (run_hash_key_fields Sample.multi8) eq_refl).
  - destruct (run_hash_key_fields Sample.single) as (_ & Hs & Hq & _).
    rewrite (proj2 (Hs eq_refl)).
    apply Hq; cbn; unfold INT_MAX; lia.
Defined.

(** ** The key of [supportConfig] against the key of [run] *)

Lemma hash_keys_agree_iff (p : XQAParams) :
  supportConfig_hash_key p = run_hash_key p <->
  multi_query_tokens p = false \/ qSeqLen_of p <= 16.
Proof.
  unfold supportConfig_hash_key, run_hash_key, mTileSize_of.
  destruct (multi_query_tokens p); split.
  - intros E. right.
    destruct (Z.leb_spec (qSeqLen_of p) 16) as [Hle | Hgt]; [exact Hle |].
    apply (f_equal key_m_tilesize) in E. cbn in E. discriminate E.
  - intros [Hf | Hle]; [discriminate Hf |].
    apply Z.leb_le in Hle. rewrite Hle. reflexivity.
  - intros _. left. reflexivity.
  - intros _. reflexivity.
Qed.

(** C4, as the code has it: the key of [supportConfig] equals the key of
    [run] exactly when the request is single-token or its query length is
    at most 16. For such a request, one that [supportConfig] reports as
    supported finds its handle in the lookup of [run]: the handle under
    the key of [run] is the one [supportConfig] found, every lookup [run]
    logs is of that key, every launch uses that handle's entry point and
    shared memory size, and [run] never ends with "XQAKernelFunc not
    found.". For every request the two keys agree in the seven fields
    other than the tile size, and for a multi-token request of query
    length above 16 the tile size is 16 in [supportConfig] and 32 in
    [run]. *)
Theorem supportConfig_run_keys (p : XQAParams) :
  (supportConfig_hash_key p = run_hash_key p <->
   multi_query_tokens p = false \/ qSeqLen_of p <= 16)
  /\ (forall drv ext kv mp st sa st2 sb o,
        multi_query_tokens p = false \/ qSeqLen_of p <= 16 ->
        supportConfig p st = (sa, Done true) ->
        self st2 = self st ->
        run drv ext p kv mp st2 = (sb, o) ->
        exists info,
          mFunctions (self st) !! supportConfig_hash_key p = Some info
          /\ mFunctions (self st2) !! run_hash_key p = Some info
          /\ (forall k, k ∈ lookups (events_since st2 sb) ->
                        k = run_hash_key p)
          /\ Forall (fun c => lc_func c = mDeviceFunction info
                              /\ lc_sharedMemBytes c = mSharedMemBytes info)
               (launches (events_since st2 sb))
          /\ o <> Fatal "XQAKernelFunc not found.")
  /\ (key_kv_data_type (supportConfig_hash_key p)
      = key_kv_data_type (run_hash_key p)
      /\ key_head_size (supportConfig_hash_key p)
         = key_head_size (run_hash_key p)
      /\ key_beam_size (supportConfig_hash_key p)
         = key_beam_size (run_hash_key p)
      /\ key_num_q_heads_per_kv (supportConfig_hash_key p)
         = key_num_q_heads_per_kv (run_hash_key p)
      /\ key_tokens_per_page (supportConfig_hash_key p)
         = key_tokens_per_page (run_hash_key p)
      /\ key_paged_kv_cache (supportConfig_hash_key p)
         = key_paged_kv_cache (run_hash_key p)
      /\ key_multi_query_tokens (supportConfig_hash_key p)
         = key_multi_query_tokens (run_hash_key p))
  /\ (multi_query_tokens p = true -> 16 < qSeqLen_of p ->
      key_m_tilesize (supportConfig_hash_key p) = 16
      /\ key_m_tilesize (run_hash_key p) = 32).
Proof.
  split; [apply hash_keys_agree_iff | split; [| split]].
  - intros drv ext kv mp st sa st2 sb o Hagree Hsup Hself Hrun.
    apply hash_keys_agree_iff in Hagree.
    apply supportConfig_inv in Hsup as (evs & _ & _ & Hsome & _).
    destruct (Hsome eq_refl) as [info Hinfo].
    apply run_inv in Hrun as (evs' & -> & Hlk & _ & Hla & _ & Hnone).
    exists info. split; [exact Hinfo |].
    assert (Hrun : mFunctions (self st2) !! run_hash_key p = Some info)
      by (rewrite Hself, <- Hagree; exact Hinfo).
    split; [exact Hrun |].
    unfold events_since. cbn [log]. rewrite drop_app_length.
    split; [| split].
    + intros k Hk. destruct Hlk as [Hlk | Hlk]; rewrite Hlk in Hk.
      * inversion Hk.
      * apply list_elem_of_singleton in Hk. exact Hk.
    + eapply Forall_impl; [exact Hla |]. cbn.
      intros c (info' & Hi' & Hf & Hs & _).
      rewrite Hrun in Hi'. injection Hi' as <-. split; assumption.
    + intros Ho. specialize (Hnone Ho). congruence.
  - repeat split.
  - intros Hm Hlen. unfold supportConfig_hash_key, run_hash_key, mTileSize_of.
    cbn. rewrite Hm.
    destruct (Z.leb_spec (qSeqLen_of p) 16); [lia | auto].
Qed.

Lemma supportConfig_run_keys_witness :
  supportConfig_hash_key Sample.multi8 = run_hash_key Sample.multi8
  /\ (exists info,
        mFunctions (self Sample.loaded) !! run_hash_key Sample.multi8
        = Some info
        /\ Forall (fun c => lc_func c = mDeviceFunction info)
             (launches
                (events_since Sample.loaded
                   (fst (run Sample.driver Sample.helpers Sample.multi8
                           5%N 108 Sample.loaded))))
        /\ snd (run Sample.driver Sample.helpers Sample.multi8 5%N 108
                  Sample.loaded)
           <> Fatal "XQAKernelFunc not found.")
  /\ key_m_tilesize (run_hash_key Sample.multi17) = 32.
Proof.
  destruct (supportConfig_run_keys Sample.multi8) as (Hk & Hr & _).
  split; [| split].
  - apply Hk. right. vm_compute. discriminate.
  - destruct (Hr Sample.driver Sample.helpers 5%N 108 Sample.loaded
                (fst (supportConfig Sample.multi8 Sample.loaded))
                Sample.loaded
                (fst (run Sample.driver Sample.helpers Sample.multi8 5%N 108
                        Sample.loaded))
                (snd (run Sample.driver Sample.helpers Sample.multi8 5%N 108
                        Sample.loaded)))
      as (info & _ & Hi & _ & Hl & Ho).
    + right. vm_compute. discriminate.
    + vm_compute. reflexivity.
    + reflexivity.
    + apply surjective_pairing.
    + exists info. split; [exact Hi |]. split; [| exact Ho].
      eapply Forall_impl; [exact Hl |]. cbn. tauto.
  - apply (proj2 (proj2 (proj2 (supportConfig_run_keys Sample.multi17))));
      [reflexivity | vm_compute; reflexivity].
Defined.

(** C4, as stated, fails: for a multi-token request of query length 17
    the two keys differ, and with a table that holds the tile-size-16
    kernel only, [supportConfig] answers true and [run] does not find the
    kernel. *)
Lemma supportConfig_run_keys_counterexample :
  supportConfig_hash_key Sample.multi17 <> run_hash_key Sample.multi17
  /\ snd (supportConfig Sample.multi17 Sample.loaded) = Done true
  /\ snd (run Sample.driver Sample.helpers Sample.multi17 5%N 108
            Sample.loaded)
     = Fatal "XQAKernelFunc not found.".
Proof.
  split; [| split].
  - intros E. apply (f_equal key_m_tilesize) in E. vm_compute in E.
    discriminate E.
  - vm_compute. reflexivity.
  - vm_compute. reflexivity.
Qed.

(** ** A head count that the KV heads do not divide *)

(** C7: for a request with a nonzero KV-head count that does not divide
    the query-head count, [supportConfig] and [run] both throw the
    configuration check's error, and they do so in the state they were
    called in: nothing was logged, so no key was looked up. *)
Theorem heads_not_multiple_fatal (drv : Driver) (ext : Helpers)
    (p : XQAParams) (kv : KVCacheBuffer) (mp : Z) (st : St) :
  num_kv_heads p <> 0 ->
  ~ (num_kv_heads p | num_q_heads p) ->
  supportConfig p st
  = (st, Fatal "numQHeads should be multiple of numKVHeads.")
  /\ run drv ext p kv mp st
     = (st, Fatal "numQHeads should be multiple of numKVHeads.")
  /\ lookups (events_since st (fst (supportConfig p st))) = []
  /\ events_since st (fst (run drv ext p kv mp st)) = [].
Proof.
  intros Hkv Hnd.
  pose proof (rem_nonzero_of_not_divide _ _ Hkv Hnd) as Hrem.
  assert (Hs : supportConfig p st
               = (st, Fatal "numQHeads should be multiple of numKVHeads.")).
  { unfold supportConfig, bind. rewrite check_heads_fatal by assumption.
    reflexivity. }
  assert (Hr : run drv ext p kv mp st
               = (st, Fatal "numQHeads should be multiple of numKVHeads.")).
  { unfold run, bind. rewrite check_heads_fatal by assumption.
    reflexivity. }
  rewrite Hs, Hr. cbn. rewrite events_since_refl. auto.
Qed.

Lemma heads_not_multiple_fatal_witness :
  supportConfig Sample.ragged Sample.loaded
  = (Sample.loaded, Fatal "numQHeads should be multiple of numKVHeads.")
  /\ run Sample.driver Sample.helpers Sample.ragged 5%N 108 Sample.loaded
     = (Sample.loaded, Fatal "numQHeads should be multiple of numKVHeads.").
Proof.
  assert (Hkv : num_kv_heads Sample.ragged <> 0) by (cbn; lia).
  assert (Hnd : ~ (num_kv_heads Sample.ragged | num_q_heads Sample.ragged)).
  { cbn. intros [k Hk]. lia. }
  destruct (heads_not_multiple_fatal Sample.driver Sample.helpers
              Sample.ragged 5%N 108 Sample.loaded Hkv Hnd) as (Hs & Hr & _).
  split; assumption.
Defined.

(** ** The argument arrays *)

Lemma spec_singleTokenArgs_length (bw : Z) (g : bool) (lp : LaunchParam.t)
    (q : ptr) (tm : CUtensorMap) :
  ((bw >? 1) = true -> is_Some (LaunchParam.beamSearchParams lp)) ->
  length (spec_singleTokenArgs bw g lp q tm)
  = (8 + (if bw >? 1 then 1 else 0) + (if g then 1 else 0))%nat.
Proof.
  intros Hb. unfold spec_singleTokenArgs.
  destruct (bw >? 1).
  - destruct (Hb eq_refl) as [b ->]. destruct g; reflexivity.
  - destruct g; reflexivity.
Qed.

Lemma singleTokenArray_shape (p : XQAParams) (lp : LaunchParam.t) (q : ptr)
    (g : bool) (tm : CUtensorMap) :
  ((beam_width p >? 1) = true -> is_Some (LaunchParam.beamSearchParams lp)) ->
  let arr := singleTokenArray p lp q g tm in
  length arr = kMAX_NB_KERNEL_PARAMS
  /\ upto_null arr
     = map Slot_arg (spec_singleTokenArgs (beam_width p) g lp q tm)
       ++ [Slot_null]
  /\ length (upto_null arr)
     = (9 + (if beam_width p >? 1 then 1 else 0) + (if g then 1 else 0))%nat.
Proof.
  intros Hb arr. subst arr. unfold singleTokenArray.
  pose proof (spec_singleTokenArgs_length (beam_width p) g lp q tm Hb) as Hl.
  cbn [app]. rewrite upto_null_args.
  split; [| split; [reflexivity |]].
  - rewrite length_app, length_map. cbn [length].
    rewrite length_replicate, Hl. unfold kMAX_NB_KERNEL_PARAMS.
    destruct (beam_width p >? 1), g; reflexivity.
  - rewrite length_app, length_map, Hl. cbn [length].
    destruct (beam_width p >? 1), g; reflexivity.
Qed.

(** C2: in single-token mode the argument array holds, in this order, KV
    head count, output pointer, query pointer, KV-cache block, the
    beam-search block iff [beam_width > 1], batch size, KV dequantization
    scale, the tensor map iff the kernel's specialization tag asks for
    one, semaphores, scratch, and then the null guard: 9 entries without
    the two optional ones, one more for each that is present. The first
    part is the array as built, for every combination; the second part is
    the array of every launch [run] makes. *)
Theorem run_singleToken_kernelParams :
  (forall (p : XQAParams) (lp : LaunchParam.t) (q : ptr) (g : bool)
          (tm : CUtensorMap) (st : St),
      ((beam_width p >? 1) = true ->
       is_Some (LaunchParam.beamSearchParams lp)) ->
      exists arr,
        singleTokenParams p lp q g tm st = (st, Done arr)
        /\ upto_null arr
           = map Slot_arg (spec_singleTokenArgs (beam_width p) g lp q tm)
             ++ [Slot_null]
        /\ length (upto_null arr)
           = (9 + (if beam_width p >? 1 then 1 else 0)
              + (if g then 1 else 0))%nat)
  /\ (forall drv ext p kv mp st st' o,
        multi_query_tokens p = false ->
        run drv ext p kv mp st = (st', o) ->
        (o = Done tt -> length (launches (events_since st st')) = 1%nat)
        /\ forall c, c ∈ launches (events_since st st') ->
           exists info,
             mFunctions (self st) !! run_hash_key p = Some info
             /\ upto_null (lc_kernelParams c)
                = map Slot_arg
                    (spec_singleTokenArgs (beam_width p)
                       (isGmmaKernel_of info)
                       (fst (launchParams_of ext p kv))
                       (snd (launchParams_of ext p kv))
                       (makeTensorMapForKVCache ext p kv))
                  ++ [Slot_null]
             /\ length (upto_null (lc_kernelParams c))
                = (9 + (if beam_width p >? 1 then 1 else 0)
                   + (if isGmmaKernel_of info then 1 else 0))%nat).
Proof.
  split.
  - intros p lp q g tm st Hb.
    exists (singleTokenArray p lp q g tm).
    destruct (singleTokenArray_shape p lp q g tm Hb) as (_ & Hu & Hl).
    split; [| split; assumption].
    rewrite singleTokenParams_eq.
    destruct (beam_width p >? 1); [| reflexivity].
    rewrite bool_decide_eq_true_2 by (apply Hb; reflexivity). reflexivity.
  - intros drv ext p kv mp st st' o Hm Hrun.
    apply run_inv in Hrun as (evs & -> & _ & _ & Hla & Hd & _).
    rewrite events_since_app. split; [exact Hd |].
    intros c Hc. rewrite Forall_forall in Hla.
    destruct (Hla c Hc) as (info & Hinfo & _ & _ & Hargs).
    cbv zeta in Hargs. rewrite Hm in Hargs.
    destruct Hargs as (Harr & _ & Hb).
    exists info. split; [exact Hinfo |].
    rewrite Harr.
    destruct (singleTokenArray_shape p (fst (launchParams_of ext p kv))
                (snd (launchParams_of ext p kv)) (isGmmaKernel_of info)
                (makeTensorMapForKVCache ext p kv) Hb) as (_ & Hu & Hl).
    split; assumption.
Qed.

Lemma run_singleToken_kernelParams_witness :
  length (launches (events_since Sample.loaded
            (fst (run Sample.driver Sample.helpers Sample.single 5%N 108
                    Sample.loaded)))) = 1%nat
  /\ exists arr,
       singleTokenParams Sample.single
         (fst (launchParams_of Sample.helpers Sample.single 5%N)) 905%N
         false 77%N Sample.loaded = (Sample.loaded, Done arr)
       /\ length (upto_null arr) = 9%nat.
Proof.
  destruct run_singleToken_kernelParams as [Hbuild Hrun].
  split.
  - apply (Hrun Sample.driver Sample.helpers Sample.single 5%N 108
             Sample.loaded _ (Done tt) eq_refl).
    + vm_compute. reflexivity.
    + reflexivity.
  - destruct (Hbuild Sample.single
                (fst (launchParams_of Sample.helpers Sample.single 5%N))
                905%N false 77%N Sample.loaded) as (arr & Ha & _ & Hl).
    + cbn. discriminate.
    + exists arr. split; [exact Ha | exact Hl].
Defined.

(** C9: in multi-token mode the ninth argument of every launch [run]
    makes is the KV dequantization scale with the constant value 1.0, for
    every request and every set of launch parameters. *)
Theorem run_multiToken_kvCacheQuantOrig (drv : Driver) (ext : Helpers)
    (p : XQAParams) (kv : KVCacheBuffer) (mp : Z) (st st' : St)
    (o : outcome unit) :
  multi_query_tokens p = true ->
  run drv ext p kv mp st = (st', o) ->
  (o = Done tt -> length (launches (events_since st st')) = 1%nat)
  /\ forall c, c ∈ launches (events_since st st') ->
       length (lc_kernelParams c) = 10%nat
       /\ lc_kernelParams c !! 8%nat
          = Some (Slot_arg (Arg_kvCacheQuantOrig F32.one))
       /\ forall (i : nat) (f : spec_float),
            lc_kernelParams c !! i = Some (Slot_arg (Arg_kvCacheQuantOrig f)) ->
            i = 8%nat /\ f = F32.one.
Proof.
  intros Hm Hrun.
  apply run_inv in Hrun as (evs & -> & _ & _ & Hla & Hd & _).
  rewrite events_since_app. split; [exact Hd |].
  intros c Hc. rewrite Forall_forall in Hla.
  destruct (Hla c Hc) as (info & _ & _ & _ & Hargs).
  cbv zeta in Hargs. rewrite Hm in Hargs. destruct Hargs as [l2 ->].
  split; [reflexivity | split; [reflexivity |]].
  intros i f Hi. unfold multiTokenParams in Hi.
  destruct i as [| [| [| [| [| [| [| [| [| [| i]]]]]]]]]];
    cbn in Hi; try discriminate Hi.
  injection Hi as <-. auto.
Qed.

Lemma run_multiToken_kvCacheQuantOrig_witness :
  length (launches (events_since Sample.loaded
            (fst (run Sample.driver Sample.helpers Sample.multi8 5%N 108
                    Sample.loaded)))) = 1%nat.
Proof.
  apply (proj1 (run_multiToken_kvCacheQuantOrig Sample.driver Sample.helpers
                  Sample.multi8 5%N 108 Sample.loaded _ (Done tt) eq_refl
                  ltac:(vm_compute; reflexivity))).
  reflexivity.
Defined.

(** ** The loader *)

Lemma module_loads_app (c : ptr) (l1 l2 : list Event) :
  module_loads c (l1 ++ l2) = (module_loads c l1 + module_loads c l2)%nat.
Proof. unfold module_loads. rewrite List.filter_app. apply length_app. Qed.

Lemma map_insert_new_lookup `{Countable K} {V} (k k' : K) (v v' : V)
    (m : gmap K V) :
  map_insert_new k v m !! k' = Some v' ->
  m !! k' = Some v' \/ (k' = k /\ v' = v /\ m !! k = None).
Proof.
  unfold map_insert_new. destruct (m !! k) eqn:E; [auto |].
  destruct (decide (k = k')) as [<- | Hne].
  - rewrite lookup_insert_eq. intros [= <-]. auto.
  - rewrite lookup_insert_ne by exact Hne. auto.
Qed.

Lemma map_insert_new_nonempty `{Countable K} {V} (k : K) (v : V)
    (m : gmap K V) :
  map_insert_new k v m <> ∅.
Proof.
  unfold map_insert_new. destruct (m !! k) eqn:E.
  - intros ->. rewrite lookup_empty in E. discriminate E.
  - apply insert_non_empty.
Qed.

Lemma map_insert_new_absent `{Countable K} {V} (k : K) (v : V)
    (m : gmap K V) :
  m !! k = None -> map_insert_new k v m = <[k := v]> m.
Proof. unfold map_insert_new. intros ->. reflexivity. Qed.

(** Bring [events_since st st'] to the list of events once [st'] is
    explicit. *)
Ltac norm_since :=
  unfold events_since; cbn [log self]; rewrite <- ?app_assoc;
  first [rewrite drop_app_length | rewrite drop_all].

Ltac open_loadKernel H :=
  unfold loadKernel, moduleOf, getGlobalVar in H; unfold_monad H;
  split_cases.

(** The loop body leaves the table, the architecture, the data type and
    the override alone, and only adds to the log. *)
Lemma loadKernel_frame drv i m st st' o :
  loadKernel drv i m st = (st', o) ->
  mDataType (self st') = mDataType (self st)
  /\ mKernelMeta (self st') = mKernelMeta (self st)
  /\ mSM (self st') = mSM (self st)
  /\ mForceXQA (self st') = mForceXQA (self st)
  /\ log st' = log st ++ events_since st st'.
Proof.
  intros H. open_loadKernel H.
  all: repeat split; try reflexivity.
  all: norm_since; cbn; rewrite ?app_nil_r; reflexivity.
Qed.

(** An entry of another architecture or data type, and an entry without
    a blob, change nothing and call nothing. *)
Lemma loadKernel_skip drv i m st :
  meta_mismatch (self st) m = true \/ is_null (Meta.mCubin m) = true ->
  loadKernel drv i m st = (st, Done tt).
Proof.
  intros Hs. unfold loadKernel, bind, this_, ret.
  destruct (meta_mismatch (self st) m); [reflexivity |].
  destruct Hs as [Hs | ->]; [discriminate Hs | reflexivity].
Qed.

(** What the loop body does to [mModules], and the loads it logs. *)
Lemma loadKernel_modules drv i m st st' o :
  loadKernel drv i m st = (st', o) ->
  (mModules (self st') = mModules (self st)
   /\ forall c, module_loads c (events_since st st') = 0%nat)
  \/ (mModules (self st) !! Meta.mCubin m = None
      /\ (exists h,
            mModules (self st') = <[Meta.mCubin m := h]> (mModules (self st)))
      /\ forall c, module_loads c (events_since st st')
                   = if bool_decide (Meta.mCubin m = c) then 1%nat else 0%nat).
Proof.
  intros H. open_loadKernel H.
  all: try (left; split; [reflexivity | intros c; norm_since; reflexivity]).
  all: right; rewrite map_insert_new_absent by assumption;
       split; [reflexivity | split; [eexists; reflexivity |]];
       intros c; norm_since; cbn; case_bool_decide; reflexivity.
Qed.

(** What the loop body does to [mFunctions], and the attribute calls it
    logs when it completes. *)
Lemma loadKernel_functions drv i m st st' o :
  loadKernel drv i m st = (st', o) ->
  (mFunctions (self st') = mFunctions (self st)
   /\ (o = Done tt ->
       st' = st
       /\ (meta_mismatch (self st) m = true
           \/ is_null (Meta.mCubin m) = true)))
  \/ (o = Done tt
      /\ meta_mismatch (self st) m = false
      /\ is_null (Meta.mCubin m) = false
      /\ exists fi,
           mMetaInfoIndex fi = i
           /\ mFunctions (self st')
              = map_insert_new (meta_hash_key m) fi (mFunctions (self st))
           /\ attribute_calls (events_since st st')
              = if kSmemThreshold <=? mSharedMemBytes fi
                then [(mDeviceFunction fi, mSharedMemBytes fi)]
                else []).
Proof.
  intros H. open_loadKernel H.
  all: try (left; split; [reflexivity | intros Ho; try discriminate Ho]).
  all: try (split; [reflexivity | auto]).
  all: right; repeat (split; [reflexivity || assumption |]);
       eexists; split; [| split]; [| reflexivity |]; [reflexivity |];
       cbn [mSharedMemBytes mDeviceFunction]; norm_since;
       match goal with
       | H : (kSmemThreshold <=? _) = _ |- _ => rewrite H
       end; reflexivity.
Qed.

(** Every attribute call of the loop body, completed or not, asks for at
    least the threshold. *)
Lemma loadKernel_attribute_bound drv i m st st' o :
  loadKernel drv i m st = (st', o) ->
  forall f bytes,
    (f, bytes) ∈ attribute_calls (events_since st st') ->
    kSmemThreshold <= bytes.
Proof.
  intros H f bytes. open_loadKernel H.
  all: norm_since; cbn; intros Hin.
  all: repeat match goal with
       | H : _ ∈ [] |- _ => inversion H
       | H : _ ∈ _ :: _ |- _ => apply elem_of_cons in H as [H | H]
       end.
  all: simplify_eq; apply Z.leb_le; assumption.
Qed.

(** *** The loop *)

Lemma loadLoop_cons drv i m rest st :
  loadLoop drv i (m :: rest) st =
    match loadKernel drv i m st with
    | (st1, Done _) => loadLoop drv (S i) rest st1
    | (st1, Fatal msg) => (st1, Fatal msg)
    | (st1, Undefined what) => (st1, Undefined what)
    end.
Proof. reflexivity. Qed.

(** A property the loop body keeps is kept by the loop. *)
Lemma loadLoop_preserves drv (P : St -> Prop) :
  (forall i m st st' o, P st -> loadKernel drv i m st = (st', o) -> P st') ->
  forall metas i st st' o,
    P st -> loadLoop drv i metas st = (st', o) -> P st'.
Proof.
  intros Hstep metas. induction metas as [| m rest IH]; intros i st st' o HP H.
  - cbn in H. unfold ret in H. injection H as <- _. exact HP.
  - rewrite loadLoop_cons in H.
    destruct (loadKernel drv i m st) as [st1 o1] eqn:E.
    pose proof (Hstep _ _ _ _ _ HP E) as HP1.
    destruct o1; [eapply IH; eassumption | |]; injection H as <- _; exact HP1.
Qed.

Lemma loadXQAKernels_preserves drv (P : St -> Prop) :
  (forall i m st st' o, P st -> loadKernel drv i m st = (st', o) -> P st') ->
  forall st st' o, P st -> loadXQAKernels drv st = (st', o) -> P st'.
Proof.
  intros Hstep st st' o HP H. unfold loadXQAKernels, bind, this_, ret in H.
  case_bool_decide.
  - eapply loadLoop_preserves; eassumption.
  - injection H as <- _. exact HP.
Qed.

Lemma load_n_preserves drv (P : St -> Prop) :
  (forall i m st st' o, P st -> loadKernel drv i m st = (st', o) -> P st') ->
  forall n st, P st -> P (load_n drv n st).
Proof.
  intros Hstep n. induction n as [| n IH]; intros st HP; [exact HP |].
  cbn. apply IH.
  eapply loadXQAKernels_preserves; [exact Hstep | exact HP |].
  apply surjective_pairing.
Qed.

(** A completed loop that leaves [mFunctions] empty has skipped every
    entry. *)
Lemma loadLoop_empty drv metas : forall i st st',
  loadLoop drv i metas st = (st', Done tt) ->
  mFunctions (self st') = ∅ -> st' = st.
Proof.
  induction metas as [| m rest IH]; intros i st st' H He.
  - cbn in H. unfold ret in H. injection H as <-. reflexivity.
  - rewrite loadLoop_cons in H.
    destruct (loadKernel drv i m st) as [st1 o1] eqn:E.
    destruct o1 as [[] | |]; [| discriminate H | discriminate H].
    pose proof (IH _ _ _ H He) as ->.
    apply loadKernel_functions in E as [[_ Hs] | (_ & _ & _ & fi & _ & Hf & _)].
    + apply Hs. reflexivity.
    + rewrite Hf in He. exfalso.
      exact (map_insert_new_nonempty _ _ _ He).
Qed.

(** *** At most one load per blob *)

Lemma loadKernel_loads_recorded drv i m st st' o :
  loads_recorded st -> loadKernel drv i m st = (st', o) -> loads_recorded st'.
Proof.
  intros Hinv H c. destruct (Hinv c) as [Hle Hnone].
  pose proof (loadKernel_frame _ _ _ _ _ _ H) as (_ & _ & _ & _ & Hlog).
  rewrite Hlog, module_loads_app.
  apply loadKernel_modules in H as [[Hm Hz] | (Habs & [h Hm] & Hc)].
  - rewrite Hz, Hm. split; [lia | intros Hn; rewrite (Hnone Hn); lia].
  - rewrite Hc, Hm. case_bool_decide as Heq.
    + subst c. destruct (Hinv (Meta.mCubin m)) as [_ Hz].
      rewrite (Hz Habs). split; [lia |].
      rewrite lookup_insert_eq. discriminate.
    + rewrite lookup_insert_ne by exact Heq.
      split; [lia | intros Hn; rewrite (Hnone Hn); lia].
Qed.

Lemma fresh_loads_recorded table force type sm :
  loads_recorded (fresh table force type sm).
Proof. intros c. cbn. split; [lia | reflexivity]. Qed.

(** C5: [loadXQAKernels] on a list whose handle map is not empty returns
    at once, state and log untouched; a second call after a completed
    first one changes nothing; a blob that [mModules] already has is not
    loaded again; and over any number of calls on a new list no blob is
    loaded as a module more than once. *)
Theorem loadXQAKernels_idempotent (drv : Driver) :
  (forall st,
      mFunctions (self st) <> ∅ -> loadXQAKernels drv st = (st, Done tt))
  /\ (forall st st1,
        loadXQAKernels drv st = (st1, Done tt) ->
        loadXQAKernels drv st1 = (st1, Done tt))
  /\ (forall st cubin hmod,
        mModules (self st) !! cubin = Some hmod ->
        moduleOf drv cubin st = (st, Done hmod))
  /\ (forall table force type sm n cubin,
        (module_loads cubin (log (load_n drv n (fresh table force type sm)))
         <= 1)%nat).
Proof.
  assert (Hfull : forall st, mFunctions (self st) <> ∅ ->
                             loadXQAKernels drv st = (st, Done tt)).
  { intros st Hne. unfold loadXQAKernels, bind, this_, ret.
    rewrite bool_decide_eq_false_2 by exact Hne. reflexivity. }
  split; [exact Hfull | split; [| split]].
  - intros st st1 H.
    destruct (decide (mFunctions (self st1) = ∅)) as [He | Hne];
      [| apply Hfull; exact Hne].
    assert (Hsame : st1 = st).
    { unfold loadXQAKernels, bind, this_, ret in H.
      case_bool_decide.
      - eapply loadLoop_empty; eassumption.
      - injection H as <-. reflexivity. }
    subst st1. exact H.
  - intros st cubin hmod Hm. unfold moduleOf, bind, this_, ret.
    rewrite Hm. reflexivity.
  - intros table force type sm n cubin.
    apply (load_n_preserves drv loads_recorded).
    + intros i m st st' o. apply loadKernel_loads_recorded.
    + apply fresh_loads_recorded.
Qed.

Lemma loadXQAKernels_idempotent_witness :
  loadXQAKernels Sample.driver Sample.loaded = (Sample.loaded, Done tt)
  /\ moduleOf Sample.driver 100%N Sample.loaded
     = (Sample.loaded, Done 1100%N).
Proof.
  destruct (loadXQAKernels_idempotent Sample.driver) as (_ & Hb & Hc & _).
  split.
  - apply (Hb Sample.start). vm_compute. reflexivity.
  - apply Hc. vm_compute. reflexivity.
Defined.

(** *** Entries come from blobs *)

Lemma entry_from_blob_frame (this this' : XQAKernelList) k fi :
  mKernelMeta this' = mKernelMeta this ->
  mSM this' = mSM this ->
  mDataType this' = mDataType this ->
  entry_from_blob this k fi -> entry_from_blob this' k fi.
Proof.
  intros Ht Hs Hd (m & Hm & Hc & Hmm & Hk).
  exists m. unfold meta_mismatch in *. rewrite Ht, Hs, Hd. auto.
Qed.

Lemma is_null_false (p : ptr) : is_null p = false -> p <> nullptr.
Proof. unfold is_null, nullptr. apply N.eqb_neq. Qed.

Lemma loadLoop_entries drv metas : forall i st st' o,
  (forall j m, metas !! j = Some m ->
               mKernelMeta (self st) !! (i + j)%nat = Some m) ->
  entries_from_blobs st ->
  loadLoop drv i metas st = (st', o) ->
  entries_from_blobs st'.
Proof.
  induction metas as [| m rest IH]; intros i st st' o Htab Hinv H.
  - cbn in H. unfold ret in H. injection H as <- _. exact Hinv.
  - rewrite loadLoop_cons in H.
    destruct (loadKernel drv i m st) as [st1 o1] eqn:E.
    pose proof (loadKernel_frame _ _ _ _ _ _ E) as (Hd & Ht & Hs & _ & _).
    assert (Hinv1 : entries_from_blobs st1).
    { intros k fi Hk.
      apply (entry_from_blob_frame (self st)); [assumption .. |].
      apply loadKernel_functions in E
        as [[Hf _] | (_ & Hmm & Hnull & fi' & Hidx & Hf & _)].
      - apply Hinv. rewrite <- Hf. exact Hk.
      - rewrite Hf in Hk.
        apply map_insert_new_lookup in Hk as [Hold | (-> & -> & _)].
        + apply Hinv. exact Hold.
        + exists m. rewrite Hidx.
          specialize (Htab 0%nat m eq_refl).
          rewrite Nat.add_0_r in Htab.
          auto using is_null_false. }
    destruct o1; [| injection H as <- _; exact Hinv1
                  | injection H as <- _; exact Hinv1].
    eapply (IH (S i) st1); [| exact Hinv1 | exact H].
    intros j m' Hj. rewrite Ht.
    replace (S i + j)%nat with (i + S j)%nat by lia.
    apply Htab. exact Hj.
Qed.

Lemma loadXQAKernels_entries drv st st' o :
  entries_from_blobs st ->
  loadXQAKernels drv st = (st', o) ->
  entries_from_blobs st'.
Proof.
  intros Hinv H. unfold loadXQAKernels, bind, this_, ret in H.
  case_bool_decide.
  - eapply (loadLoop_entries drv _ 0%nat st); [| exact Hinv | exact H].
    intros j m Hj. exact Hj.
  - injection H as <- _. exact Hinv.
Qed.

Lemma loadXQAKernels_table drv st st' o :
  loadXQAKernels drv st = (st', o) ->
  mKernelMeta (self st') = mKernelMeta (self st).
Proof.
  apply (loadXQAKernels_preserves drv
           (fun s => mKernelMeta (self s) = mKernelMeta (self st)));
    [| reflexivity].
  intros i m s s' o' Hs E.
  apply loadKernel_frame in E as (_ & Ht & _). congruence.
Qed.

Lemma load_n_entries drv n : forall st,
  entries_from_blobs st ->
  entries_from_blobs (load_n drv n st)
  /\ mKernelMeta (self (load_n drv n st)) = mKernelMeta (self st).
Proof.
  induction n as [| n IH]; intros st Hinv; [split; [exact Hinv | reflexivity] |].
  cbn [load_n]. destruct (loadXQAKernels drv st) as [st1 o] eqn:E.
  cbn [fst].
  destruct (IH st1 (loadXQAKernels_entries _ _ _ _ Hinv E)) as [H1 H2].
  split; [exact H1 |].
  rewrite H2. eapply loadXQAKernels_table. exact E.
Qed.

(** C6: the loop body on an entry whose blob is absent returns at once,
    state and log untouched: no load, no symbol resolution, no error, no
    entry. Over any number of calls on a new list, every entry of the
    handle map was stored for a table entry that has a blob. *)
Theorem loadXQAKernels_skips_null_cubin (drv : Driver) :
  (forall i m st,
      Meta.mCubin m = nullptr -> loadKernel drv i m st = (st, Done tt))
  /\ (forall table force type sm n k fi,
        mFunctions (self (load_n drv n (fresh table force type sm))) !! k
        = Some fi ->
        exists m,
          table !! mMetaInfoIndex fi = Some m
          /\ Meta.mCubin m <> nullptr
          /\ k = meta_hash_key m).
Proof.
  split.
  - intros i m st Hnull. apply loadKernel_skip. right.
    rewrite Hnull. reflexivity.
  - intros table force type sm n k fi Hk.
    assert (Hfresh : entries_from_blobs (fresh table force type sm)).
    { intros k' fi' H'. cbn in H'. rewrite lookup_empty in H'.
      discriminate H'. }
    destruct (load_n_entries drv n _ Hfresh) as [Hinv Htab].
    destruct (Hinv k fi Hk) as (m & Hm & Hc & _ & Hkey).
    rewrite Htab in Hm. exists m. auto.
Qed.

Lemma loadXQAKernels_skips_null_cubin_witness :
  loadKernel Sample.driver 2
    (Sample.entry 80 4 4 false nullptr "kernel_jit") Sample.start
  = (Sample.start, Done tt)
  /\ exists m,
       Sample.table !! 4%nat = Some m /\ Meta.mCubin m <> nullptr.
Proof.
  destruct (loadXQAKernels_skips_null_cubin Sample.driver) as [Ha Hb].
  split.
  - apply Ha. reflexivity.
  - destruct (Hb Sample.table false DATA_TYPE_FP16 80 1%nat
                (run_hash_key Sample.multi8)
                {| mMetaInfoIndex := 4; mSharedMemBytes := 47104;
                   mDeviceFunction := 120012%N;
                   mKernelType := kAMPERE_WARP_SPECIALIZED |})
      as (m & Hm & Hc & _).
    + vm_compute. reflexivity.
    + exists m. split; assumption.
Defined.

(** ** The shared memory attribute *)

Lemma pair_of_fst {A B : Type} (p : A * B) (a : A) :
  fst p = a -> p = (a, snd p).
Proof. destruct p. cbn. intros ->. reflexivity. Qed.

(** The loop body, when it completes for an entry it does not skip: the
    module is the one held for the blob or the one the driver just
    loaded, the entry point is the driver's answer for the entry's name,
    the size is the module's [smemSize], and the attribute call follows
    the two reads exactly when the size is at least the threshold. *)
Lemma loadKernel_done_trace drv i m st st' :
  loadKernel drv i m st = (st', Done tt) ->
  meta_mismatch (self st) m = false ->
  Meta.mCubin m <> nullptr ->
  exists pre hmod f bytes,
    let name := Meta.mFuncName m in
    let l1 := log st ++ pre in
    let l2 := l1 ++ [EvModuleGetFunction hmod name CUDA_SUCCESS f] in
    let l3 := l2 ++ [EvGetGlobalVar hmod "smemSize" true] in
    let kt := readGlobal_kernelType drv l3 hmod "kernelType" in
    let l4 := l3 ++ [EvGetGlobalVar hmod "kernelType" (reply_found kt)] in
    ((mModules (self st) !! Meta.mCubin m = Some hmod /\ pre = [])
     \/ (mModules (self st) !! Meta.mCubin m = None
         /\ cuModuleLoadData drv (log st) (Meta.mCubin m)
            = (CUDA_SUCCESS, hmod)
         /\ pre = [EvModuleLoadData (Meta.mCubin m) CUDA_SUCCESS hmod]))
    /\ cuModuleGetFunction drv l1 hmod name = (CUDA_SUCCESS, f)
    /\ readGlobal_uint32 drv l2 hmod "smemSize" = GlobalFound bytes
    /\ (forall code, kt <> GlobalError code)
    /\ log st'
       = l4 ++ (if kSmemThreshold <=? bytes
                then [EvFuncSetAttribute f bytes CUDA_SUCCESS] else [])
    /\ (kSmemThreshold <= bytes ->
        cuFuncSetAttribute drv l4 f bytes = CUDA_SUCCESS)
    /\ mFunctions (self st')
       = map_insert_new (meta_hash_key m)
           {| mMetaInfoIndex := i;
              mSharedMemBytes := bytes;
              mDeviceFunction := f;
              mKernelType :=
                match kt with
                | GlobalFound v => v
                | _ => kAMPERE_WARP_SPECIALIZED
                end |}
           (mFunctions (self st)).
Proof.
  intros H Hmm Hc.
  assert (Hn : is_null (Meta.mCubin m) = false).
  { unfold is_null. apply N.eqb_neq. exact Hc. }
  unfold loadKernel, moduleOf, getGlobalVar in H. unfold_monad H.
  rewrite Hmm, Hn in H.
  split_cases.
  all: do 4 eexists.
  all: split;
       [ first [ left; split; reflexivity
               | right; split; [reflexivity |];
                 split; [apply pair_of_fst; eassumption | reflexivity] ] |].
  all: rewrite ?app_nil_r.
  all: split; [apply pair_of_fst; eassumption |].
  all: split; [eassumption |].
  all: match goal with
       | Hk : readGlobal_kernelType _ _ _ _ = _ |- _ => rewrite Hk
       end.
  all: match goal with
       | Ht : (kSmemThreshold <=? _) = _ |- _ => rewrite Ht
       end.
  all: split; [discriminate |].
  all: split; [cbn [reply_found]; rewrite ?app_nil_r; reflexivity |].
  all: split; [| reflexivity].
  all: intros Hle; first [assumption | apply Z.leb_gt in H; lia | idtac].
  all: match goal with
       | Ht : (kSmemThreshold <=? _) = false |- _ =>
           apply Z.leb_gt in Ht; lia
       end.
Qed.

(** Every attribute call of the loop body, completed or not, is for the
    entry point the driver resolved and with the size the module
    exports. *)
Lemma loadKernel_attribute_source drv i m st st' o f bytes :
  loadKernel drv i m st = (st', o) ->
  (f, bytes) ∈ attribute_calls (events_since st st') ->
  exists l hmod,
    cuModuleGetFunction drv l hmod (Meta.mFuncName m) = (CUDA_SUCCESS, f)
    /\ readGlobal_uint32 drv
         (l ++ [EvModuleGetFunction hmod (Meta.mFuncName m) CUDA_SUCCESS f])
         hmod "smemSize" = GlobalFound bytes
    /\ exists pre, l = log st ++ pre.
Proof.
  intros H. open_loadKernel H.
  all: norm_since; cbn; intros Hin.
  all: repeat match goal with
       | H : _ ∈ [] |- _ => inversion H
       | H : _ ∈ _ :: _ |- _ => apply elem_of_cons in H as [H | H]
       end.
  all: simplify_eq.
  all: eexists _, _; split; [apply pair_of_fst; eassumption |];
       split; [eassumption |];
       first [ exists []; symmetry; apply app_nil_r
             | eexists; reflexivity ].
Qed.

Lemma attribute_calls_app (l1 l2 : list Event) :
  attribute_calls (l1 ++ l2) = attribute_calls l1 ++ attribute_calls l2.
Proof. apply omap_app. Qed.


(** C8, as the code has it: when the loop body completes for an entry it
    does not skip, the entry point [f] is the one [cuModuleGetFunction]
    resolved for the entry's name and [bytes] is the [smemSize] the module
    exports; the body has called [cuFuncSetAttribute] exactly once, for
    [f] with [bytes] and with success, if [bytes] is at least [46 * 1024],
    and not at all if it is below; and the handle it stores carries [f]
    and [bytes]. Every attribute call of the loop body, completed or not,
    is for the resolved entry point with the exported size, which is at
    least the threshold; and no call in the log of any number of loads of
    a new list sets the attribute to less than the threshold. *)
Theorem loadKernel_shared_memory_attribute (drv : Driver) :
  kSmemThreshold = 47104
  /\ (forall i m st st',
        loadKernel drv i m st = (st', Done tt) ->
        meta_mismatch (self st) m = false ->
        Meta.mCubin m <> nullptr ->
        exists pre hmod f bytes,
          let name := Meta.mFuncName m in
          let l1 := log st ++ pre in
          let l2 := l1 ++ [EvModuleGetFunction hmod name CUDA_SUCCESS f] in
          let l3 := l2 ++ [EvGetGlobalVar hmod "smemSize" true] in
          let kt := readGlobal_kernelType drv l3 hmod "kernelType" in
          let l4 := l3 ++ [EvGetGlobalVar hmod "kernelType" (reply_found kt)] in
          ((mModules (self st) !! Meta.mCubin m = Some hmod /\ pre = [])
           \/ (mModules (self st) !! Meta.mCubin m = None
               /\ cuModuleLoadData drv (log st) (Meta.mCubin m)
                  = (CUDA_SUCCESS, hmod)
               /\ pre = [EvModuleLoadData (Meta.mCubin m) CUDA_SUCCESS hmod]))
          /\ cuModuleGetFunction drv l1 hmod name = (CUDA_SUCCESS, f)
          /\ readGlobal_uint32 drv l2 hmod "smemSize" = GlobalFound bytes
          /\ log st'
             = l4 ++ (if kSmemThreshold <=? bytes
                      then [EvFuncSetAttribute f bytes CUDA_SUCCESS]
                      else [])
          /\ (kSmemThreshold <= bytes ->
              cuFuncSetAttribute drv l4 f bytes = CUDA_SUCCESS)
          /\ attribute_calls (events_since st st')
             = (if kSmemThreshold <=? bytes then [(f, bytes)] else [])
          /\ mFunctions (self st')
             = map_insert_new (meta_hash_key m)
                 {| mMetaInfoIndex := i;
                    mSharedMemBytes := bytes;
                    mDeviceFunction := f;
                    mKernelType :=
                      match kt with
                      | GlobalFound v => v
                      | _ => kAMPERE_WARP_SPECIALIZED
                      end |}
                 (mFunctions (self st)))
  /\ (forall i m st st' o f bytes,
        loadKernel drv i m st = (st', o) ->
        (f, bytes) ∈ attribute_calls (events_since st st') ->
        kSmemThreshold <= bytes
        /\ exists l hmod,
             cuModuleGetFunction drv l hmod (Meta.mFuncName m)
             = (CUDA_SUCCESS, f)
             /\ readGlobal_uint32 drv
                  (l ++ [EvModuleGetFunction hmod (Meta.mFuncName m)
                           CUDA_SUCCESS f])
                  hmod "smemSize" = GlobalFound bytes
             /\ exists pre, l = log st ++ pre)
  /\ (forall table force type sm n f bytes,
        (f, bytes) ∈ attribute_calls
                       (log (load_n drv n (fresh table force type sm))) ->
        kSmemThreshold <= bytes).
Proof.
  split; [reflexivity | split; [| split]].
  - intros i m st st' H Hmm Hc.
    destruct (loadKernel_done_trace drv i m st st' H Hmm Hc)
      as (pre & hmod & f & bytes & Hmod & Hf & Hb & _ & Hlog & Hset & Hfs).
    exists pre, hmod, f, bytes. cbn zeta in *.
    split; [exact Hmod |]. split; [exact Hf |]. split; [exact Hb |].
    split; [exact Hlog |]. split; [exact Hset |]. split; [| exact Hfs].
    unfold events_since. rewrite Hlog, <- !app_assoc, drop_app_length.
    rewrite !attribute_calls_app.
    assert (Hpre : attribute_calls pre = []).
    { destruct Hmod as [[_ ->] | (_ & _ & ->)]; reflexivity. }
    rewrite Hpre. cbn. destruct (kSmemThreshold <=? bytes); reflexivity.
  - intros i m st st' o f bytes H Hin. split.
    + eapply loadKernel_attribute_bound; eassumption.
    + eapply loadKernel_attribute_source; eassumption.
  - intros table force type sm n.
    apply (load_n_preserves drv
             (fun s => forall f bytes,
                (f, bytes) ∈ attribute_calls (log s) ->
                kSmemThreshold <= bytes)).
    + intros i m st st' o HP H f bytes Hin.
      pose proof (loadKernel_frame _ _ _ _ _ _ H) as (_ & _ & _ & _ & Hlog).
      rewrite Hlog, attribute_calls_app in Hin.
      apply elem_of_app in Hin as [Hin | Hin].
      * eapply HP. exact Hin.
      * eapply loadKernel_attribute_bound; eassumption.
    + intros f bytes Hin. cbn in Hin. inversion Hin.
Qed.

Lemma loadKernel_shared_memory_attribute_witness :
  let st' := fst (loadKernel Sample.driver 4
                    (Sample.entry 80 0 16 true 200%N "kernel_mqt16")
                    Sample.start) in
  exists hmod f bytes,
    readGlobal_uint32 Sample.driver
      ([EvModuleLoadData 200%N CUDA_SUCCESS hmod]
       ++ [EvModuleGetFunction hmod "kernel_mqt16" CUDA_SUCCESS f])
      hmod "smemSize" = GlobalFound bytes
    /\ attribute_calls (events_since Sample.start st')
       = (if kSmemThreshold <=? bytes then [(f, bytes)] else []).
Proof.
  cbv zeta.
  destruct (loadKernel_shared_memory_attribute Sample.driver)
    as (_ & Hdone & _).
  destruct (Hdone 4%nat (Sample.entry 80 0 16 true 200%N "kernel_mqt16")
              Sample.start
              (fst (loadKernel Sample.driver 4
                      (Sample.entry 80 0 16 true 200%N "kernel_mqt16")
                      Sample.start)))
    as (pre & hmod & f & bytes & Hmod & _ & Hb & _ & _ & Ha & _).
  - vm_compute. reflexivity.
  - reflexivity.
  - cbn. discriminate.
  - destruct Hmod as [[Hm _] | (_ & _ & ->)]; [discriminate Hm |].
    exists hmod, f, bytes. split; [exact Hb | exact Ha].
Defined.

(** C8, as stated, fails: an entry point that needs exactly [46 * 1024]
    bytes does not exceed the threshold, and its attribute is set. *)
Lemma shared_memory_threshold_counterexample :
  spec_raises_attribute 47104 = false
  /\ attribute_calls
       (events_since Sample.start
          (fst (loadKernel Sample.driver 4
                  (Sample.entry 80 0 16 true 200%N "kernel_mqt16")
                  Sample.start)))
     = [(120012%N, 47104)].
Proof. split; vm_compute; reflexivity. Qed.

(** ** The per-device table *)

Lemma Get_reads_first (device_id : Z)
    (s_factory : list (option Loader.XQAKernelLoader)) :
  head (Loader.r_steps (Loader.Get device_id s_factory))
  = Some (Loader.Step_read device_id).
Proof.
  unfold Loader.Get.
  destruct (negb (Loader.in_bounds s_factory device_id)); [reflexivity |].
  destruct (s_factory !! Z.to_nat device_id) as [[l |] |];
    [reflexivity | |]; destruct (Loader.guard device_id); reflexivity.
Qed.

Lemma Get_in_bounds (device_id : Z) :
  Loader.in_bounds Loader.s_factory_init device_id = true <->
  0 <= device_id < 32.
Proof.
  unfold Loader.in_bounds, Loader.s_factory_init.
  rewrite length_replicate, andb_true_iff, Z.leb_le, Z.ltb_lt. lia.
Qed.

(** C10 on the code: the assertion admits ordinal 32, the 32-entry array
    has no element 32, and the element is read before the assertion. *)
Lemma Get_device_32 :
  Loader.guard 32 = true
  /\ Loader.in_bounds Loader.s_factory_init 32 = false
  /\ Loader.r_steps (Loader.Get 32 Loader.s_factory_init)
     = [Loader.Step_read 32]
  /\ Loader.r_outcome (Loader.Get 32 Loader.s_factory_init)
     = Undefined "s_factory index out of bounds".
Proof. repeat split; reflexivity. Qed.

(* ================================================================== *)
(** * Part III: further properties of the code                        *)
(* ================================================================== *)

(** A pair is known from its first component once the second is. *)
Lemma pair_of_snd {A B : Type} (p : A * B) (b : B) :
  snd p = b -> p = (fst p, b).
Proof. destruct p. cbn. intros ->. reflexivity. Qed.

(** ** The trace of [run] *)

Lemma launchMultiToken_done drv ext p lp q info mp st st' :
  launchMultiToken drv ext p lp q info mp st = (st', Done tt) ->
  exists c,
    st' = {| self := self st;
             log := log st
                    ++ (if multi_block_mode p
                        then [EvMemsetAsync (LaunchParam.scratch lp)
                                (4 * to_uint (batch_size p) * num_kv_heads p)
                                true;
                              EvSyncCheck true]
                        else [])
                    ++ [EvLaunchKernel c CUDA_SUCCESS] |}
    /\ lc_func c = mDeviceFunction info
    /\ lc_sharedMemBytes c = mSharedMemBytes info
    /\ lc_block c = (128, 1, 2)
    /\ num_q_heads_over_kv_of p <> 0
    /\ lc_kernelParams c
       = multiTokenParams (qSeqLen_of p)
           (Z.log2 (num_q_heads_over_kv_of p)) lp q
           (spec_decoding_packed_mask p).
Proof.
  unfold launchMultiToken, log2HeadGrpSize_of. intros H. unfold_monad H.
  split_cases; eexists; (split; [rewrite <- ?app_assoc; reflexivity |]);
    cbn; repeat split; try reflexivity; apply Z.eqb_neq; assumption.
Qed.

(** The launch configuration of the single-token branch. *)
Lemma launchSingleToken_done drv ext p kv lp q info mp st st' :
  launchSingleToken drv ext p kv lp q info mp st = (st', Done tt) ->
  let g := isGmmaKernel_of info in
  let c :=
    {| lc_func := mDeviceFunction info;
       lc_grid :=
         (to_uint (if multi_block_mode p
                   then computeMultiBlockCount ext p (batch_size p) mp
                   else 1),
          to_uint (num_kv_heads p), to_uint (batch_size p));
       lc_block := (128, 1, if g then 3 else 2);
       lc_sharedMemBytes := mSharedMemBytes info;
       lc_kernelParams :=
         singleTokenArray p lp q g (makeTensorMapForKVCache ext p kv) |} in
  st' = {| self := self st;
           log := log st ++ [EvLaunchKernel c CUDA_SUCCESS] |}
  /\ g = (mSM (self st) =? kSM_90 ext)
         && bool_decide (kv_cache_data_type p = DATA_TYPE_E4M3)
         && (beam_width p =? 1).
Proof.
  unfold launchSingleToken. intros H. unfold_monad H.
  repeat (case_match; use_singleTokenParams; simplify_eq/=).
  all: split; reflexivity.
Qed.

(** What a call of [run] that returns has logged, and its launch. *)
Lemma run_done_inv drv ext p kv mp st st' :
  run drv ext p kv mp st = (st', Done tt) ->
  let lp := fst (launchParams_of ext p kv) in
  let q := snd (launchParams_of ext p kv) in
  exists info c,
    mFunctions (self st) !! run_hash_key p = Some info
    /\ self st' = self st
    /\ lc_func c = mDeviceFunction info
    /\ lc_sharedMemBytes c = mSharedMemBytes info
    /\ lc_kernelParams c
       = (if multi_query_tokens p
          then multiTokenParams (qSeqLen_of p)
                 (Z.log2 (num_q_heads_over_kv_of p)) lp q
                 (spec_decoding_packed_mask p)
          else singleTokenArray p lp q (isGmmaKernel_of info)
                 (makeTensorMapForKVCache ext p kv))
    /\ events_since st st' =
       [ EvBuildDecoderInfo
           (to_int (to_uint (to_uint (batch_size p)
                             * to_uint (beam_width p))))
           (generation_input_length p);
         EvSyncCheck true;
         EvQKVPreprocessing q (cache_type_of p);
         EvSyncCheck true;
         EvFunctionsFind (run_hash_key p) ]
       ++ (if multi_query_tokens p && multi_block_mode p
           then [ EvMemsetAsync (LaunchParam.scratch lp)
                    (4 * to_uint (batch_size p) * num_kv_heads p) true;
                  EvSyncCheck true ]
           else [])
       ++ [ EvLaunchKernel c CUDA_SUCCESS; EvSyncCheck true ]
       ++ (if negb (is_null (fp8_out_scale p))
           then [ EvConversion (output p) (LaunchParam.output lp)
                    (head_size p * num_q_heads p
                     * total_num_input_tokens p);
                  EvSyncCheck true ]
           else []).
Proof.
  unfold run, check_heads. intros H. unfold_monad H.
  repeat (case_match; simplify_eq/=).
  all: repeat match goal with a : unit |- _ => destruct a end.
  all: repeat match goal with
       | H : launchMultiToken _ _ _ _ _ _ _ _ = (_, Done tt) |- _ =>
           apply launchMultiToken_done in H
             as (c & -> & Hf & Hs & _ & _ & Hk)
       | H : launchSingleToken _ _ _ _ _ _ _ _ _ = (_, Done tt) |- _ =>
           apply launchSingleToken_done in H as [-> _]
       end.
  all: eexists;
       match goal with
       | |- context [EvLaunchKernel ?c0 CUDA_SUCCESS] => exists c0
       end.
  all: split; [eassumption |]; split; [reflexivity |].
  all: split; [first [eassumption | reflexivity] |].
  all: split; [first [eassumption | reflexivity] |].
  all: split; [first [eassumption | reflexivity] |].
  all: norm_since; cbn; rewrite <- ?app_assoc; try reflexivity.
  all: match goal with
       | H : multi_block_mode _ = _ |- _ => rewrite H
       end; reflexivity.
Qed.

(** X1: a call of [run] that returns has done, in this order and nothing
    else: decoder info, preprocessing, one lookup that found the handle,
    in multi-token multi-block mode a memset of the scratch counters, one
    launch of the handle's entry point with the handle's shared memory
    size and the argument array of the decoding mode, and, when
    [fp8_out_scale] is set, one conversion from the launch's output buffer
    to the request's output; a successful synchronisation check follows
    each device step. The kernel list is unchanged. *)
Theorem run_completed_trace drv ext p kv mp st st' :
  run drv ext p kv mp st = (st', Done tt) ->
  let lp := fst (launchParams_of ext p kv) in
  let q := snd (launchParams_of ext p kv) in
  exists info c,
    mFunctions (self st) !! run_hash_key p = Some info
    /\ self st' = self st
    /\ lc_func c = mDeviceFunction info
    /\ lc_sharedMemBytes c = mSharedMemBytes info
    /\ lc_kernelParams c
       = (if multi_query_tokens p
          then multiTokenParams (qSeqLen_of p)
                 (Z.log2 (num_q_heads_over_kv_of p)) lp q
                 (spec_decoding_packed_mask p)
          else singleTokenArray p lp q (isGmmaKernel_of info)
                 (makeTensorMapForKVCache ext p kv))
    /\ events_since st st' =
       [ EvBuildDecoderInfo
           (to_int (to_uint (to_uint (batch_size p)
                             * to_uint (beam_width p))))
           (generation_input_length p);
         EvSyncCheck true;
         EvQKVPreprocessing q (cache_type_of p);
         EvSyncCheck true;
         EvFunctionsFind (run_hash_key p) ]
       ++ (if multi_query_tokens p && multi_block_mode p
           then [ EvMemsetAsync (LaunchParam.scratch lp)
                    (4 * to_uint (batch_size p) * num_kv_heads p) true;
                  EvSyncCheck true ]
           else [])
       ++ [ EvLaunchKernel c CUDA_SUCCESS; EvSyncCheck true ]
       ++ (if negb (is_null (fp8_out_scale p))
           then [ EvConversion (output p) (LaunchParam.output lp)
                    (head_size p * num_q_heads p
                     * total_num_input_tokens p);
                  EvSyncCheck true ]
           else []).
Proof. exact (run_done_inv drv ext p kv mp st st'). Qed.

Lemma run_completed_trace_witness :
  exists info c,
    mFunctions (self Sample.loaded) !! run_hash_key Sample.single = Some info
    /\ lc_func c = mDeviceFunction info.
Proof.
  destruct (run_completed_trace Sample.driver Sample.helpers Sample.single
              5%N 108 Sample.loaded
              (fst (run Sample.driver Sample.helpers Sample.single 5%N 108
                      Sample.loaded)))
    as (info & c & Hi & _ & Hf & _).
  - apply pair_of_snd. vm_compute. reflexivity.
  - exists info, c. split; assumption.
Defined.

(** X2: for a request whose key is not in the handle map, [run] launches
    nothing and does not return; when it throws "XQAKernelFunc not
    found." it has already issued the decoder info and the preprocessing
    (which writes the KV cache), and nothing after the lookup. *)
Theorem run_without_handle drv ext p kv mp st st' o :
  mFunctions (self st) !! run_hash_key p = None ->
  run drv ext p kv mp st = (st', o) ->
  launches (events_since st st') = []
  /\ o <> Done tt
  /\ (o = Fatal "XQAKernelFunc not found." ->
      events_since st st' =
        [ EvBuildDecoderInfo
            (to_int (to_uint (to_uint (batch_size p)
                              * to_uint (beam_width p))))
            (generation_input_length p);
          EvSyncCheck true;
          EvQKVPreprocessing (snd (launchParams_of ext p kv))
            (cache_type_of p);
          EvSyncCheck true;
          EvFunctionsFind (run_hash_key p) ]).
Proof.
  intros Hnone H.
  unfold run, check_heads in H. unfold_monad H.
  repeat (case_match; simplify_eq/=).
  all: split; [norm_since; reflexivity |].
  all: split; [discriminate |].
  all: intros Ho; try discriminate Ho.
  norm_since. reflexivity.
Qed.

Lemma run_without_handle_witness :
  launches (events_since Sample.loaded
              (fst (run Sample.driver Sample.helpers Sample.multi17 5%N 108
                      Sample.loaded))) = [].
Proof.
  apply (proj1 (run_without_handle Sample.driver Sample.helpers
                  Sample.multi17 5%N 108 Sample.loaded _ _
                  ltac:(vm_compute; reflexivity)
                  (surjective_pairing _))).
Defined.

(** *** Memset and launch *)

Lemma launchSingleToken_events drv ext p kv lp q info mp st st' o :
  launchSingleToken drv ext p kv lp q info mp st = (st', o) ->
  exists evs,
    st' = {| self := self st; log := log st ++ evs |}
    /\ (evs = [] \/ exists c r, evs = [EvLaunchKernel c r]).
Proof.
  unfold launchSingleToken. intros H. unfold_monad H.
  repeat (case_match; use_singleTokenParams; simplify_eq/=).
  all: give_events; eauto.
Qed.

Lemma launchMultiToken_events drv ext p lp q info mp st st' o :
  launchMultiToken drv ext p lp q info mp st = (st', o) ->
  let memset ok :=
    EvMemsetAsync (LaunchParam.scratch lp)
      (4 * to_uint (batch_size p) * num_kv_heads p) ok in
  exists evs,
    st' = {| self := self st; log := log st ++ evs |}
    /\ (if multi_block_mode p
        then evs = [] \/ evs = [memset false]
             \/ evs = [memset true; EvSyncCheck false]
             \/ exists c r,
                  evs = [memset true; EvSyncCheck true; EvLaunchKernel c r]
        else evs = [] \/ exists c r, evs = [EvLaunchKernel c r]).
Proof.
  unfold launchMultiToken, log2HeadGrpSize_of. intros H. unfold_monad H.
  split_cases; give_events; cbn; eauto 10.
Qed.

Ltac not_in_list H :=
  repeat (apply elem_of_cons in H as [H | H]; [discriminate H |]);
  apply elem_of_nil in H; contradiction.

(** X3: [run] zeroes the scratch counters only in multi-token mode with
    multi-block mode on, and there every launch comes directly after a
    successful memset of [4 * batch_size * num_kv_heads] bytes at the
    scratch pointer and its synchronisation check. In single-token mode
    it never issues a memset, multi-block mode or not. *)
Theorem run_memset_discipline drv ext p kv mp st st' o :
  run drv ext p kv mp st = (st', o) ->
  (multi_query_tokens p && multi_block_mode p = false ->
   forall s b ok, EvMemsetAsync s b ok ∉ events_since st st')
  /\ (multi_query_tokens p && multi_block_mode p = true ->
      forall c r,
        EvLaunchKernel c r ∈ events_since st st' ->
        exists pre post,
          events_since st st' =
            pre
            ++ [ EvMemsetAsync
                   (LaunchParam.scratch (fst (launchParams_of ext p kv)))
                   (4 * to_uint (batch_size p) * num_kv_heads p) true;
                 EvSyncCheck true;
                 EvLaunchKernel c r ]
            ++ post
          /\ launches pre = []).
Proof.
  unfold run, check_heads. intros H. unfold_monad H.
  repeat (case_match; simplify_eq/=).
  all: repeat match goal with
       | H : launchMultiToken _ _ _ _ _ _ _ _ = (_, _) |- _ =>
           apply launchMultiToken_events in H as (evs & -> & Hev);
           cbv zeta in Hev
       | H : launchSingleToken _ _ _ _ _ _ _ _ _ = (_, _) |- _ =>
           apply launchSingleToken_events in H as (evs & -> & Hev)
       end.
  all: repeat match goal with
       | H : multi_query_tokens _ = _ |- _ => rewrite H in *; clear H
       end.
  all: destruct (multi_block_mode p) eqn:Hmbm.
  all: repeat match goal with
       | H : _ \/ _ |- _ => destruct H as [H | H]
       | H : exists _, _ |- _ => destruct H as [? H]
       end; subst.
  all: norm_since; cbn.
  all: split; intros Hmode; try discriminate Hmode.
  all: try (intros s0 b ok Hin; not_in_list Hin).
  all: intros c r Hin.
  all: repeat (apply elem_of_cons in Hin as [Hin | Hin];
               [try discriminate Hin |]).
  all: try (apply elem_of_nil in Hin; contradiction).
  all: injection Hin as -> ->.
  all: match goal with
       | |- context [?a :: ?b :: ?c :: ?d :: ?e
                     :: EvMemsetAsync _ _ true :: _] =>
           exists [a; b; c; d; e]
       end; eexists; split; reflexivity.
Qed.

Lemma run_memset_discipline_witness :
  (EvMemsetAsync 904%N 64 true
   ∉ events_since Sample.loaded
       (fst (run Sample.driver Sample.helpers Sample.single 5%N 108
               Sample.loaded)))
  /\ exists pre post,
       events_since Sample.loaded
         (fst (run Sample.driver Sample.helpers Sample2.multi8_blocks 5%N
                 108 Sample.loaded))
       = pre ++ post /\ launches pre = [].
Proof.
  split.
  - apply (proj1 (run_memset_discipline Sample.driver Sample.helpers
                    Sample.single 5%N 108 Sample.loaded _ _
                    (surjective_pairing _))).
    reflexivity.
  - destruct (proj2 (run_memset_discipline Sample.driver Sample.helpers
                       Sample2.multi8_blocks 5%N 108 Sample.loaded _ _
                       (surjective_pairing _)) eq_refl
                (Build_LaunchConfig 120012%N (1, 16, 4) (128, 1, 2) 47104
                   (multiTokenParams 8 3
                      (fst (launchParams_of Sample.helpers
                              Sample2.multi8_blocks 5%N))
                      905%N 600%N))
                CUDA_SUCCESS)
      as (pre & post & He & Hl).
    + vm_compute. do 7 apply list_elem_of_further. apply list_elem_of_here.
    + exists pre. eexists. split; [exact He | exact Hl].
Defined.

(** X4: a single-token call of [run] that returns has made exactly one
    launch: of the handle's entry point, on the grid (multi-block count,
    KV heads, batch size), with blocks of 128 x 1 x 2 threads, or
    128 x 1 x 3 for a kernel whose tag is the Hopper one, and with the
    handle's shared memory size. The tag is the Hopper one exactly when
    the list's architecture is [kSM_90], the KV cache is E4M3 and the beam
    width is 1. *)
Theorem run_singleToken_launch drv ext p kv mp st st' :
  multi_query_tokens p = false ->
  run drv ext p kv mp st = (st', Done tt) ->
  exists info,
    mFunctions (self st) !! run_hash_key p = Some info
    /\ launches (events_since st st') =
       [ {| lc_func := mDeviceFunction info;
            lc_grid :=
              (to_uint (if multi_block_mode p
                        then computeMultiBlockCount ext p (batch_size p) mp
                        else 1),
               to_uint (num_kv_heads p), to_uint (batch_size p));
            lc_block := (128, 1, if isGmmaKernel_of info then 3 else 2);
            lc_sharedMemBytes := mSharedMemBytes info;
            lc_kernelParams :=
              singleTokenArray p (fst (launchParams_of ext p kv))
                (snd (launchParams_of ext p kv)) (isGmmaKernel_of info)
                (makeTensorMapForKVCache ext p kv) |} ]
    /\ isGmmaKernel_of info
       = (mSM (self st) =? kSM_90 ext)
         && bool_decide (kv_cache_data_type p = DATA_TYPE_E4M3)
         && (beam_width p =? 1).
Proof.
  intros Hm H. unfold run, check_heads in H. unfold_monad H.
  rewrite Hm in H.
  repeat (case_match; simplify_eq/=).
  all: repeat match goal with a : unit |- _ => destruct a end.
  all: match goal with
       | H : launchSingleToken _ _ _ _ _ _ _ _ _ = (_, Done tt) |- _ =>
           apply launchSingleToken_done in H as [-> Hg]
       end.
  all: eexists; split; [eassumption |].
  all: cbn [self] in Hg.
  all: split; [| exact Hg].
  all: norm_since;
       repeat match goal with
       | H : multi_block_mode _ = _ |- _ => rewrite H
       end; reflexivity.
Qed.

Lemma run_singleToken_launch_witness :
  exists info,
    mFunctions (self Sample.loaded) !! run_hash_key Sample.single = Some info
    /\ isGmmaKernel_of info = false.
Proof.
  destruct (run_singleToken_launch Sample.driver Sample.helpers Sample.single
              5%N 108 Sample.loaded
              (fst (run Sample.driver Sample.helpers Sample.single 5%N 108
                      Sample.loaded)) eq_refl)
    as (info & Hi & _ & Hg).
  - apply pair_of_snd. vm_compute. reflexivity.
  - exists info. split; [exact Hi | exact Hg].
Defined.

(** *** The output buffer *)

Lemma launchParams_of_cvt ext p kv :
  negb (is_null (fp8_out_scale p)) = true ->
  LaunchParam.output (fst (launchParams_of ext p kv))
  = snd (launchParams_of ext p kv)
  /\ snd (launchParams_of ext p kv) = snd (buildXQALaunchParams ext p kv).
Proof.
  intros Hc. unfold launchParams_of.
  destruct (buildXQALaunchParams ext p kv) as [lp io]. rewrite Hc.
  split; reflexivity.
Qed.

Lemma launchParams_of_plain ext p kv :
  negb (is_null (fp8_out_scale p)) = false ->
  launchParams_of ext p kv = buildXQALaunchParams ext p kv.
Proof.
  intros Hc. unfold launchParams_of.
  destruct (buildXQALaunchParams ext p kv) as [lp io]. rewrite Hc.
  reflexivity.
Qed.

Lemma output_in_kernelParams p ext kv info c :
  lc_kernelParams c
  = (if multi_query_tokens p
     then multiTokenParams (qSeqLen_of p)
            (Z.log2 (num_q_heads_over_kv_of p))
            (fst (launchParams_of ext p kv)) (snd (launchParams_of ext p kv))
            (spec_decoding_packed_mask p)
     else singleTokenArray p (fst (launchParams_of ext p kv))
            (snd (launchParams_of ext p kv)) (isGmmaKernel_of info)
            (makeTensorMapForKVCache ext p kv)) ->
  Slot_arg (Arg_output (LaunchParam.output (fst (launchParams_of ext p kv))))
    ∈ lc_kernelParams c
  /\ Slot_arg (Arg_xqa_q_input_ptr (snd (launchParams_of ext p kv)))
       ∈ lc_kernelParams c.
Proof.
  intros ->. destruct (multi_query_tokens p).
  - unfold multiTokenParams. split.
    + do 3 apply list_elem_of_further. apply list_elem_of_here.
    + do 4 apply list_elem_of_further. apply list_elem_of_here.
  - unfold singleTokenArray, spec_singleTokenArgs. cbn [app map]. split.
    + apply list_elem_of_further, list_elem_of_here.
    + do 2 apply list_elem_of_further. apply list_elem_of_here.
Qed.

(** X5: in a call of [run] that returns, with [fp8_out_scale] set the
    kernel writes its output to the scratch buffer [ioScratch], the same
    buffer it reads the processed query from, and exactly one conversion
    then reads that buffer into the request's [output]; with
    [fp8_out_scale] null there is no conversion and the kernel's output
    pointer is the one [buildXQALaunchParams] chose. *)
Theorem run_output_buffer drv ext p kv mp st st' :
  run drv ext p kv mp st = (st', Done tt) ->
  let ioScratch := snd (buildXQALaunchParams ext p kv) in
  exists c,
    launches (events_since st st') = [c]
    /\ Slot_arg (Arg_xqa_q_input_ptr ioScratch) ∈ lc_kernelParams c
    /\ if negb (is_null (fp8_out_scale p))
       then Slot_arg (Arg_output ioScratch) ∈ lc_kernelParams c
            /\ conversions (events_since st st')
               = [(output p, ioScratch,
                   head_size p * num_q_heads p * total_num_input_tokens p)]
       else Slot_arg
              (Arg_output
                 (LaunchParam.output (fst (buildXQALaunchParams ext p kv))))
              ∈ lc_kernelParams c
            /\ conversions (events_since st st') = [].
Proof.
  intros H. apply run_done_inv in H
    as (info & c & _ & _ & _ & _ & Hk & Hev).
  cbv zeta in *. exists c.
  destruct (output_in_kernelParams p ext kv info c Hk) as [Hout Hq].
  rewrite Hev. clear Hev Hk.
  destruct (negb (is_null (fp8_out_scale p))) eqn:Hc.
  - destruct (launchParams_of_cvt ext p kv Hc) as [Ho Hs].
    rewrite Ho, Hs in *.
    destruct (multi_query_tokens p && multi_block_mode p);
      repeat split; assumption || reflexivity.
  - rewrite (launchParams_of_plain ext p kv Hc) in *.
    destruct (multi_query_tokens p && multi_block_mode p);
      repeat split; assumption || reflexivity.
Qed.

Lemma run_output_buffer_witness :
  exists c,
    launches (events_since Sample.loaded
                (fst (run Sample.driver Sample.helpers Sample2.single_fp8
                        5%N 108 Sample.loaded))) = [c]
    /\ Slot_arg (Arg_output 905%N) ∈ lc_kernelParams c.
Proof.
  destruct (run_output_buffer Sample.driver Sample.helpers
              Sample2.single_fp8 5%N 108 Sample.loaded
              (fst (run Sample.driver Sample.helpers Sample2.single_fp8
                      5%N 108 Sample.loaded)))
    as (c & Hl & _ & Ho & _).
  - apply pair_of_snd. vm_compute. reflexivity.
  - exists c. split; [exact Hl | exact Ho].
Defined.

(** ** More on the loader *)

(** A property kept by the loop body at the index of a table entry is
    kept by the loop, by [loadXQAKernels] and by any number of calls. *)
Lemma loadLoop_preserves_at drv (P : St -> Prop) :
  (forall i m st st' o,
      mKernelMeta (self st) !! i = Some m ->
      P st -> loadKernel drv i m st = (st', o) -> P st') ->
  forall metas i st st' o,
    (forall j m, metas !! j = Some m ->
                 mKernelMeta (self st) !! (i + j)%nat = Some m) ->
    P st -> loadLoop drv i metas st = (st', o) -> P st'.
Proof.
  intros Hstep metas.
  induction metas as [| m rest IH]; intros i st st' o Htab HP H.
  - cbn in H. unfold ret in H. injection H as <- _. exact HP.
  - rewrite loadLoop_cons in H.
    destruct (loadKernel drv i m st) as [st1 o1] eqn:E.
    assert (Hi : mKernelMeta (self st) !! i = Some m).
    { specialize (Htab 0%nat m eq_refl). rewrite Nat.add_0_r in Htab.
      exact Htab. }
    pose proof (Hstep _ _ _ _ _ Hi HP E) as HP1.
    pose proof (loadKernel_frame _ _ _ _ _ _ E) as (_ & Ht & _).
    destruct o1; [| injection H as <- _; exact HP1
                  | injection H as <- _; exact HP1].
    eapply (IH (S i) st1); [| exact HP1 | exact H].
    intros j m' Hj. rewrite Ht.
    replace (S i + j)%nat with (i + S j)%nat by lia.
    apply Htab. exact Hj.
Qed.

Lemma loadXQAKernels_preserves_at drv (P : St -> Prop) :
  (forall i m st st' o,
      mKernelMeta (self st) !! i = Some m ->
      P st -> loadKernel drv i m st = (st', o) -> P st') ->
  forall st st' o, P st -> loadXQAKernels drv st = (st', o) -> P st'.
Proof.
  intros Hstep st st' o HP H. unfold loadXQAKernels, bind, this_, ret in H.
  case_bool_decide.
  - eapply (loadLoop_preserves_at drv P Hstep _ 0%nat st);
      [| exact HP | exact H].
    intros j m Hj. exact Hj.
  - injection H as <- _. exact HP.
Qed.

Lemma load_n_preserves_at drv (P : St -> Prop) :
  (forall i m st st' o,
      mKernelMeta (self st) !! i = Some m ->
      P st -> loadKernel drv i m st = (st', o) -> P st') ->
  forall n st, P st -> P (load_n drv n st).
Proof.
  intros Hstep n. induction n as [| n IH]; intros st HP; [exact HP |].
  cbn [load_n]. apply IH.
  eapply loadXQAKernels_preserves_at; [exact Hstep | exact HP |].
  apply surjective_pairing.
Qed.

(** *** Entries are never replaced *)

Lemma map_insert_new_keeps `{Countable K} {V} (k k' : K) (v v' : V)
    (m : gmap K V) :
  m !! k' = Some v' -> map_insert_new k v m !! k' = Some v'.
Proof.
  intros Hk. unfold map_insert_new. destruct (m !! k) eqn:E; [exact Hk |].
  rewrite lookup_insert_ne; [exact Hk |]. intros ->. congruence.
Qed.

Lemma loadKernel_keeps drv i m st st' o :
  loadKernel drv i m st = (st', o) ->
  (forall k fi, mFunctions (self st) !! k = Some fi ->
                mFunctions (self st') !! k = Some fi)
  /\ (forall c h, mModules (self st) !! c = Some h ->
                  mModules (self st') !! c = Some h).
Proof.
  intros H. split.
  - intros k fi Hk.
    apply loadKernel_functions in H as [[-> _] | (_ & _ & _ & fi' & _ & -> & _)];
      [exact Hk | apply map_insert_new_keeps; exact Hk].
  - intros c h Hc.
    apply loadKernel_modules in H as [[-> _] | (Habs & [h' ->] & _)];
      [exact Hc |].
    rewrite lookup_insert_ne; [exact Hc |]. intros <-. congruence.
Qed.

(** X6: [loadXQAKernels] never removes or replaces what the two maps
    hold: a handle stored under a key and a module stored for a blob are
    still there, unchanged, after any number of calls, whatever their
    outcomes. *)
Theorem loadXQAKernels_keeps_entries drv n st :
  (forall k fi,
      mFunctions (self st) !! k = Some fi ->
      mFunctions (self (load_n drv n st)) !! k = Some fi)
  /\ (forall c h,
        mModules (self st) !! c = Some h ->
        mModules (self (load_n drv n st)) !! c = Some h).
Proof.
  split.
  - intros k fi Hk.
    apply (load_n_preserves drv
             (fun s => mFunctions (self s) !! k = Some fi)); [| exact Hk].
    intros i m s s' o Hs E. apply (proj1 (loadKernel_keeps _ _ _ _ _ _ E)).
    exact Hs.
  - intros c h Hc.
    apply (load_n_preserves drv
             (fun s => mModules (self s) !! c = Some h)); [| exact Hc].
    intros i m s s' o Hs E. apply (proj2 (loadKernel_keeps _ _ _ _ _ _ E)).
    exact Hs.
Qed.

Lemma loadXQAKernels_keeps_entries_witness :
  mModules (self (load_n Sample.driver 2 Sample.loaded)) !! 100%N
  = Some 1100%N.
Proof.
  apply (proj2 (loadXQAKernels_keeps_entries Sample.driver 2 Sample.loaded)).
  vm_compute. reflexivity.
Defined.

(** *** Handles and the driver *)

Ltac in_list :=
  solve [repeat first [apply list_elem_of_here | apply list_elem_of_further]].

Lemma loadKernel_resolved drv i m st st' o :
  loadKernel drv i m st = (st', o) ->
  forall k fi,
    mFunctions (self st') !! k = Some fi ->
    mFunctions (self st) !! k = Some fi
    \/ (k = meta_hash_key m
        /\ mMetaInfoIndex fi = i
        /\ exists hmod,
             mModules (self st') !! Meta.mCubin m = Some hmod
             /\ EvModuleGetFunction hmod (Meta.mFuncName m) CUDA_SUCCESS
                  (mDeviceFunction fi) ∈ events_since st st'
             /\ (kSmemThreshold <= mSharedMemBytes fi ->
                 EvFuncSetAttribute (mDeviceFunction fi)
                   (mSharedMemBytes fi) CUDA_SUCCESS
                   ∈ events_since st st')).
Proof.
  intros H k fi Hk. open_loadKernel H.
  all: cbn in Hk; try (left; exact Hk).
  all: apply map_insert_new_lookup in Hk as [Hk | (-> & -> & _)];
       [left; exact Hk | right].
  all: split; [reflexivity |]; split; [reflexivity |].
  all: eexists; split;
       [cbn; first [eassumption
                   | rewrite map_insert_new_absent by assumption;
                     apply lookup_insert_eq] |].
  all: norm_since; cbn; split; [in_list |].
  all: intros Hthr; first [in_list | exfalso].
  all: match goal with
       | H : (kSmemThreshold <=? _) = false |- _ =>
           apply Z.leb_gt in H; lia
       end.
Qed.

Lemma loadKernel_handles_resolved drv i m st st' o :
  mKernelMeta (self st) !! i = Some m ->
  handles_resolved st ->
  loadKernel drv i m st = (st', o) ->
  handles_resolved st'.
Proof.
  intros Hi Hinv H k fi Hk.
  pose proof (loadKernel_frame _ _ _ _ _ _ H) as (_ & Ht & _ & _ & Hlog).
  pose proof (loadKernel_keeps _ _ _ _ _ _ H) as [_ Hmods].
  destruct (loadKernel_resolved _ _ _ _ _ _ H k fi Hk)
    as [Hold | (-> & Hidx & hmod & Hmod & Hget & Hattr)].
  - destruct (Hinv k fi Hold) as (m' & hmod & Hm' & Hkey & Hmod & Hget & Hattr).
    exists m', hmod. rewrite Ht, Hlog.
    repeat split; auto.
    + apply elem_of_app. left. exact Hget.
    + intros Hthr. apply elem_of_app. left. apply Hattr. exact Hthr.
  - exists m, hmod. rewrite Ht, Hlog, Hidx.
    repeat split; auto.
    + apply elem_of_app. right. exact Hget.
    + intros Hthr. apply elem_of_app. right. apply Hattr. exact Hthr.
Qed.

Lemma fresh_entries_from_blobs table force type sm :
  entries_from_blobs (fresh table force type sm).
Proof.
  intros k fi H. cbn in H. rewrite lookup_empty in H. discriminate H.
Qed.

(** X7: after any number of [loadXQAKernels] calls on a new list, with
    any driver, every handle in the map was made for the table entry of
    its index and is stored under that entry's key; its entry point was
    resolved successfully, by that entry's function name, in the module
    the list holds for that entry's blob; and if it needs at least
    [46 * 1024] bytes of shared memory, [cuFuncSetAttribute] succeeded for
    it with exactly that size. *)
Theorem handles_are_resolved drv table force type sm n k fi :
  let st := load_n drv n (fresh table force type sm) in
  mFunctions (self st) !! k = Some fi ->
  exists m hmod,
    table !! mMetaInfoIndex fi = Some m
    /\ k = meta_hash_key m
    /\ mModules (self st) !! Meta.mCubin m = Some hmod
    /\ EvModuleGetFunction hmod (Meta.mFuncName m) CUDA_SUCCESS
         (mDeviceFunction fi) ∈ log st
    /\ (kSmemThreshold <= mSharedMemBytes fi ->
        EvFuncSetAttribute (mDeviceFunction fi) (mSharedMemBytes fi)
          CUDA_SUCCESS ∈ log st).
Proof.
  intros st Hk. subst st.
  assert (Hinv : handles_resolved (load_n drv n (fresh table force type sm))).
  { apply (load_n_preserves_at drv handles_resolved).
    - intros i m s s' o. apply loadKernel_handles_resolved.
    - intros k' fi' H'. cbn in H'. rewrite lookup_empty in H'.
      discriminate H'. }
  destruct (Hinv k fi Hk) as (m & hmod & Hm & Hrest).
  destruct (load_n_entries drv n _ (fresh_entries_from_blobs table force type sm))
    as [_ Htab].
  rewrite Htab in Hm. exists m, hmod. split; [exact Hm | exact Hrest].
Qed.

Lemma handles_are_resolved_witness :
  exists m hmod,
    Sample.table !! 4%nat = Some m
    /\ mModules (self (load_n Sample.driver 1 Sample.start))
         !! Meta.mCubin m = Some hmod.
Proof.
  destruct (handles_are_resolved Sample.driver Sample.table false
              DATA_TYPE_FP16 80 1%nat (run_hash_key Sample.multi8)
              {| mMetaInfoIndex := 4; mSharedMemBytes := 47104;
                 mDeviceFunction := 120012%N;
                 mKernelType := kAMPERE_WARP_SPECIALIZED |})
    as (m & hmod & Hm & _ & Hmod & _).
  - vm_compute. reflexivity.
  - exists m, hmod. split; [exact Hm | exact Hmod].
Defined.

(** *** Every loadable entry gets a handle, and the first one wins *)

Lemma loadable_frame (this this' : XQAKernelList) (m : Meta.t) :
  mSM this' = mSM this -> mDataType this' = mDataType this ->
  loadable this m -> loadable this' m.
Proof.
  unfold loadable, meta_mismatch. intros -> ->. auto.
Qed.

Lemma map_insert_new_is_Some `{Countable K} {V} (k : K) (v : V)
    (m : gmap K V) :
  is_Some (map_insert_new k v m !! k).
Proof.
  unfold map_insert_new. destruct (m !! k) eqn:E.
  - rewrite E. eauto.
  - rewrite lookup_insert_eq. eauto.
Qed.

Lemma loadKernel_done_loadable drv i m st st' :
  loadKernel drv i m st = (st', Done tt) ->
  loadable (self st) m ->
  is_Some (mFunctions (self st') !! meta_hash_key m)
  /\ is_Some (mModules (self st') !! Meta.mCubin m).
Proof.
  intros H [Hmm Hc].
  assert (Hn : is_null (Meta.mCubin m) = false).
  { unfold is_null. apply N.eqb_neq. exact Hc. }
  open_loadKernel H.
  all: cbn; split; try apply map_insert_new_is_Some; eauto.
Qed.

Lemma loadLoop_covers drv metas : forall i st st',
  loadLoop drv i metas st = (st', Done tt) ->
  forall m, m ∈ metas -> loadable (self st) m ->
  is_Some (mFunctions (self st') !! meta_hash_key m)
  /\ is_Some (mModules (self st') !! Meta.mCubin m).
Proof.
  induction metas as [| m0 rest IH]; intros i st st' H m Hin Hl.
  - inversion Hin.
  - rewrite loadLoop_cons in H.
    destruct (loadKernel drv i m0 st) as [st1 o1] eqn:E.
    destruct o1 as [[] | |]; [| discriminate H | discriminate H].
    pose proof (loadKernel_frame _ _ _ _ _ _ E) as (Hd & _ & Hs & _).
    apply elem_of_cons in Hin as [-> | Hin].
    + destruct (loadKernel_done_loadable _ _ _ _ _ E Hl) as [[fi Hf] [h Hm]].
      split.
      * exists fi.
        apply (loadLoop_preserves drv
                 (fun s => mFunctions (self s) !! meta_hash_key m0 = Some fi)
                 (fun i' m' s s' o' Hs' E' =>
                    proj1 (loadKernel_keeps _ _ _ _ _ _ E') _ _ Hs')
                 _ _ _ _ _ Hf H).
      * exists h.
        apply (loadLoop_preserves drv
                 (fun s => mModules (self s) !! Meta.mCubin m0 = Some h)
                 (fun i' m' s s' o' Hs' E' =>
                    proj2 (loadKernel_keeps _ _ _ _ _ _ E') _ _ Hs')
                 _ _ _ _ _ Hm H).
    + apply (IH _ _ _ H m Hin).
      apply (loadable_frame (self st)); assumption.
Qed.

Lemma check_heads_ok (p : XQAParams) (st : St) :
  heads_ok p ->
  check_heads (num_q_heads p) (num_kv_heads p) st = (st, Done tt).
Proof.
  intros (Hkv & Hdiv & Hov). unfold check_heads, TLLM_CHECK_WITH_INFO, int_rem.
  destruct (Z.eqb_spec (num_kv_heads p) 0) as [| _]; [contradiction |].
  destruct ((num_q_heads p =? INT_MIN) && (num_kv_heads p =? -1)) eqn:Hb.
  - apply andb_prop in Hb as [Hq Hk]. apply Z.eqb_eq in Hq, Hk.
    exfalso. apply Hov. auto.
  - assert (Hr : Z.rem (num_q_heads p) (num_kv_heads p) = 0)
      by (apply Z.rem_divide; assumption).
    rewrite Hr. reflexivity.
Qed.

Lemma supportConfig_ok (p : XQAParams) (st : St) :
  heads_ok p ->
  supportConfig p st
  = ({| self := self st;
        log := log st ++ [EvFunctionsFind (supportConfig_hash_key p)] |},
     Done (bool_decide
             (is_Some (mFunctions (self st) !! supportConfig_hash_key p)))).
Proof.
  intros Hok. unfold supportConfig, bind.
  rewrite (check_heads_ok p st Hok). reflexivity.
Qed.

(** X8: when [loadXQAKernels] returns on a list whose handle map was
    empty, every table entry of the list's architecture and data type that
    has a blob has a handle under its key and a module for its blob; so
    [supportConfig] answers true for every request with a valid head
    ratio whose key is the key of such an entry. *)
Theorem loadXQAKernels_covers_table drv st st' m :
  mFunctions (self st) = ∅ ->
  loadXQAKernels drv st = (st', Done tt) ->
  m ∈ mKernelMeta (self st) ->
  loadable (self st) m ->
  is_Some (mFunctions (self st') !! meta_hash_key m)
  /\ is_Some (mModules (self st') !! Meta.mCubin m)
  /\ forall p,
       heads_ok p -> supportConfig_hash_key p = meta_hash_key m ->
       snd (supportConfig p st') = Done true.
Proof.
  intros He H Hin Hl. unfold loadXQAKernels, bind, this_, ret in H.
  rewrite bool_decide_eq_true_2 in H by exact He.
  destruct (loadLoop_covers _ _ _ _ _ H m Hin Hl) as [Hf Hm].
  split; [exact Hf | split; [exact Hm |]].
  intros p Hok Hkey. rewrite (supportConfig_ok p st' Hok). cbn.
  rewrite Hkey, bool_decide_eq_true_2 by exact Hf. reflexivity.
Qed.

Lemma loadXQAKernels_covers_table_witness :
  snd (supportConfig Sample.single Sample.loaded) = Done true.
Proof.
  refine (proj2 (proj2 (loadXQAKernels_covers_table Sample.driver
                          Sample.start Sample.loaded
                          (Sample.entry 80 8 8 false 100%N "kernel_r8")
                          eq_refl _ _ _)) Sample.single _ _).
  - apply pair_of_snd. vm_compute. reflexivity.
  - apply list_elem_of_here.
  - split; [reflexivity | discriminate].
  - split; [cbn; lia | split].
    + exists 8. reflexivity.
    + cbn. unfold INT_MIN. intros [H _]. discriminate H.
  - reflexivity.
Defined.

Lemma loadLoop_first drv metas : forall i st st' o k fi,
  mFunctions (self st) !! k = None ->
  loadLoop drv i metas st = (st', o) ->
  mFunctions (self st') !! k = Some fi ->
  forall j m,
    metas !! j = Some m -> loadable (self st) m -> meta_hash_key m = k ->
    (mMetaInfoIndex fi <= i + j)%nat.
Proof.
  induction metas as [| m0 rest IH]; intros i st st' o k fi Hnone H Hk j m Hj Hl Hkey.
  - rewrite lookup_nil in Hj. discriminate Hj.
  - rewrite loadLoop_cons in H.
    destruct (loadKernel drv i m0 st) as [st1 o1] eqn:E.
    pose proof (loadKernel_frame _ _ _ _ _ _ E) as (Hd & _ & Hs & _).
    destruct (mFunctions (self st1) !! k) as [fi1 |] eqn:Hk1.
    + (* the key got its handle at index [i] *)
      assert (Hidx : mMetaInfoIndex fi1 = i).
      { destruct (loadKernel_resolved _ _ _ _ _ _ E k fi1 Hk1)
          as [Hold | (_ & Hi & _)]; [congruence | exact Hi]. }
      assert (Hfin : mFunctions (self st') !! k = Some fi1).
      { destruct o1.
        - apply (loadLoop_preserves drv
                   (fun s => mFunctions (self s) !! k = Some fi1)
                   (fun i' m' s s' o' Hs' E' =>
                      proj1 (loadKernel_keeps _ _ _ _ _ _ E') _ _ Hs')
                   _ _ _ _ _ Hk1 H).
        - injection H as <- _. exact Hk1.
        - injection H as <- _. exact Hk1. }
      rewrite Hfin in Hk. injection Hk as <-. lia.
    + destruct o1 as [[] | |];
        [| injection H as <- _; congruence
         | injection H as <- _; congruence].
      destruct j as [| j].
      * cbn in Hj. injection Hj as ->.
        destruct (loadKernel_done_loadable _ _ _ _ _ E Hl) as [[fi0 Hf0] _].
        rewrite Hkey in Hf0. congruence.
      * cbn in Hj.
        assert (Hl1 : loadable (self st1) m)
          by (apply (loadable_frame (self st)); assumption).
        pose proof (IH (S i) st1 st' o k fi Hk1 H Hk j m Hj Hl1 Hkey). lia.
Qed.

(** X9: when several table entries have the same key, the handle map
    keeps the first: after [loadXQAKernels] on a list whose handle map
    was empty, the handle under a key carries an index that is at most
    the index of any loadable table entry with that key. *)
Theorem loadXQAKernels_first_entry_wins drv st st' o k fi j m :
  mFunctions (self st) = ∅ ->
  loadXQAKernels drv st = (st', o) ->
  mFunctions (self st') !! k = Some fi ->
  mKernelMeta (self st) !! j = Some m ->
  loadable (self st) m ->
  meta_hash_key m = k ->
  (mMetaInfoIndex fi <= j)%nat.
Proof.
  intros He H Hk Hj Hl Hkey. unfold loadXQAKernels, bind, this_, ret in H.
  rewrite bool_decide_eq_true_2 in H by exact He.
  assert (Hnone : mFunctions (self st) !! k = None)
    by (rewrite He; apply lookup_empty).
  exact (loadLoop_first drv _ 0%nat st st' o k fi Hnone H Hk j m Hj Hl Hkey).
Qed.

Lemma loadXQAKernels_first_entry_wins_witness :
  (mMetaInfoIndex
     {| mMetaInfoIndex := 0; mSharedMemBytes := 1024;
        mDeviceFunction := 110012%N;
        mKernelType := kAMPERE_WARP_SPECIALIZED |} <= 1)%nat.
Proof.
  apply (loadXQAKernels_first_entry_wins Sample.driver Sample2.twins_start
           (fst (loadXQAKernels Sample.driver Sample2.twins_start))
           (snd (loadXQAKernels Sample.driver Sample2.twins_start))
           (run_hash_key Sample.single) _ 1%nat
           (Sample.entry 80 8 8 false 100%N "kernel_second")).
  - reflexivity.
  - apply surjective_pairing.
  - vm_compute. reflexivity.
  - reflexivity.
  - split; [reflexivity | discriminate].
  - reflexivity.
Defined.

(** ** The cache of kernel lists *)

Lemma loadXQAKernels_frame drv st st' o :
  loadXQAKernels drv st = (st', o) ->
  mDataType (self st') = mDataType (self st)
  /\ mKernelMeta (self st') = mKernelMeta (self st)
  /\ mSM (self st') = mSM (self st)
  /\ mForceXQA (self st') = mForceXQA (self st).
Proof.
  apply (loadXQAKernels_preserves drv
           (fun s => mDataType (self s) = mDataType (self st)
                     /\ mKernelMeta (self s) = mKernelMeta (self st)
                     /\ mSM (self s) = mSM (self st)
                     /\ mForceXQA (self s) = mForceXQA (self st)));
    [| auto].
  intros i m s s' o' (H1 & H2 & H3 & H4) E.
  apply loadKernel_frame in E as (E1 & E2 & E3 & E4 & _).
  repeat split; congruence.
Qed.

Lemma getXQAKernels_hit drv env type sm ls kernels :
  mKernels ls !! (type, sm) = Some kernels ->
  XQAKernelLoader_getXQAKernels drv env type sm ls = (ls, Done kernels).
Proof.
  intros Hc. unfold XQAKernelLoader_getXQAKernels. rewrite Hc. reflexivity.
Qed.

Lemma getXQAKernels_miss drv env type sm ls :
  mKernels ls !! (type, sm) = None ->
  XQAKernelLoader_getXQAKernels drv env type sm ls =
    let r := loadXQAKernels drv
               {| self := XQAKernelList_new (sXqaKernelMetaInfo env)
                            (forceXQAKernels env) type sm;
                  log := llog ls |} in
    match snd r with
    | Done _ =>
        ({| mKernels := <[(type, sm) := self (fst r)]> (mKernels ls);
            llog := log (fst r) |}, Done (self (fst r)))
    | Fatal msg =>
        ({| mKernels := mKernels ls; llog := log (fst r) |}, Fatal msg)
    | Undefined what =>
        ({| mKernels := mKernels ls; llog := log (fst r) |}, Undefined what)
    end.
Proof.
  intros Hc. unfold XQAKernelLoader_getXQAKernels. rewrite Hc. cbv zeta.
  destruct (loadXQAKernels drv _) as [st [[] | msg | what]]; cbn;
    [| reflexivity | reflexivity].
  rewrite map_insert_new_absent by exact Hc. reflexivity.
Qed.

(** X10: [XQAKernelLoader::getXQAKernels] caches a list only when its
    load returned: after a call that returns a list, that list is the
    entry of [(type, sm)] and a further call for the same pair, with any
    driver, returns it and changes nothing, the log included; a call that
    throws leaves [mKernels] as it was; and no call touches the entry of
    another pair. *)
Theorem getXQAKernels_caches drv env type sm ls ls' o :
  XQAKernelLoader_getXQAKernels drv env type sm ls = (ls', o) ->
  (forall kernels,
      o = Done kernels ->
      mKernels ls' !! (type, sm) = Some kernels
      /\ forall drv' env',
           XQAKernelLoader_getXQAKernels drv' env' type sm ls'
           = (ls', Done kernels))
  /\ ((forall kernels, o <> Done kernels) -> mKernels ls' = mKernels ls)
  /\ (forall key, key <> (type, sm) ->
                  mKernels ls' !! key = mKernels ls !! key).
Proof.
  intros H.
  destruct (mKernels ls !! (type, sm)) as [kl |] eqn:Hc.
  - rewrite (getXQAKernels_hit _ _ _ _ _ _ Hc) in H.
    injection H as <- <-. split; [| split].
    + intros kernels [= <-]. split; [exact Hc |].
      intros drv' env'. apply getXQAKernels_hit. exact Hc.
    + reflexivity.
    + reflexivity.
  - rewrite (getXQAKernels_miss _ _ _ _ _ Hc) in H. cbv zeta in H.
    destruct (loadXQAKernels drv _) as [st [[] | msg | what]];
      cbn in H; injection H as <- <-; cbn [mKernels].
    + assert (Hl : <[(type, sm) := self st]> (mKernels ls) !! (type, sm)
                   = Some (self st)) by apply lookup_insert_eq.
      split; [| split].
      * intros kernels [= <-]. split; [exact Hl |].
        intros drv' env'. apply getXQAKernels_hit. exact Hl.
      * intros Hno. exfalso. apply (Hno (self st)). reflexivity.
      * intros key Hne. apply lookup_insert_ne. congruence.
    + split; [| split]; [intros kernels Hd; discriminate Hd | reflexivity
                         | reflexivity].
    + split; [| split]; [intros kernels Hd; discriminate Hd | reflexivity
                         | reflexivity].
Qed.

Lemma getXQAKernels_caches_witness :
  exists kernels,
    mKernels (fst (XQAKernelLoader_getXQAKernels Sample.driver Sample2.env
                     DATA_TYPE_FP16 80 LoaderSt_init))
      !! (DATA_TYPE_FP16, 80) = Some kernels.
Proof.
  destruct (getXQAKernels_caches Sample.driver Sample2.env DATA_TYPE_FP16 80
              LoaderSt_init _ _ (surjective_pairing _)) as (Hd & _ & _).
  eexists.
  apply (Hd (self Sample.loaded)). vm_compute. reflexivity.
Defined.

Lemma new_list_entries_from_blobs table force type sm l :
  entries_from_blobs
    {| self := XQAKernelList_new table force type sm; log := l |}.
Proof.
  intros k fi H. cbn in H. rewrite lookup_empty in H. discriminate H.
Qed.

Lemma getXQAKernels_step_ok drv env type sm ls ls' o :
  (forall t s kl, mKernels ls !! (t, s) = Some kl ->
                  cached_list_ok env t s kl) ->
  XQAKernelLoader_getXQAKernels drv env type sm ls = (ls', o) ->
  forall t s kl, mKernels ls' !! (t, s) = Some kl -> cached_list_ok env t s kl.
Proof.
  intros Hinv H t s kl Hk.
  destruct (mKernels ls !! (type, sm)) as [kl0 |] eqn:Hc.
  - rewrite (getXQAKernels_hit _ _ _ _ _ _ Hc) in H. injection H as <- _.
    apply Hinv. exact Hk.
  - rewrite (getXQAKernels_miss _ _ _ _ _ Hc) in H. cbv zeta in H.
    destruct (loadXQAKernels drv _) as [st o1] eqn:E.
    assert (Hnew : cached_list_ok env type sm (self st)).
    { pose proof (loadXQAKernels_frame _ _ _ _ E) as (Hd & Ht & Hs & Hf).
      cbn in Hd, Ht, Hs, Hf.
      repeat split; try assumption.
      exact (loadXQAKernels_entries _ _ _ _
               (new_list_entries_from_blobs _ _ _ _ _) E). }
    destruct o1 as [[] | msg | what]; cbn in H; injection H as <- _;
      cbn [mKernels] in Hk; try (apply Hinv; exact Hk).
    destruct (decide ((type, sm) = (t, s))) as [Heq | Hne].
    + injection Heq as <- <-.
      assert (Hl : <[(type, sm) := self st]> (mKernels ls) !! (type, sm)
                   = Some (self st)) by apply lookup_insert_eq.
      rewrite Hl in Hk. injection Hk as <-. exact Hnew.
    + assert (Hl : <[(type, sm) := self st]> (mKernels ls) !! (t, s)
                   = mKernels ls !! (t, s))
        by (apply lookup_insert_ne; exact Hne).
      rewrite Hl in Hk. apply Hinv. exact Hk.
Qed.

(** X11: whatever pairs a new loader is asked for and whatever the driver
    answers, a list it has cached under [(type, sm)] is of that data type
    and architecture, is built over the compiled-in table with the
    process's override, and holds only handles made for table entries of
    that data type and architecture that have a blob. *)
Theorem cached_lists_match_their_key drv env requests type sm kernels :
  mKernels (get_many drv env requests LoaderSt_init) !! (type, sm)
  = Some kernels ->
  mDataType kernels = type
  /\ mSM kernels = sm
  /\ mKernelMeta kernels = sXqaKernelMetaInfo env
  /\ mForceXQA kernels = forceXQAKernels env
  /\ forall k fi,
       mFunctions kernels !! k = Some fi ->
       exists m,
         sXqaKernelMetaInfo env !! mMetaInfoIndex fi = Some m
         /\ Meta.mCubin m <> nullptr
         /\ Meta.mSM m = sm /\ Meta.mDataType m = type
         /\ k = meta_hash_key m.
Proof.
  assert (Hall : forall ls,
            (forall t s kl, mKernels ls !! (t, s) = Some kl ->
                            cached_list_ok env t s kl) ->
            forall t s kl,
              mKernels (get_many drv env requests ls) !! (t, s) = Some kl ->
              cached_list_ok env t s kl).
  { induction requests as [| [t0 s0] rest IH]; intros ls Hinv; [exact Hinv |].
    cbn [get_many]. apply IH.
    eapply getXQAKernels_step_ok; [exact Hinv | apply surjective_pairing]. }
  intros Hk.
  assert (Hinit : forall t s kl,
            mKernels LoaderSt_init !! (t, s) = Some kl ->
            cached_list_ok env t s kl).
  { intros t s kl H.
    assert (Hn : mKernels LoaderSt_init !! (t, s) = None)
      by apply lookup_empty.
    congruence. }
  destruct (Hall LoaderSt_init Hinit type sm kernels Hk)
    as (Hd & Hs & Ht & Hf & He).
  repeat split; try assumption.
  intros k fi Hfi. destruct (He k fi Hfi) as (m & Hm & Hc & Hmm & Hkey).
  exists m. rewrite <- Ht. repeat split; try assumption.
  - unfold meta_mismatch in Hmm. apply orb_false_elim in Hmm as [Hm1 _].
    apply negb_false_iff, Z.eqb_eq in Hm1. congruence.
  - unfold meta_mismatch in Hmm. apply orb_false_elim in Hmm as [_ Hm2].
    apply negb_false_iff, bool_decide_eq_true in Hm2. congruence.
Qed.

Lemma cached_lists_match_their_key_witness :
  mSM (self Sample.loaded) = 80.
Proof.
  apply (cached_lists_match_their_key Sample.driver Sample2.env
           [(DATA_TYPE_FP16, 80)] DATA_TYPE_FP16 80 (self Sample.loaded)).
  vm_compute. reflexivity.
Defined.

(** ** The per-device table, continued *)

Lemma in_bounds_32 (s_factory : list (option Loader.XQAKernelLoader))
    (device_id : Z) :
  length s_factory = 32%nat ->
  Loader.in_bounds s_factory device_id = true <-> 0 <= device_id < 32.
Proof.
  intros Hl. unfold Loader.in_bounds.
  rewrite Hl, andb_true_iff, Z.leb_le, Z.ltb_lt. lia.
Qed.

(** X12: for a device ordinal from 0 to 31, [Get] returns a loader and
    leaves it in the ordinal's slot; the other slots and the size of the
    table are unchanged; a loader already in the slot is the one
    returned, with the table untouched; and the next [Get] for the
    ordinal returns the same loader without writing. *)
Theorem Get_creates_once (device_id : Z)
    (s_factory : list (option Loader.XQAKernelLoader)) :
  length s_factory = 32%nat ->
  0 <= device_id < 32 ->
  let r := Loader.Get device_id s_factory in
  exists loader,
    Loader.r_outcome r = Done loader
    /\ Loader.r_factory r !! Z.to_nat device_id = Some (Some loader)
    /\ length (Loader.r_factory r) = 32%nat
    /\ (forall j, j <> Z.to_nat device_id ->
                  Loader.r_factory r !! j = s_factory !! j)
    /\ (forall l, s_factory !! Z.to_nat device_id = Some (Some l) ->
                  loader = l /\ Loader.r_factory r = s_factory)
    /\ Loader.Get device_id (Loader.r_factory r)
       = {| Loader.r_factory := Loader.r_factory r;
            Loader.r_steps := [Loader.Step_read device_id;
                               Loader.Step_read device_id];
            Loader.r_outcome := Done loader |}.
Proof.
  intros Hlen Hb r. subst r.
  assert (Hin : Loader.in_bounds s_factory device_id = true)
    by (apply in_bounds_32; assumption).
  assert (Hg : Loader.guard device_id = true)
    by (unfold Loader.guard; apply Z.leb_le; lia).
  assert (Hlt : (Z.to_nat device_id < length s_factory)%nat) by lia.
  destruct (s_factory !! Z.to_nat device_id) as [[l |] |] eqn:Hs.
  - assert (HG : Loader.Get device_id s_factory
                 = {| Loader.r_factory := s_factory;
                      Loader.r_steps := [Loader.Step_read device_id;
                                         Loader.Step_read device_id];
                      Loader.r_outcome := Done l |}).
    { unfold Loader.Get. rewrite Hin, Hs. reflexivity. }
    rewrite HG. cbn [Loader.r_factory Loader.r_outcome].
    exists l. split; [reflexivity |]. split; [exact Hs |].
    split; [exact Hlen |]. split; [reflexivity |].
    split; [| exact HG].
    intros l' Hl'. rewrite ?Hs in Hl'. injection Hl' as <-. auto.
  - assert (HG : Loader.Get device_id s_factory
                 = {| Loader.r_factory :=
                        <[Z.to_nat device_id := Some ∅]> s_factory;
                      Loader.r_steps := [Loader.Step_read device_id;
                                         Loader.Step_assert true;
                                         Loader.Step_write device_id;
                                         Loader.Step_read device_id];
                      Loader.r_outcome := Done ∅ |}).
    { unfold Loader.Get. rewrite Hin, Hs, Hg. reflexivity. }
    rewrite HG. cbn [Loader.r_factory Loader.r_outcome].
    assert (Hnew : <[Z.to_nat device_id := Some (∅ : Loader.XQAKernelLoader)]>
                     s_factory !! Z.to_nat device_id = Some (Some ∅))
      by (apply list_lookup_insert_eq; exact Hlt).
    exists ∅. split; [reflexivity |]. split; [exact Hnew |].
    split; [rewrite length_insert; exact Hlen |].
    split; [intros j Hj; apply list_lookup_insert_ne; congruence |].
    split; [intros l Hl; rewrite ?Hs in Hl; discriminate Hl |].
    unfold Loader.Get.
    assert (Hin' : Loader.in_bounds
                     (<[Z.to_nat device_id := Some ∅]> s_factory)
                     device_id = true)
      by (apply in_bounds_32; [rewrite length_insert |]; assumption).
    rewrite Hin', Hnew. reflexivity.
  - apply lookup_ge_None in Hs. lia.
Qed.

Lemma Get_creates_once_witness :
  exists loader,
    Loader.r_outcome (Loader.Get 3 Loader.s_factory_init) = Done loader.
Proof.
  destruct (Get_creates_once 3 Loader.s_factory_init eq_refl
              ltac:(lia)) as (loader & Ho & _).
  exists loader. exact Ho.
Defined.


(* ------------------------------------------------------------------ *)
(** ** The public methods: [shouldUse] and [runDispatchBuffer]        *)
(* ------------------------------------------------------------------ *)

(** *** What each layer adds to the log *)

Ltac give_log :=
  eexists; split;
  [ cbn [log]; rewrite <- ?app_assoc;
    first [reflexivity | symmetry; apply app_nil_r]
  | repeat constructor ].

Lemma loadKernel_log drv i m st st' o :
  loadKernel drv i m st = (st', o) ->
  exists evs,
    log st' = log st ++ evs /\ Forall (fun e => is_loading e = true) evs.
Proof.
  intros H. open_loadKernel H. all: give_log.
Qed.

Lemma loadXQAKernels_log drv st st' o :
  loadXQAKernels drv st = (st', o) ->
  exists evs,
    log st' = log st ++ evs /\ Forall (fun e => is_loading e = true) evs.
Proof.
  apply (loadXQAKernels_preserves drv
           (fun s => exists evs,
              log s = log st ++ evs
              /\ Forall (fun e => is_loading e = true) evs)).
  - intros i m s s' o' (evs & Hl & Hf) H.
    apply loadKernel_log in H as (evs' & Hl' & Hf').
    exists (evs ++ evs'). split.
    + rewrite Hl', Hl, app_assoc. reflexivity.
    + apply Forall_app. split; assumption.
  - exists []. split; [symmetry; apply app_nil_r | constructor].
Qed.

Lemma supportConfig_log (p : XQAParams) (st st' : St) (o : outcome bool) :
  supportConfig p st = (st', o) ->
  exists evs,
    log st' = log st ++ evs
    /\ Forall (fun e => is_loading e = false /\ is_device_work e = false) evs.
Proof.
  unfold supportConfig, check_heads. intros H. unfold_monad H.
  split_cases. all: give_log.
Qed.

Lemma launchSingleToken_log drv ext p kv lp q info mp st st' o :
  launchSingleToken drv ext p kv lp q info mp st = (st', o) ->
  exists evs,
    st' = {| self := self st; log := log st ++ evs |}
    /\ Forall (fun e => is_loading e = false) evs.
Proof.
  intros H. apply launchSingleToken_events in H as (evs & -> & Hev).
  exists evs. split; [reflexivity |].
  destruct Hev as [-> | (c & r & ->)]; repeat constructor.
Qed.

Lemma launchMultiToken_log drv ext p lp q info mp st st' o :
  launchMultiToken drv ext p lp q info mp st = (st', o) ->
  exists evs,
    st' = {| self := self st; log := log st ++ evs |}
    /\ Forall (fun e => is_loading e = false) evs.
Proof.
  intros H. apply launchMultiToken_events in H as (evs & -> & Hev).
  exists evs. split; [reflexivity |].
  destruct (multi_block_mode p).
  - destruct Hev as [-> | [-> | [-> | (c & r & ->)]]]; repeat constructor.
  - destruct Hev as [-> | (c & r & ->)]; repeat constructor.
Qed.

Lemma run_log drv ext p kv mp st st' o :
  run drv ext p kv mp st = (st', o) ->
  exists evs,
    log st' = log st ++ evs /\ Forall (fun e => is_loading e = false) evs.
Proof.
  unfold run, check_heads. intros H. unfold_monad H.
  repeat (case_match; simplify_eq/=).
  all: repeat match goal with
       | H : launchMultiToken _ _ _ _ _ _ _ _ = (_, _) |- _ =>
           apply launchMultiToken_log in H as (evs & -> & Hev)
       | H : launchSingleToken _ _ _ _ _ _ _ _ _ = (_, _) |- _ =>
           apply launchSingleToken_log in H as (evs & -> & Hev)
       end.
  all: eexists; split;
       [ cbn [log]; rewrite <- ?app_assoc;
         first [reflexivity | symmetry; apply app_nil_r] |].
  all: repeat first [apply Forall_app; split | assumption
                    | apply Forall_cons; split; [reflexivity |]
                    | apply Forall_nil_2 ].
Qed.

(** *** The free function [getXQAKernels] *)

Lemma Process_eta (ps : Process) :
  {| s_factory := s_factory ps; p_log := p_log ps |} = ps.
Proof. destruct ps. reflexivity. Qed.

Lemma Get_done (device_id : Z) (f : list (option Loader.XQAKernelLoader))
    (loader : Loader.XQAKernelLoader) :
  Loader.r_outcome (Loader.Get device_id f) = Done loader ->
  0 <= device_id
  /\ (Z.to_nat device_id < length f)%nat
  /\ length (Loader.r_factory (Loader.Get device_id f)) = length f
  /\ forall j, j <> Z.to_nat device_id ->
               Loader.r_factory (Loader.Get device_id f) !! j = f !! j.
Proof.
  unfold Loader.Get.
  destruct (Loader.in_bounds f device_id) eqn:Hin; cbn [negb];
    [| discriminate].
  unfold Loader.in_bounds in Hin.
  apply andb_prop in Hin as [H0 H1].
  apply Z.leb_le in H0. apply Z.ltb_lt in H1.
  assert (Hlt : (Z.to_nat device_id < length f)%nat) by lia.
  intros H. split; [exact H0 |]. split; [exact Hlt |].
  repeat case_match; simplify_eq/=;
    rewrite ?length_insert; (split; [reflexivity |]); intros j Hj;
    try reflexivity;
    apply list_lookup_insert_ne; congruence.
Qed.

Lemma Get_existing (device_id : Z) (f : list (option Loader.XQAKernelLoader))
    (loader : Loader.XQAKernelLoader) :
  0 <= device_id ->
  f !! Z.to_nat device_id = Some (Some loader) ->
  Loader.Get device_id f
  = {| Loader.r_factory := f;
       Loader.r_steps := [Loader.Step_read device_id;
                          Loader.Step_read device_id];
       Loader.r_outcome := Done loader |}.
Proof.
  intros H0 Hs. unfold Loader.Get.
  assert (Hin : Loader.in_bounds f device_id = true).
  { unfold Loader.in_bounds. apply lookup_lt_Some in Hs.
    apply andb_true_intro. split; [apply Z.leb_le | apply Z.ltb_lt]; lia. }
  rewrite Hin, Hs. reflexivity.
Qed.

(** A call of the free function only adds calls of the driver's loader
    interface to the log, and writes only to the slot of the current
    device; a list it returns is cached in that slot. *)
Lemma getXQAKernels_inv drv env plat type sm ps ps' o :
  getXQAKernels drv env plat type sm ps = (ps', o) ->
  (exists evs,
     p_log ps' = p_log ps ++ evs
     /\ Forall (fun e => is_loading e = true) evs)
  /\ (forall j, j <> Z.to_nat (getDevice plat) ->
                s_factory ps' !! j = s_factory ps !! j)
  /\ (forall kernels, o = Done kernels ->
        0 <= getDevice plat
        /\ exists loader,
             s_factory ps' !! Z.to_nat (getDevice plat) = Some (Some loader)
             /\ loader !! (type, sm) = Some kernels).
Proof.
  unfold getXQAKernels.
  destruct (Loader.r_outcome (Loader.Get (getDevice plat) (s_factory ps)))
    as [loader | msg | what] eqn:HG.
  - apply Get_done in HG as (H0 & Hlt & Hlen & Hother).
    destruct (mKernels
                {| mKernels := loader; llog := p_log ps |} !! (type, sm))
      as [kernels |] eqn:Hk.
    + rewrite (getXQAKernels_hit _ _ _ _ _ _ Hk).
      intros [= <- <-]. cbn [s_factory p_log mKernels llog].
      split; [exists []; split; [symmetry; apply app_nil_r | constructor] |].
      split.
      * intros j Hj. rewrite list_lookup_insert_ne by congruence.
        apply Hother, Hj.
      * intros k [= <-]. split; [exact H0 |]. exists loader.
        split; [| exact Hk].
        apply list_lookup_insert_eq. rewrite Hlen. exact Hlt.
    + rewrite (getXQAKernels_miss _ _ _ _ _ Hk). cbn zeta.
      destruct (loadXQAKernels drv _) as [st1 o1] eqn:HL.
      apply loadXQAKernels_log in HL as Hlog. cbn [log] in Hlog.
      cbn [fst snd].
      destruct o1 as [[] | msg | what]; intros [= <- <-];
        cbn [s_factory p_log mKernels llog];
        (split; [exact Hlog |]);
        (split; [intros j Hj; rewrite list_lookup_insert_ne by congruence;
                 apply Hother, Hj |]);
        intros k Hd; try discriminate Hd.
      injection Hd as <-. split; [exact H0 |].
      eexists. split.
      * apply list_lookup_insert_eq. rewrite Hlen. exact Hlt.
      * apply lookup_insert_eq.
  - intros [= <- <-]. cbn [s_factory p_log].
    split; [exists []; split; [symmetry; apply app_nil_r | constructor] |].
    split; [| discriminate].
    intros j Hj. unfold Loader.Get in *.
    repeat case_match; simplify_eq/=; reflexivity.
  - intros [= <- <-]. cbn [s_factory p_log].
    split; [exists []; split; [symmetry; apply app_nil_r | constructor] |].
    split; [| discriminate].
    intros j Hj. unfold Loader.Get in *.
    repeat case_match; simplify_eq/=; reflexivity.
Qed.

(** A list that is cached for the current device is returned with the
    process unchanged. *)
Lemma getXQAKernels_cached drv env plat type sm ps loader kernels :
  0 <= getDevice plat ->
  s_factory ps !! Z.to_nat (getDevice plat) = Some (Some loader) ->
  loader !! (type, sm) = Some kernels ->
  getXQAKernels drv env plat type sm ps = (ps, Done kernels).
Proof.
  intros H0 Hs Hk. unfold getXQAKernels.
  rewrite (Get_existing _ _ _ H0 Hs). cbn [Loader.r_outcome Loader.r_factory].
  assert (Hk' : mKernels {| mKernels := loader; llog := p_log ps |}
                !! (type, sm) = Some kernels) by exact Hk.
  rewrite (getXQAKernels_hit _ _ _ _ _ _ Hk'). cbn [mKernels llog].
  rewrite list_insert_id by exact Hs. rewrite Process_eta. reflexivity.
Qed.

Lemma on_kernels_factory {A} xqa_kernel (m : M A) ps ps' o :
  on_kernels xqa_kernel m ps = (ps', o) ->
  s_factory ps' = s_factory ps.
Proof.
  unfold on_kernels. destruct (m _) as [st o']. intros [= <- <-].
  reflexivity.
Qed.

Lemma loading_is_not_device_work (evs : list Event) :
  Forall (fun e => is_loading e = true) evs ->
  Forall (fun e => is_device_work e = false) evs.
Proof.
  intros Hl. eapply Forall_impl; [exact Hl |].
  intros [] H; cbn in *; congruence.
Qed.

Lemma p_events_since_app (ps ps' : Process) (evs : list Event) :
  p_log ps' = p_log ps ++ evs -> p_events_since ps ps' = evs.
Proof.
  intros H. unfold p_events_since. rewrite H. apply drop_app_length.
Qed.

(** X14: [shouldUse] only inspects: whatever its outcome, it adds to the
    log no preprocessing, memset, launch or conversion, and it writes to
    no slot of [s_factory] but that of the current device. When it answers
    true, the list for the runner's data type and the architecture is
    cached in that slot, holds a handle under the request's
    [supportConfig] key, and [mayHavePerfGain] is true on it. *)
Theorem shouldUse_only_inspects drv env plat K mRunner xqaParams ps ps' o :
  shouldUse drv env plat K mRunner xqaParams ps = (ps', o) ->
  p_log ps' = p_log ps ++ p_events_since ps ps'
  /\ Forall (fun e => is_device_work e = false) (p_events_since ps ps')
  /\ (forall j, j <> Z.to_nat (getDevice plat) ->
                s_factory ps' !! j = s_factory ps !! j)
  /\ (o = Done true ->
      exists loader kernels,
        s_factory ps' !! Z.to_nat (getDevice plat) = Some (Some loader)
        /\ loader !! (Runner.mDataType mRunner, to_uint (getSMVersion plat))
           = Some kernels
        /\ is_Some (mFunctions kernels !! supportConfig_hash_key xqaParams)
        /\ mayHavePerfGain K kernels xqaParams
             (Runner.mMultiProcessorCount mRunner) = true).
Proof.
  unfold shouldUse.
  destruct (getXQAKernels drv env plat _ _ ps) as [ps1 o1] eqn:HG.
  apply getXQAKernels_inv in HG as ((evs & Hlog & Hev) & Hother & Hdone).
  apply loading_is_not_device_work in Hev.
  destruct o1 as [xqa_kernel | msg | what].
  - destruct (Hdone _ eq_refl) as (H0 & loader & Hs & Hk).
    unfold on_kernels.
    destruct (supportConfig xqaParams _) as [st2 o2] eqn:HS.
    apply supportConfig_inv in HS as Hinv.
    destruct Hinv as (evs0 & _ & _ & Htrue & _).
    apply supportConfig_log in HS as (evs2 & Hlog2 & Hev2).
    cbn [log self] in Hlog2, Htrue.
    assert (Hall : Forall (fun e => is_device_work e = false) (evs ++ evs2)).
    { apply Forall_app. split; [exact Hev |].
      eapply Forall_impl; [exact Hev2 |]. cbn. tauto. }
    assert (Hl : log st2 = p_log ps ++ evs ++ evs2).
    { rewrite Hlog2, Hlog, app_assoc. reflexivity. }
    destruct o2 as [[|] | msg | what]; intros [= <- <-];
      cbn [s_factory p_log];
      rewrite (p_events_since_app ps {| s_factory := s_factory ps1;
                                        p_log := log st2 |} _ Hl);
      (split; [exact Hl |]); (split; [exact Hall |]);
      (split; [exact Hother |]); intros Ho; try discriminate Ho.
    injection Ho as Hg. exists loader, xqa_kernel.
    split; [exact Hs |]. split; [exact Hk |].
    split; [apply Htrue; reflexivity | exact Hg].
  - intros [= <- <-]. rewrite (p_events_since_app _ _ _ Hlog).
    split; [exact Hlog |]. split; [exact Hev |].
    split; [exact Hother | discriminate].
  - intros [= <- <-]. rewrite (p_events_since_app _ _ _ Hlog).
    split; [exact Hlog |]. split; [exact Hev |].
    split; [exact Hother | discriminate].
Qed.

Lemma shouldUse_only_inspects_witness :
  let r := shouldUse Sample.driver Sample2.env Sample2.platform Sample.K
             Sample2.runner Sample.multi8 Process_init in
  snd r = Done true
  /\ Forall (fun e => is_device_work e = false)
       (p_events_since Process_init (fst r))
  /\ exists loader kernels,
       s_factory (fst r) !! 3%nat = Some (Some loader)
       /\ loader !! (DATA_TYPE_FP16, 80) = Some kernels
       /\ is_Some (mFunctions kernels
                     !! supportConfig_hash_key Sample.multi8).
Proof.
  cbv zeta.
  assert (Hr : snd (shouldUse Sample.driver Sample2.env Sample2.platform
                      Sample.K Sample2.runner Sample.multi8 Process_init)
               = Done true) by (vm_compute; reflexivity).
  split; [exact Hr |].
  destruct (shouldUse_only_inspects Sample.driver Sample2.env
              Sample2.platform Sample.K Sample2.runner Sample.multi8
              Process_init _ _ (pair_of_snd _ _ Hr))
    as (_ & Hwork & _ & Htrue).
  split; [exact Hwork |].
  destruct (Htrue eq_refl) as (loader & kernels & Hs & Hk & Hf & _).
  exists loader, kernels. auto.
Defined.

(** X15: after a call of [shouldUse] that returned, a dispatch on the
    same device, data type and architecture uses the cached list: it makes
    no call of the driver's loader interface and leaves [s_factory] as it
    is. If [shouldUse] answered true for the request and the request is
    single-token or of query length at most 16, the dispatch of that
    request finds its handle: it does not throw "XQAKernelFunc not
    found.". *)
Theorem shouldUse_then_dispatch drv ext env plat K mRunner xqaParams
    xqa_params kv_cache_buffer ps ps1 ps2 b o :
  shouldUse drv env plat K mRunner xqaParams ps = (ps1, Done b) ->
  runDispatchBuffer drv ext env plat mRunner xqa_params kv_cache_buffer ps1
  = (ps2, o) ->
  s_factory ps2 = s_factory ps1
  /\ p_log ps2 = p_log ps1 ++ p_events_since ps1 ps2
  /\ Forall (fun e => is_loading e = false) (p_events_since ps1 ps2)
  /\ (b = true -> xqa_params = xqaParams ->
      multi_query_tokens xqaParams = false \/ qSeqLen_of xqaParams <= 16 ->
      o <> Fatal "XQAKernelFunc not found.").
Proof.
  unfold shouldUse.
  destruct (getXQAKernels drv env plat _ _ ps) as [ps0 o0] eqn:HG.
  apply getXQAKernels_inv in HG as (_ & _ & Hdone).
  destruct o0 as [xqa_kernel | msg | what]; [| discriminate | discriminate].
  destruct (Hdone _ eq_refl) as (H0 & loader & Hs & Hk). clear Hdone.
  destruct (on_kernels xqa_kernel (supportConfig xqaParams) ps0)
    as [ps1' o1] eqn:HS.
  assert (Hf : s_factory ps1' = s_factory ps0)
    by (eapply on_kernels_factory; exact HS).
  unfold on_kernels in HS.
  destruct (supportConfig xqaParams _) as [st1 o1'] eqn:HS'.
  injection HS as <- <-.
  apply supportConfig_inv in HS' as (evs0 & _ & _ & Htrue & Hfalse).
  cbn [self] in Htrue, Hfalse.
  intros Hshould.
  assert (Hps1 : s_factory ps1 = s_factory ps0).
  { destruct o1' as [[|] | |]; simplify_eq/=; reflexivity. }
  assert (Hb : b = true ->
               is_Some (mFunctions xqa_kernel
                          !! supportConfig_hash_key xqaParams)).
  { intros ->. apply Htrue.
    destruct o1' as [[|] | |]; simplify_eq/=; reflexivity. }
  clear Hshould Htrue Hfalse.
  rewrite <- Hps1 in Hs.
  unfold runDispatchBuffer.
  rewrite (getXQAKernels_cached drv env plat _ _ ps1 loader xqa_kernel
             H0 Hs Hk).
  unfold on_kernels.
  destruct (run drv ext xqa_params kv_cache_buffer _ _) as [st2 o2] eqn:HR.
  intros [= <- <-]. cbn [s_factory p_log].
  apply run_inv in HR as Hinv.
  destruct Hinv as (evs1 & _ & _ & _ & _ & _ & Hnf).
  apply run_log in HR as (evs & Hlog & Hev). cbn [log self] in Hlog, Hnf.
  rewrite (p_events_since_app ps1 {| s_factory := s_factory ps1;
                                     p_log := log st2 |} _ Hlog).
  split; [reflexivity |]. split; [exact Hlog |]. split; [exact Hev |].
  intros -> -> Hsmall Ho. apply Hnf in Ho.
  apply hash_keys_agree_iff in Hsmall. rewrite <- Hsmall in Ho.
  destruct (Hb eq_refl) as [fi Hfi]. congruence.
Qed.

Lemma shouldUse_then_dispatch_witness :
  let ps1 := fst (shouldUse Sample.driver Sample2.env Sample2.platform
                    Sample.K Sample2.runner Sample.multi8 Process_init) in
  let r := runDispatchBuffer Sample.driver Sample.helpers Sample2.env
             Sample2.platform Sample2.runner Sample.multi8 1%N ps1 in
  s_factory (fst r) = s_factory ps1
  /\ Forall (fun e => is_loading e = false) (p_events_since ps1 (fst r))
  /\ snd r <> Fatal "XQAKernelFunc not found.".
Proof.
  cbv zeta.
  assert (Hr : snd (shouldUse Sample.driver Sample2.env Sample2.platform
                      Sample.K Sample2.runner Sample.multi8 Process_init)
               = Done true) by (vm_compute; reflexivity).
  destruct (shouldUse_then_dispatch Sample.driver Sample.helpers
              Sample2.env Sample2.platform Sample.K Sample2.runner
              Sample.multi8 Sample.multi8 1%N Process_init _ _ true _
              (pair_of_snd _ _ Hr) (surjective_pairing _))
    as (Hf & _ & Hl & Hfound).
  split; [exact Hf |]. split; [exact Hl |].
  apply Hfound; [reflexivity | reflexivity |].
  right. vm_compute. discriminate.
Defined.

(** X16: in a call of [runDispatchBuffer] every call of the driver's
    loader interface comes before everything else the call logs, and
    nothing else is logged unless the list for the runner's data type and
    the architecture is cached in the slot of the current device when the
    call ends; no other slot is written. A call that returns has made
    exactly one launch. *)
Theorem runDispatchBuffer_loads_first drv ext env plat mRunner xqa_params
    kv_cache_buffer ps ps' o :
  runDispatchBuffer drv ext env plat mRunner xqa_params kv_cache_buffer ps
  = (ps', o) ->
  exists loads work,
    p_log ps' = p_log ps ++ loads ++ work
    /\ Forall (fun e => is_loading e = true) loads
    /\ Forall (fun e => is_loading e = false) work
    /\ (forall j, j <> Z.to_nat (getDevice plat) ->
                  s_factory ps' !! j = s_factory ps !! j)
    /\ (work <> [] \/ o = Done tt ->
        exists loader kernels,
          s_factory ps' !! Z.to_nat (getDevice plat) = Some (Some loader)
          /\ loader !! (Runner.mDataType mRunner,
                        to_uint (getSMVersion plat)) = Some kernels)
    /\ (o = Done tt -> length (launches work) = 1%nat).
Proof.
  unfold runDispatchBuffer.
  destruct (getXQAKernels drv env plat _ _ ps) as [ps1 o1] eqn:HG.
  apply getXQAKernels_inv in HG as ((loads & Hlog & Hev) & Hother & Hdone).
  destruct o1 as [xqa_kernel | msg | what].
  - destruct (Hdone _ eq_refl) as (H0 & loader & Hs & Hk).
    unfold on_kernels.
    destruct (run drv ext xqa_params kv_cache_buffer _ _) as [st2 o2] eqn:HR.
    intros [= <- <-]. cbn [s_factory p_log].
    apply run_inv in HR as Hinv.
    destruct Hinv as (evs1 & Hst & _ & _ & _ & Hone & _).
    apply run_log in HR as (work & Hlog2 & Hev2).
    cbn [log self] in Hlog2.
    assert (evs1 = work) as ->.
    { rewrite Hst in Hlog2. cbn [log] in Hlog2.
      apply app_inv_head in Hlog2. exact Hlog2. }
    exists loads, work.
    split; [rewrite Hlog2, Hlog, app_assoc; reflexivity |].
    split; [exact Hev |]. split; [exact Hev2 |]. split; [exact Hother |].
    split; [intros _; exists loader, xqa_kernel; auto | exact Hone].
  - intros [= <- <-]. exists loads, [].
    split; [rewrite app_nil_r; exact Hlog |].
    split; [exact Hev |]. split; [constructor |]. split; [exact Hother |].
    split; [intros [H | H]; [congruence | discriminate H] | discriminate].
  - intros [= <- <-]. exists loads, [].
    split; [rewrite app_nil_r; exact Hlog |].
    split; [exact Hev |]. split; [constructor |]. split; [exact Hother |].
    split; [intros [H | H]; [congruence | discriminate H] | discriminate].
Qed.

Lemma runDispatchBuffer_loads_first_witness :
  let r := runDispatchBuffer Sample.driver Sample.helpers Sample2.env
             Sample2.platform Sample2.runner Sample.multi8 1%N
             Process_init in
  snd r = Done tt
  /\ exists loads work,
       p_log (fst r) = loads ++ work
       /\ Forall (fun e => is_loading e = true) loads
       /\ Forall (fun e => is_loading e = false) work
       /\ length (launches work) = 1%nat.
Proof.
  cbv zeta.
  assert (Hr : snd (runDispatchBuffer Sample.driver Sample.helpers
                      Sample2.env Sample2.platform Sample2.runner
                      Sample.multi8 1%N Process_init)
               = Done tt) by (vm_compute; reflexivity).
  split; [exact Hr |].
  destruct (runDispatchBuffer_loads_first Sample.driver Sample.helpers
              Sample2.env Sample2.platform Sample2.runner Sample.multi8
              1%N Process_init _ _ (pair_of_snd _ _ Hr))
    as (loads & work & Hlog & Hl & Hw & _ & _ & Hone).
  exists loads, work. split; [exact Hlog |]. split; [exact Hl |].
  split; [exact Hw |]. apply Hone. reflexivity.
Defined.
